(** * Link_Checker: ingestion, snapshot store and search engine of [app.py]

    A shallow embedding of the four core functions of [app.py]
    ([process_excel_file], [save_workbook_data], [load_workbook_data],
    [search_link_in_workbook]) together with a model of the Python
    primitives they call, and the properties of the specification
    proved (or refuted) about them.  The admin authentication and the
    script itself ([admin_login_form], [admin_panel], [main]) follow,
    with what the code shows about them. *)

From Stdlib Require Import List NArith ZArith Bool Lia String Ascii Decimal DecimalN.
Import ListNotations.

Local Open Scope N_scope.
Local Open Scope list_scope.

(* ===================================================================== *)
(** * Python values used by the program *)
(* ===================================================================== *)

(** A Python [str] is a sequence of code points. *)
Abbreviation char := N (only parsing).
Abbreviation str := (list N) (only parsing).

(** Reading a literal of this file as a [str]. *)
Definition lit (s : string) : str :=
  map N_of_ascii (list_ascii_of_string s).

Fixpoint str_eqb (a b : str) : bool :=
  match a, b with
  | [], [] => true
  | x :: a', y :: b' => (x =? y) && str_eqb a' b'
  | _, _ => false
  end.

(** [needle in hay] on strings: substring containment. *)
Fixpoint startswith (hay needle : str) {struct needle} : bool :=
  match needle, hay with
  | [], _ => true
  | x :: needle', y :: hay' => (x =? y) && startswith hay' needle'
  | _ :: _, [] => false
  end.

Fixpoint contains (needle hay : str) : bool :=
  startswith hay needle ||
  match hay with
  | [] => false
  | _ :: hay' => contains needle hay'
  end.

(** The mathematical notion the specification speaks of. *)
Definition Substring (needle hay : str) : Prop :=
  exists pre post, hay = pre ++ needle ++ post.

(** [str(n)] for a non-negative integer: decimal digits, no leading zero. *)
Fixpoint chars_of_uint (d : uint) : str :=
  match d with
  | Nil => []
  | D0 d => 48 :: chars_of_uint d
  | D1 d => 49 :: chars_of_uint d
  | D2 d => 50 :: chars_of_uint d
  | D3 d => 51 :: chars_of_uint d
  | D4 d => 52 :: chars_of_uint d
  | D5 d => 53 :: chars_of_uint d
  | D6 d => 54 :: chars_of_uint d
  | D7 d => 55 :: chars_of_uint d
  | D8 d => 56 :: chars_of_uint d
  | D9 d => 57 :: chars_of_uint d
  end.

Definition str_of_N (n : N) : str := chars_of_uint (N.to_uint n).

Definition str_of_Z (z : Z) : str :=
  match z with
  | Zneg p => 45 :: str_of_N (Npos p)
  | _ => str_of_N (Z.to_N z)
  end.

(** [s.strip()] with no argument removes the characters for which
    [isspace] holds from both ends. *)
Section Strip.
Variable isspace : char -> bool.

Fixpoint lstrip (s : str) : str :=
  match s with
  | [] => []
  | c :: s' => if isspace c then lstrip s' else s
  end.

Definition rstrip (s : str) : str := List.rev (lstrip (List.rev s)).

Definition strip (s : str) : str := rstrip (lstrip s).
End Strip.

(* ===================================================================== *)
(** * The data model: [workbook_data] *)
(* ===================================================================== *)

(** The value stored under [workbook_data['sheets'][name]]. *)
Record sheet_info := {
  data : list (list str);
  columns : list str;
  rows : Z
}.

(** The dict built by [process_excel_file].  A Python dict keeps its
    insertion order, and the scan order of the search depends on it, so
    ['sheets'] is an association list. *)
Record workbook_data := {
  sheets : list (str * sheet_info);
  upload_time : str;
  filename : str;
  file_size : Z;
  total_rows : Z
}.

Inductive match_kind := Exact | Partial.

(** One entry of the list returned by the search. *)
Record Match := {
  sheet : str;
  row : nat;
  column : str;
  cell_value : str;
  match_type : match_kind
}.

(* ===================================================================== *)
(** * [search_link_in_workbook] *)
(* ===================================================================== *)

Section Search.
(** [str.lower] and [str.isspace] are given by the Unicode character
    database, which is not part of the program: they are parameters. *)
Variable lower : str -> str.
Variable isspace : char -> bool.

(** [str(cell_value)]: the cells of a workbook are strings already. *)
Definition py_str (cell_value : str) : str := cell_value.

(** [columns[col_idx] if col_idx < len(columns) else f"Column_{col_idx + 1}"] *)
Definition col_name (cols : list str) (col_idx : nat) : str :=
  match nth_error cols col_idx with
  | Some name => name
  | None => lit "Column_" ++ str_of_N (N.of_nat (col_idx + 1))
  end.

Definition make_match (search_term_lower sheet_name : str) (cols : list str)
           (row_idx col_idx : nat) (value : str) : Match :=
  {| sheet := sheet_name;
     row := row_idx + 2;
     column := col_name cols col_idx;
     cell_value := py_str value;
     match_type := if str_eqb search_term_lower (lower (py_str value))
                   then Exact else Partial |}.

(** [for col_idx, cell_value in enumerate(row)] *)
Fixpoint scan_row (search_term_lower sheet_name : str) (cols : list str)
         (row_idx col_idx : nat) (cells : list str) (results : list Match)
  : list Match :=
  match cells with
  | [] => results
  | value :: cells' =>
      let results :=
        if contains search_term_lower (lower (py_str value))
        then results ++ [make_match search_term_lower sheet_name cols row_idx col_idx value]
        else results in
      scan_row search_term_lower sheet_name cols row_idx (S col_idx) cells' results
  end.

(** [for row_idx, row in enumerate(sheet_data)] *)
Fixpoint scan_sheet (search_term_lower sheet_name : str) (cols : list str)
         (row_idx : nat) (sheet_data : list (list str)) (results : list Match)
  : list Match :=
  match sheet_data with
  | [] => results
  | r :: sheet_data' =>
      scan_sheet search_term_lower sheet_name cols (S row_idx) sheet_data'
                 (scan_row search_term_lower sheet_name cols row_idx 0 r results)
  end.

(** [for sheet_name, sheet_info in workbook_data['sheets'].items()] *)
Fixpoint scan_sheets (search_term_lower : str) (items : list (str * sheet_info))
         (results : list Match) : list Match :=
  match items with
  | [] => results
  | (sheet_name, info) :: items' =>
      scan_sheets search_term_lower items'
                  (scan_sheet search_term_lower sheet_name (columns info) 0 (data info) results)
  end.

Definition search_link_in_workbook (wb : workbook_data) (search_term : str)
  : list Match :=
  let results := [] in
  let search_term_lower := strip isspace (lower search_term) in
  match search_term_lower with
  | [] => results
  | _ :: _ => scan_sheets search_term_lower (sheets wb) results
  end.

(** The cell found at sheet [si], row [ri], column position [ci]. *)
Definition cell_at (wb : workbook_data) (p : nat * nat * nat)
  : option (str * sheet_info * str) :=
  let '(si, ri, ci) := p in
  match nth_error (sheets wb) si with
  | None => None
  | Some (name, info) =>
      match nth_error (data info) ri with
      | None => None
      | Some r =>
          match nth_error r ci with
          | None => None
          | Some v => Some (name, info, v)
          end
      end
  end.
End Search.

(** ** Enumeration of the cells of a workbook, in scan order

    Each cell is listed with its position (sheet index, zero-based row
    index, zero-based column position) and with the sheet's name, the
    sheet's record and the cell's value. *)
Definition located : Type := (nat * nat * nat) * (str * sheet_info * str).

Fixpoint cells_row (si : nat) (name : str) (info : sheet_info)
         (ri ci : nat) (r : list str) : list located :=
  match r with
  | [] => []
  | v :: r' => ((si, ri, ci), (name, info, v)) :: cells_row si name info ri (S ci) r'
  end.

Fixpoint cells_sheet (si : nat) (name : str) (info : sheet_info)
         (ri : nat) (rs : list (list str)) : list located :=
  match rs with
  | [] => []
  | r :: rs' => cells_row si name info ri 0 r ++ cells_sheet si name info (S ri) rs'
  end.

Fixpoint cells_sheets (si : nat) (items : list (str * sheet_info)) : list located :=
  match items with
  | [] => []
  | (name, info) :: items' =>
      cells_sheet si name info 0 (data info) ++ cells_sheets (S si) items'
  end.

Definition all_cells (wb : workbook_data) : list located :=
  cells_sheets 0 (sheets wb).

(** The search written as a filter over the enumeration: the form in
    which the loops are reasoned about. *)
Definition hit (lower : str -> str) (q : str) (c : located) : bool :=
  contains q (lower (py_str (snd (snd c)))).

Definition match_of (lower : str -> str) (q : str) (c : located) : Match :=
  let '((_, ri, ci), (name, info, v)) := c in
  make_match lower q name (columns info) ri ci v.

(** ** The ASCII part of the Unicode tables, for running the search *)
Definition ascii_lower_char (c : char) : char :=
  if (65 <=? c) && (c <=? 90) then c + 32 else c.

Definition ascii_lower (s : str) : str := map ascii_lower_char s.

Definition ascii_isspace (c : char) : bool :=
  ((9 <=? c) && (c <=? 13)) || ((28 <=? c) && (c <=? 32)).

(** The workbook of the specification's scenarios. *)
Definition links_workbook : workbook_data :=
  {| sheets :=
       [ (lit "Links",
          {| data := [ [lit "1"; lit "https://a.com"];
                       [lit "2"; lit "HTTPS://A.com/page"] ];
             columns := [lit "ID"; lit "URL"];
             rows := 2 |}) ];
     upload_time := lit "2024-01-01 00:00:00";
     filename := lit "links.xlsx";
     file_size := 1024;
     total_rows := 2 |}.

(** A sheet whose second row is longer than its column list. *)
Definition ragged_workbook : workbook_data :=
  {| sheets :=
       [ (lit "S",
          {| data := [ [lit "x"]; [lit "y"; lit "see a.com"] ];
             columns := [lit "ID"];
             rows := 2 |}) ];
     upload_time := lit "2024-01-01 00:00:00";
     filename := lit "r.xlsx";
     file_size := 10;
     total_rows := 2 |}.

(** A sheet with a cell padded with spaces. *)
Definition padded_workbook : workbook_data :=
  {| sheets :=
       [ (lit "S",
          {| data := [ [lit " A.com "] ]; columns := [lit "URL"]; rows := 1 |}) ];
     upload_time := lit "2024-01-01 00:00:00";
     filename := lit "p.xlsx";
     file_size := 10;
     total_rows := 1 |}.

(* ===================================================================== *)
(** * Exceptions and ordered dicts *)
(* ===================================================================== *)

(** The exceptions the modelled calls raise. *)
Inductive exn :=
| KeyError
| ValueError
| TypeError
| OSError
| UnicodeDecodeError
| JSONDecodeError.

Inductive result (A : Type) :=
| Ok (a : A)
| Raise (e : exn).
Arguments Ok {A} a.
Arguments Raise {A} e.

Definition bind {A B : Type} (r : result A) (k : A -> result B) : result B :=
  match r with
  | Ok a => k a
  | Raise e => Raise e
  end.

Notation "x <- r ;; k" := (bind r (fun x => k))
  (at level 61, r at next level, right associativity).

(** [d[key] = value] on an insertion-ordered dict: an existing key keeps
    its place and takes the new value, a new key goes last. *)
Fixpoint dict_set {V : Type} (d : list (str * V)) (key : str) (value : V)
  : list (str * V) :=
  match d with
  | [] => [(key, value)]
  | (k, v) :: d' =>
      if str_eqb k key then (k, value) :: d'
      else (k, v) :: dict_set d' key value
  end.

Fixpoint dict_get {V : Type} (d : list (str * V)) (key : str) : option V :=
  match d with
  | [] => None
  | (k, v) :: d' => if str_eqb k key then Some v else dict_get d' key
  end.

(* ===================================================================== *)
(** * [process_excel_file] *)
(* ===================================================================== *)

(** A cell of a DataFrame row, as [row[col]] yields it. *)
Inductive cell :=
| CNull                 (* None, NaN, NaT: [pd.notna] is False *)
| CStr (s : str)
| CInt (z : Z)
| CBool (b : bool)
| COther (text : str).  (* any other scalar (a float, a Timestamp, ...),
                           given by the text [str()] returns for it *)

Definition notna (x : cell) : bool :=
  match x with
  | CNull => false
  | _ => true
  end.

(** [str(x)] on a cell. *)
Definition cell_str (x : cell) : str :=
  match x with
  | CNull => lit "nan"
  | CStr s => s
  | CInt z => str_of_Z z
  | CBool true => lit "True"
  | CBool false => lit "False"
  | COther text => text
  end.

(** A DataFrame: its column labels and its rows, as [df.iterrows()]
    yields them (each row is a Series indexed by the column labels). *)
Record DataFrame := {
  df_columns : list str;
  df_rows : list (list cell)
}.

(** The positions of a label in the index of a Series. *)
Fixpoint label_positions (index : list str) (label : str) (k : nat) : list nat :=
  match index with
  | [] => []
  | l :: index' =>
      if str_eqb l label then k :: label_positions index' label (S k)
      else label_positions index' label (S k)
  end.

(** [pd.notna(row[col])] and [str(row[col])] need [row[col]] to be a
    scalar: a label that occurs once.  A label that occurs several times
    selects a Series, whose truth value is ambiguous ([ValueError]). *)
Definition series_get (index : list str) (values : list cell) (label : str)
  : result cell :=
  match label_positions index label 0 with
  | [] => Raise KeyError
  | [i] => match nth_error values i with
           | Some x => Ok x
           | None => Raise KeyError
           end
  | _ :: _ :: _ => Raise ValueError
  end.

(** The uploaded file, with what [pd.read_excel(uploaded_file,
    sheet_name=None, engine='openpyxl')] makes of it: a dict from sheet
    names to DataFrames, or an exception. *)
Record UploadedFile := {
  name : str;
  size : Z;
  read_excel : result (list (str * DataFrame))
}.

(** [for col in df.columns] *)
Fixpoint convert_row (index : list str) (values : list cell)
         (cols : list str) (row_data : list str) : result (list str) :=
  match cols with
  | [] => Ok row_data
  | col :: cols' =>
      x <- series_get index values col ;;
      let cell_value := if notna x then cell_str x else lit "" in
      convert_row index values cols' (row_data ++ [cell_value])
  end.

(** [for idx, row in df.iterrows()] *)
Fixpoint convert_rows (df : DataFrame) (rs : list (list cell))
         (sheet_data : list (list str)) : result (list (list str)) :=
  match rs with
  | [] => Ok sheet_data
  | r :: rs' =>
      row_data <- convert_row (df_columns df) r (df_columns df) [] ;;
      convert_rows df rs' (sheet_data ++ [row_data])
  end.

(** [for sheet_name, df in excel_data.items()], threading the dict
    [workbook_data['sheets']] and the counter [total_rows]. *)
Fixpoint convert_sheets (items : list (str * DataFrame))
         (acc : list (str * sheet_info) * Z) : result (list (str * sheet_info) * Z) :=
  match items with
  | [] => Ok acc
  | (sheet_name, df) :: items' =>
      let '(sheets_dict, total) := acc in
      sheet_data <- convert_rows df (df_rows df) [] ;;
      let sheets_dict :=
        dict_set sheets_dict sheet_name
                 {| data := sheet_data;
                    columns := df_columns df;
                    rows := Z.of_nat (List.length (df_rows df)) |} in
      let total := (total + Z.of_nat (List.length (df_rows df)))%Z in
      convert_sheets items' (sheets_dict, total)
  end.

(** The body of the [try].  [now] is
    [datetime.now().strftime("%Y-%m-%d %H:%M:%S")]. *)
Definition process_excel_body (now : str) (uploaded_file : UploadedFile)
  : result workbook_data :=
  excel_data <- read_excel uploaded_file ;;
  r <- convert_sheets excel_data ([], 0%Z) ;;
  Ok {| sheets := fst r;
        upload_time := now;
        filename := name uploaded_file;
        file_size := size uploaded_file;
        total_rows := snd r |}.

(** [except Exception: ... return None] *)
Definition process_excel_file (now : str) (uploaded_file : UploadedFile)
  : option workbook_data :=
  match process_excel_body now uploaded_file with
  | Ok workbook => Some workbook
  | Raise _ => None
  end.

(** What pandas guarantees of a DataFrame read from a workbook: the
    labels are distinct and every row has one cell per label. *)
Definition wf_dataframe (df : DataFrame) : Prop :=
  NoDup (df_columns df) /\
  Forall (fun r => List.length r = List.length (df_columns df)) (df_rows df).

(** [excel_data] is a dict: its keys are distinct. *)
Definition wf_excel_data (excel_data : list (str * DataFrame)) : Prop :=
  NoDup (map fst excel_data) /\ Forall (fun kv => wf_dataframe (snd kv)) excel_data.

(** The text a cell is turned into, as the specification words it. *)
Definition stringified (x : cell) : str :=
  match x with
  | CNull => []
  | CStr s => s
  | CInt z => str_of_Z z
  | CBool b => if b then lit "True" else lit "False"
  | COther text => text
  end.

Definition ingested_sheet (df : DataFrame) : sheet_info :=
  {| data := map (map stringified) (df_rows df);
     columns := df_columns df;
     rows := Z.of_nat (List.length (df_rows df)) |}.

Definition sum_rows (l : list (str * sheet_info)) : Z :=
  fold_right (fun kv acc => (rows (snd kv) + acc)%Z) 0%Z l.

Definition count_rows (items : list (str * DataFrame)) : Z :=
  fold_right (fun kv acc => (Z.of_nat (List.length (df_rows (snd kv))) + acc)%Z) 0%Z items.

(** A workbook with one sheet of two rows, holding a number, a text,
    an empty cell and a float. *)
Definition sample_upload : UploadedFile :=
  {| name := lit "links.xlsx";
     size := 2048;
     read_excel :=
       Ok [ (lit "Links",
             {| df_columns := [lit "ID"; lit "URL"];
                df_rows := [ [CInt 1; CStr (lit "https://a.com")];
                             [CNull; COther (lit "2.5")] ] |}) ] |}.

(* ===================================================================== *)
(** * The [json] module: values, [json.dumps] and [json.loads] *)
(* ===================================================================== *)

(** The Python values [json.load] can return.  A float is kept as the
    literal it is written with: its numeric value plays no part here. *)
Unset Elimination Schemes.
Inductive pyval :=
| PyNone
| PyBool (b : bool)
| PyInt (z : Z)
| PyFloat (literal : str)
| PyStr (s : str)
| PyList (l : list pyval)
| PyDict (d : list (str * pyval)).
Set Elimination Schemes.

(** ** Encoding, with the defaults of [json.dump]: [ensure_ascii=True],
    separators comma-space and colon-space, no indentation, keys in dict order. *)

Definition hex_digit (d : N) : char := if d <? 10 then 48 + d else 87 + d.

Definition hex4 (n : N) : str :=
  [hex_digit (n / 4096 mod 16); hex_digit (n / 256 mod 16);
   hex_digit (n / 16 mod 16); hex_digit (n mod 16)].

(** A backslash, [u] and four hexadecimal digits. *)
Definition u_escape (n : N) : str := 92 :: 117 :: hex4 n.

Definition escape_char (c : char) : str :=
  if c =? 34 then [92; 34]             (* backslash, quote *)
  else if c =? 92 then [92; 92]        (* two backslashes *)
  else if c =? 10 then [92; 110]       (* backslash n *)
  else if c =? 13 then [92; 114]       (* backslash r *)
  else if c =? 9 then [92; 116]        (* backslash t *)
  else if c =? 8 then [92; 98]         (* backslash b *)
  else if c =? 12 then [92; 102]       (* backslash f *)
  else if (32 <=? c) && (c <=? 126) then [c]
  else if c <? 65536 then u_escape c
  else (* a surrogate pair *)
    let v := c - 65536 in
    u_escape (55296 + (v / 1024) mod 1024) ++ u_escape (56320 + v mod 1024).

Definition encode_str (s : str) : str := 34 :: flat_map escape_char s ++ [34].

Definition text_null : str := Eval cbv in lit "null".
Definition text_true : str := Eval cbv in lit "true".
Definition text_false : str := Eval cbv in lit "false".
Definition text_nan : str := Eval cbv in lit "NaN".
Definition text_infinity : str := Eval cbv in lit "Infinity".
Definition text_minus_infinity : str := Eval cbv in lit "-Infinity".

Definition item_separator : str := [44; 32].
Definition key_separator : str := [58; 32].

Fixpoint dumps (v : pyval) : str :=
  match v with
  | PyNone => text_null
  | PyBool true => text_true
  | PyBool false => text_false
  | PyInt z => str_of_Z z
  | PyFloat literal => literal
  | PyStr s => encode_str s
  | PyList l =>
      91 :: (fix items (first : bool) (l : list pyval) : str :=
               match l with
               | [] => []
               | x :: l' =>
                   (if first then [] else item_separator) ++ dumps x ++ items false l'
               end) true l ++ [93]
  | PyDict d =>
      123 :: (fix items (first : bool) (d : list (str * pyval)) : str :=
                match d with
                | [] => []
                | (k, x) :: d' =>
                    (if first then [] else item_separator) ++
                    encode_str k ++ key_separator ++ dumps x ++ items false d'
                end) true d ++ [125]
  end.

(** The two loops of [dumps], named. *)
Fixpoint dumps_items (first : bool) (l : list pyval) : str :=
  match l with
  | [] => []
  | x :: l' => (if first then [] else item_separator) ++ dumps x ++ dumps_items false l'
  end.

Fixpoint dumps_pairs (first : bool) (d : list (str * pyval)) : str :=
  match d with
  | [] => []
  | (k, x) :: d' =>
      (if first then [] else item_separator) ++
      encode_str k ++ key_separator ++ dumps x ++ dumps_pairs false d'
  end.

(** ** Decoding *)

Definition is_ws (c : char) : bool :=
  (c =? 32) || (c =? 9) || (c =? 10) || (c =? 13).

Fixpoint skip_ws (s : str) : str :=
  match s with
  | [] => []
  | c :: s' => if is_ws c then skip_ws s' else s
  end.

Definition is_digit (c : char) : bool := (48 <=? c) && (c <=? 57).

Definition hex_value (c : char) : option N :=
  if (48 <=? c) && (c <=? 57) then Some (c - 48)
  else if (97 <=? c) && (c <=? 102) then Some (c - 87)
  else if (65 <=? c) && (c <=? 70) then Some (c - 55)
  else None.

(** The character a two-character escape stands for. *)
Definition simple_escape (c : char) : option char :=
  if c =? 34 then Some 34
  else if c =? 92 then Some 92
  else if c =? 47 then Some 47
  else if c =? 98 then Some 8
  else if c =? 102 then Some 12
  else if c =? 110 then Some 10
  else if c =? 114 then Some 13
  else if c =? 116 then Some 9
  else None.

(** What the scanner reads inside a string literal: a character (written
    as such or with a two-character escape) or a [u] escape with its four hexadecimal digits. *)
Inductive unit_ :=
| UChar (c : char)
| UEsc (n : N).

Inductive scan_state :=
| SNormal
| SEscape                       (* after a backslash *)
| SHex (k : nat) (acc : N).     (* [k] hexadecimal digits still to read *)

(** The body of a string literal, after the opening quote, up to the
    closing one.  Control characters must be escaped. *)
Fixpoint scan_units (st : scan_state) (s : str) (us : list unit_)
  : option (list unit_ * str) :=
  match s with
  | [] => None
  | c :: s' =>
      match st with
      | SNormal =>
          if c =? 34 then Some (us, s')
          else if c =? 92 then scan_units SEscape s' us
          else if c <? 32 then None
          else scan_units SNormal s' (us ++ [UChar c])
      | SEscape =>
          if c =? 117 then scan_units (SHex 4 0) s' us
          else match simple_escape c with
               | Some x => scan_units SNormal s' (us ++ [UChar x])
               | None => None
               end
      | SHex k acc =>
          match hex_value c with
          | None => None
          | Some d =>
              match k with
              | O => None
              | S O => scan_units SNormal s' (us ++ [UEsc (acc * 16 + d)])
              | S k' => scan_units (SHex k' (acc * 16 + d)) s' us
              end
          end
      end
  end.

Definition is_high_surrogate (n : N) : bool := (55296 <=? n) && (n <=? 56319).
Definition is_low_surrogate (n : N) : bool := (56320 <=? n) && (n <=? 57343).

(** An escaped high surrogate followed by an escaped low surrogate is
    one character. *)
Fixpoint join_units (us : list unit_) : str :=
  match us with
  | [] => []
  | UChar c :: us' => c :: join_units us'
  | UEsc n :: us' =>
      match us' with
      | UEsc n2 :: us'' =>
          if is_high_surrogate n && is_low_surrogate n2
          then (65536 + (n - 55296) * 1024 + (n2 - 56320)) :: join_units us''
          else n :: join_units us'
      | _ => n :: join_units us'
      end
  end.

Definition parse_string (s : str) : option (str * str) :=
  match scan_units SNormal s [] with
  | Some (us, rest) => Some (join_units us, rest)
  | None => None
  end.

(** The longest run of digits at the start of [s], and what follows. *)
Fixpoint span_digits (s : str) : str * str :=
  match s with
  | [] => ([], [])
  | c :: s' =>
      if is_digit c then let (ds, rest) := span_digits s' in (c :: ds, rest)
      else ([], s)
  end.

Fixpoint uint_of_chars (ds : str) : uint :=
  match ds with
  | [] => Nil
  | c :: ds' =>
      let d := uint_of_chars ds' in
      if c =? 48 then D0 d else if c =? 49 then D1 d else if c =? 50 then D2 d
      else if c =? 51 then D3 d else if c =? 52 then D4 d else if c =? 53 then D5 d
      else if c =? 54 then D6 d else if c =? 55 then D7 d else if c =? 56 then D8 d
      else D9 d
  end.

(** The integer part of a number: [0] or a digit other than 0 followed
    by digits. *)
Definition scan_int_part (s : str) : option (str * str) :=
  match s with
  | [] => None
  | c :: s' =>
      if c =? 48 then Some ([48], s')
      else if is_digit c then Some (span_digits s)
      else None
  end.

(** [.digits], when present. *)
Definition scan_frac (s : str) : str * str :=
  match s with
  | c :: s' =>
      if c =? 46 then
        match span_digits s' with
        | ([], _) => ([], s)
        | (ds, rest) => (c :: ds, rest)
        end
      else ([], s)
  | [] => ([], s)
  end.

(** [e] or [E], an optional sign and digits, when present. *)
Definition scan_exp (s : str) : str * str :=
  match s with
  | c :: s' =>
      if (c =? 101) || (c =? 69) then
        let (sign, s'') :=
          match s' with
          | x :: t => if (x =? 43) || (x =? 45) then ([x], t) else ([], s')
          | [] => ([], s')
          end in
        match span_digits s'' with
        | ([], _) => ([], s)
        | (ds, rest) => (c :: sign ++ ds, rest)
        end
      else ([], s)
  | [] => ([], s)
  end.

Definition parse_number (s : str) : option (pyval * str) :=
  let (neg, s1) :=
    match s with
    | c :: s' => if c =? 45 then (true, s') else (false, s)
    | [] => (false, s)
    end in
  match scan_int_part s1 with
  | None => None
  | Some (ds, s2) =>
      let (fr, s3) := scan_frac s2 in
      let (ex, s4) := scan_exp s3 in
      match fr, ex with
      | [], [] =>
          let n := Z.of_N (N.of_uint (uint_of_chars ds)) in
          Some (PyInt (if neg then - n else n)%Z, s2)
      | _, _ => Some (PyFloat ((if neg then [45] else []) ++ ds ++ fr ++ ex), s4)
      end
  end.

(** [s] without the prefix [p], when it starts with it. *)
Fixpoint strip_prefix (p s : str) : option str :=
  match p, s with
  | [], _ => Some s
  | x :: p', y :: s' => if x =? y then strip_prefix p' s' else None
  | _ :: _, [] => None
  end.

(** A value that is neither a string, an object nor an array, chosen
    by its first character as the scanner does: [null], [true], [false];
    otherwise a number; otherwise [NaN], [Infinity], [-Infinity]. *)
Definition parse_constant (s : str) : option (pyval * str) :=
  match s with
  | [] => None
  | c :: _ =>
      if c =? 110 then
        match strip_prefix text_null s with
        | Some r => Some (PyNone, r)
        | None => None
        end
      else if c =? 116 then
        match strip_prefix text_true s with
        | Some r => Some (PyBool true, r)
        | None => None
        end
      else if c =? 102 then
        match strip_prefix text_false s with
        | Some r => Some (PyBool false, r)
        | None => None
        end
      else
        match parse_number s with
        | Some res => Some res
        | None =>
            if c =? 78 then
              match strip_prefix text_nan s with
              | Some r => Some (PyFloat text_nan, r)
              | None => None
              end
            else if c =? 73 then
              match strip_prefix text_infinity s with
              | Some r => Some (PyFloat text_infinity, r)
              | None => None
              end
            else if c =? 45 then
              match strip_prefix text_minus_infinity s with
              | Some r => Some (PyFloat text_minus_infinity, r)
              | None => None
              end
            else None
        end
  end.

(** The scanner.  [fuel] bounds the nesting and the number of items;
    the length of the text is always enough. *)
Fixpoint parse_value (fuel : nat) (s : str) {struct fuel} : option (pyval * str) :=
  match fuel with
  | O => None
  | S fuel' =>
      match s with
      | [] => None
      | c :: s' =>
          if c =? 34 then
            match parse_string s' with
            | Some (x, rest) => Some (PyStr x, rest)
            | None => None
            end
          else if c =? 123 then
            match skip_ws s' with
            | [] => None
            | c1 :: s1 =>
                if c1 =? 125 then Some (PyDict [], s1)
                else match parse_pairs fuel' (c1 :: s1) [] with
                     | Some (d, rest) => Some (PyDict d, rest)
                     | None => None
                     end
            end
          else if c =? 91 then
            match skip_ws s' with
            | [] => None
            | c1 :: s1 =>
                if c1 =? 93 then Some (PyList [], s1)
                else match parse_items fuel' (c1 :: s1) [] with
                     | Some (l, rest) => Some (PyList l, rest)
                     | None => None
                     end
            end
          else parse_constant s
      end
  end

(** The items of an array, from the first character of an item. *)
with parse_items (fuel : nat) (s : str) (acc : list pyval) {struct fuel}
  : option (list pyval * str) :=
  match fuel with
  | O => None
  | S fuel' =>
      match parse_value fuel' s with
      | None => None
      | Some (x, rest) =>
          match skip_ws rest with
          | [] => None
          | c :: rest' =>
              if c =? 44 then parse_items fuel' (skip_ws rest') (acc ++ [x])
              else if c =? 93 then Some (acc ++ [x], rest')
              else None
          end
      end
  end

(** The pairs of an object, from the opening quote of a key.  A key
    met again replaces the value it had. *)
with parse_pairs (fuel : nat) (s : str) (acc : list (str * pyval)) {struct fuel}
  : option (list (str * pyval) * str) :=
  match fuel with
  | O => None
  | S fuel' =>
      match s with
      | [] => None
      | q :: s0 =>
          if q =? 34 then
            match parse_string s0 with
            | None => None
            | Some (k, s1) =>
                match skip_ws s1 with
                | [] => None
                | c :: s2 =>
                    if c =? 58 then
                      match parse_value fuel' (skip_ws s2) with
                      | None => None
                      | Some (x, rest) =>
                          match skip_ws rest with
                          | [] => None
                          | c' :: rest' =>
                              if c' =? 44
                              then parse_pairs fuel' (skip_ws rest') (dict_set acc k x)
                              else if c' =? 125 then Some (dict_set acc k x, rest')
                              else None
                          end
                      end
                    else None
                end
            end
          else None
      end
  end.

(** [json.loads]: white space, one value, white space, end of text. *)
Definition loads (s : str) : option pyval :=
  match parse_value (S (List.length s)) (skip_ws s) with
  | Some (v, rest) =>
      match skip_ws rest with
      | [] => Some v
      | _ :: _ => None
      end
  | None => None
  end.

(** ** Notions used to state the properties of the codec *)

(** A string of Unicode scalar values: code points below 0x110000 that
    are not surrogates. *)
Definition is_scalar (c : char) : bool :=
  (c <? 55296) || ((57343 <? c) && (c <? 1114112)).

Definition wf_str (s : str) : Prop := forallb is_scalar s = true.


(** The units the scanner reads for the escaped form of a character. *)
Definition units_of_char (c : char) : list unit_ :=
  if (c =? 34) || (c =? 92) || (c =? 10) || (c =? 13) || (c =? 9) || (c =? 8) || (c =? 12)
  then [UChar c]
  else if (32 <=? c) && (c <=? 126) then [UChar c]
  else if c <? 65536 then [UEsc c]
  else [UEsc (55296 + ((c - 65536) / 1024) mod 1024); UEsc (56320 + (c - 65536) mod 1024)].

(** A character that would prolong a number written before it. *)
Definition number_continues (c : char) : bool :=
  is_digit c || (c =? 46) || (c =? 101) || (c =? 69).

(** The text after a value does not prolong it: it is empty or starts
    with a character that cannot belong to a number. *)
Definition closed_after (rest : str) : Prop :=
  match rest with
  | [] => True
  | c :: _ => number_continues c = false
  end.

(** The first character of the text of a value starts a value: it is
    not white space and closes neither an array nor an object. *)
Definition opens_value (c : char) : Prop :=
  is_ws c = false /\ c <> 93 /\ c <> 125.

(** The text starts like a number. *)
Definition number_start (s : str) : bool :=
  match s with
  | c :: _ => is_digit c || (c =? 45)
  | [] => false
  end.

(** The number of nodes of a value: the fuel its text needs. *)
Fixpoint nodes (v : pyval) : nat :=
  match v with
  | PyList l =>
      S ((fix nodes_items (l : list pyval) : nat :=
            match l with
            | [] => O
            | x :: l' => S (nodes x + nodes_items l')
            end) l)
  | PyDict d =>
      S ((fix nodes_pairs (d : list (str * pyval)) : nat :=
            match d with
            | [] => O
            | (_, x) :: d' => S (nodes x + nodes_pairs d')
            end) d)
  | _ => 1%nat
  end.

Fixpoint nodes_items (l : list pyval) : nat :=
  match l with
  | [] => O
  | x :: l' => S (nodes x + nodes_items l')
  end.

Fixpoint nodes_pairs (d : list (str * pyval)) : nat :=
  match d with
  | [] => O
  | (_, x) :: d' => S (nodes x + nodes_pairs d')
  end.

(** The values that [json.loads] gives back as they were: text, integers,
    booleans, [None], lists of such, and dicts of such whose keys are
    text (a dict has distinct keys).  Floats are left out. *)
Fixpoint plain (v : pyval) : Prop :=
  match v with
  | PyNone | PyBool _ | PyInt _ => True
  | PyFloat _ => False
  | PyStr s => wf_str s
  | PyList l =>
      (fix plain_items (l : list pyval) : Prop :=
         match l with
         | [] => True
         | x :: l' => plain x /\ plain_items l'
         end) l
  | PyDict d =>
      NoDup (map fst d) /\
      (fix plain_pairs (d : list (str * pyval)) : Prop :=
         match d with
         | [] => True
         | (k, x) :: d' => wf_str k /\ plain x /\ plain_pairs d'
         end) d
  end.

Fixpoint plain_items (l : list pyval) : Prop :=
  match l with
  | [] => True
  | x :: l' => plain x /\ plain_items l'
  end.

Fixpoint plain_pairs (d : list (str * pyval)) : Prop :=
  match d with
  | [] => True
  | (k, x) :: d' => wf_str k /\ plain x /\ plain_pairs d'
  end.

(* ===================================================================== *)
(** * The workbook as the dict that is saved and loaded *)
(* ===================================================================== *)

(** [workbook_data] is a dict; the record of the data model stands for
    the dict with these keys, in the order [process_excel_file] inserts
    them. *)
Definition sheet_to_py (info : sheet_info) : pyval :=
  PyDict [ (lit "data", PyList (map (fun r => PyList (map PyStr r)) (data info)));
           (lit "columns", PyList (map PyStr (columns info)));
           (lit "rows", PyInt (rows info)) ].

Definition to_py (wb : workbook_data) : pyval :=
  PyDict [ (lit "sheets",
            PyDict (map (fun kv => (fst kv, sheet_to_py (snd kv))) (sheets wb)));
           (lit "upload_time", PyStr (upload_time wb));
           (lit "filename", PyStr (filename wb));
           (lit "file_size", PyInt (file_size wb));
           (lit "total_rows", PyInt (total_rows wb)) ].

(** Reading a loaded value back as a workbook. *)
Fixpoint all_some {A : Type} (l : list (option A)) : option (list A) :=
  match l with
  | [] => Some []
  | Some a :: l' =>
      match all_some l' with
      | Some r => Some (a :: r)
      | None => None
      end
  | None :: _ => None
  end.

Definition as_str (v : pyval) : option str :=
  match v with
  | PyStr s => Some s
  | _ => None
  end.

Definition as_int (v : pyval) : option Z :=
  match v with
  | PyInt z => Some z
  | _ => None
  end.

Definition as_str_list (v : pyval) : option (list str) :=
  match v with
  | PyList l => all_some (map as_str l)
  | _ => None
  end.

Definition as_rows (v : pyval) : option (list (list str)) :=
  match v with
  | PyList l => all_some (map as_str_list l)
  | _ => None
  end.

Definition as_sheet (v : pyval) : option sheet_info :=
  match v with
  | PyDict d =>
      match dict_get d (lit "data"), dict_get d (lit "columns"), dict_get d (lit "rows") with
      | Some vd, Some vc, Some vr =>
          match as_rows vd, as_str_list vc, as_int vr with
          | Some rs, Some cs, Some n => Some {| data := rs; columns := cs; rows := n |}
          | _, _, _ => None
          end
      | _, _, _ => None
      end
  | _ => None
  end.

Definition as_sheets (v : pyval) : option (list (str * sheet_info)) :=
  match v with
  | PyDict d =>
      all_some (map (fun kv => match as_sheet (snd kv) with
                               | Some info => Some (fst kv, info)
                               | None => None
                               end) d)
  | _ => None
  end.

Definition as_workbook (v : pyval) : option workbook_data :=
  match v with
  | PyDict d =>
      match dict_get d (lit "sheets"), dict_get d (lit "upload_time"),
            dict_get d (lit "filename"), dict_get d (lit "file_size"),
            dict_get d (lit "total_rows") with
      | Some vs, Some vu, Some vf, Some vz, Some vt =>
          match as_sheets vs, as_str vu, as_str vf, as_int vz, as_int vt with
          | Some ss, Some u, Some f, Some z, Some t =>
              Some {| sheets := ss; upload_time := u; filename := f;
                      file_size := z; total_rows := t |}
          | _, _, _, _, _ => None
          end
      | _, _, _, _, _ => None
      end
  | _ => None
  end.

(** A workbook as a dict of text: the sheet names are the keys of a
    dict, hence distinct, and every string is text. *)
Definition wf_sheet (info : sheet_info) : Prop :=
  Forall (Forall wf_str) (data info) /\ Forall wf_str (columns info).

Definition wf_workbook (wb : workbook_data) : Prop :=
  NoDup (map fst (sheets wb)) /\
  Forall (fun kv => wf_str (fst kv) /\ wf_sheet (snd kv)) (sheets wb) /\
  wf_str (upload_time wb) /\ wf_str (filename wb).

(* ===================================================================== *)
(** * The snapshot store: [save_workbook_data] and [load_workbook_data] *)
(* ===================================================================== *)

(** The file [DATA_FILE]: bytes that do not decode as text, or a text. *)
Inductive file_content :=
| Undecodable
| Text (t : str).

(** The disk as far as the store is concerned: [DATA_FILE] is absent or
    has a content. *)
Definition disk := option file_content.

(** What the system allows a write to do. *)
Record io := {
  may_write : bool;     (* [open(DATA_FILE, 'w')] succeeds *)
  room : option nat     (* characters the device still accepts; [None]: no limit *)
}.

(** [os.path.exists(DATA_FILE)] *)
Definition exists_ (d : disk) : bool :=
  match d with
  | Some _ => true
  | None => false
  end.

(** [with open(DATA_FILE, 'r') as f: json.load(f)] *)
Definition read_json (d : disk) : result pyval :=
  match d with
  | None => Raise OSError
  | Some Undecodable => Raise UnicodeDecodeError
  | Some (Text t) =>
      match loads t with
      | Some v => Ok v
      | None => Raise JSONDecodeError
      end
  end.

(** The value returned is a Python value: [PyNone] is [None]. *)
Definition load_workbook_data (d : disk) : pyval :=
  if exists_ d then
    match read_json d with      (* try *)
    | Ok v => v
    | Raise _ => PyNone         (* except: return None *)
    end
  else PyNone.

(** Truth value of a Python value.  A float is false when it is zero:
    its literal has no digit other than 0 before the exponent (a literal
    that only rounds to zero counts as non-zero here). *)
Fixpoint zero_mantissa (literal : str) : bool :=
  match literal with
  | [] => true
  | c :: literal' =>
      if (c =? 101) || (c =? 69) then true
      else ((c =? 48) || (c =? 45) || (c =? 46)) && zero_mantissa literal'
  end.

Definition truthy (v : pyval) : bool :=
  match v with
  | PyNone => false
  | PyBool b => b
  | PyInt z => negb (z =? 0)%Z
  | PyFloat literal => negb (zero_mantissa literal)
  | PyStr s => negb (str_eqb s [])
  | PyList l => match l with [] => false | _ :: _ => true end
  | PyDict d => match d with [] => false | _ :: _ => true end
  end.

Definition is_str (s : str) (v : pyval) : bool :=
  match v with
  | PyStr s' => str_eqb s' s
  | _ => false
  end.

(** [if old_data and 'filename' in old_data: st.info(f"... {old_data['filename']}")]:
    the value shown, if any.  On a list or a string that contains
    ['filename'], the subscript raises; on a number, [in] raises. *)
Definition announce_old (old_data : pyval) : result (option pyval) :=
  if truthy old_data then
    match old_data with
    | PyDict d =>
        match dict_get d (lit "filename") with
        | Some v => Ok (Some v)
        | None => Ok None
        end
    | PyList l => if existsb (is_str (lit "filename")) l then Raise TypeError else Ok None
    | PyStr s => if contains (lit "filename") s then Raise TypeError else Ok None
    | _ => Raise TypeError
    end
  else Ok None.

(** [with open(DATA_FILE, 'w') as f: json.dump(data, f)]: opening
    creates or empties the file; the text is then written, as far as
    the device has room. *)
Definition write_json (env : io) (d : disk) (data : pyval) : result unit * disk :=
  if may_write env then
    let text := dumps data in
    match room env with
    | None => (Ok tt, Some (Text text))
    | Some n =>
        if (List.length text <=? n)%nat then (Ok tt, Some (Text text))
        else (Raise OSError, Some (Text (firstn n text)))
    end
  else (Raise OSError, d).

(** The result of a save: how it ends, the disk it leaves, and the
    values [st.info] has shown. *)
Definition save_workbook_data (env : io) (d : disk) (data : pyval)
  : result unit * disk * list pyval :=
  let shown :=
    if exists_ d then
      match announce_old (load_workbook_data d) with    (* try *)
      | Ok (Some v) => [v]
      | Ok None => []
      | Raise _ => []                                   (* except: pass *)
      end
    else [] in
  let (outcome, d') := write_json env d data in
  (outcome, d', shown).

(** A device without limits. *)
Definition healthy : io := {| may_write := true; room := None |}.

(** The write can complete. *)
Definition can_store (env : io) (data : pyval) : Prop :=
  may_write env = true /\
  match room env with
  | None => True
  | Some n => (List.length (dumps data) <= n)%nat
  end.

(** A device that takes ten more characters. *)
Definition nearly_full : io := {| may_write := true; room := Some 10%nat |}.

(** The disk after [links_workbook] was saved. *)
Definition links_disk : disk := Some (Text (dumps (to_py links_workbook))).

(* ===================================================================== *)
(** * [str.encode()] and [hashlib.sha256] *)
(* ===================================================================== *)

(** The UTF-8 bytes of a character; a surrogate has none. *)
Definition utf8_char (c : char) : option (list N) :=
  if c <? 128 then Some [c]
  else if c <? 2048 then Some [192 + c / 64; 128 + c mod 64]
  else if c <? 65536 then
    if (55296 <=? c) && (c <=? 57343) then None
    else Some [224 + c / 4096; 128 + (c / 64) mod 64; 128 + c mod 64]
  else if c <? 1114112 then
    Some [240 + c / 262144; 128 + (c / 4096) mod 64; 128 + (c / 64) mod 64; 128 + c mod 64]
  else None.

(** [s.encode()]; a string that cannot be encoded raises
    UnicodeEncodeError, which is a [ValueError]. *)
Fixpoint encode (s : str) : result (list N) :=
  match s with
  | [] => Ok []
  | c :: s' =>
      match utf8_char c with
      | None => Raise ValueError
      | Some bs => bs' <- encode s' ;; Ok (bs ++ bs')
      end
  end.

(** SHA-256 (FIPS 180-4) on 32-bit words held in [N]. *)
Definition w32 (x : N) : N := x mod 4294967296.

Definition rotr (x n : N) : N :=
  N.lor (N.shiftr x n) (w32 (N.shiftl x (32 - n))).

Definition sha_k : list N :=
  [1116352408; 1899447441; 3049323471; 3921009573; 961987163; 1508970993; 2453635748;
   2870763221; 3624381080; 310598401; 607225278; 1426881987; 1925078388; 2162078206;
   2614888103; 3248222580; 3835390401; 4022224774; 264347078; 604807628; 770255983;
   1249150122; 1555081692; 1996064986; 2554220882; 2821834349; 2952996808; 3210313671;
   3336571891; 3584528711; 113926993; 338241895; 666307205; 773529912; 1294757372;
   1396182291; 1695183700; 1986661051; 2177026350; 2456956037; 2730485921; 2820302411;
   3259730800; 3345764771; 3516065817; 3600352804; 4094571909; 275423344; 430227734;
   506948616; 659060556; 883997877; 958139571; 1322822218; 1537002063; 1747873779;
   1955562222; 2024104815; 2227730452; 2361852424; 2428436474; 2756734187; 3204031479;
   3329325298].

(** The message, the byte 0x80, zero bytes up to 56 modulo 64, and the
    length in bits on eight bytes. *)
Definition sha_pad (msg : list N) : list N :=
  let len := N.of_nat (List.length msg) in
  let bits := len * 8 in
  msg ++ [128] ++ repeat 0 (N.to_nat ((119 - len mod 64) mod 64)) ++
  [bits / 72057594037927936 mod 256; bits / 281474976710656 mod 256;
   bits / 1099511627776 mod 256; bits / 4294967296 mod 256;
   bits / 16777216 mod 256; bits / 65536 mod 256; bits / 256 mod 256; bits mod 256].

(** Big-endian words of a block. *)
Fixpoint words_of (n : nat) (bytes : list N) : list N :=
  match n with
  | O => []
  | S n' =>
      match bytes with
      | a :: b :: c :: d :: rest =>
          (a * 16777216 + b * 65536 + c * 256 + d) :: words_of n' rest
      | _ => []
      end
  end.

(** The message schedule: [n] more words after those of [w]. *)
Fixpoint sha_schedule (n : nat) (w : list N) : list N :=
  match n with
  | O => w
  | S n' =>
      let j := List.length w in
      let w15 := nth (j - 15) w 0 in
      let w2 := nth (j - 2) w 0 in
      let s0 := N.lxor (N.lxor (rotr w15 7) (rotr w15 18)) (N.shiftr w15 3) in
      let s1 := N.lxor (N.lxor (rotr w2 17) (rotr w2 19)) (N.shiftr w2 10) in
      sha_schedule n' (w ++ [w32 (nth (j - 16) w 0 + s0 + nth (j - 7) w 0 + s1)])
  end.

Definition sha_state : Type := N * N * N * N * N * N * N * N.

Definition sha_round (st : sha_state) (kw : N * N) : sha_state :=
  let '(a, b, c, d, e, f, g, h) := st in
  let '(k, w) := kw in
  let S1 := N.lxor (N.lxor (rotr e 6) (rotr e 11)) (rotr e 25) in
  let ch := N.lxor (N.land e f) (N.land (N.lxor e 4294967295) g) in
  let t1 := w32 (h + S1 + ch + k + w) in
  let S0 := N.lxor (N.lxor (rotr a 2) (rotr a 13)) (rotr a 22) in
  let maj := N.lxor (N.lxor (N.land a b) (N.land a c)) (N.land b c) in
  let t2 := w32 (S0 + maj) in
  (w32 (t1 + t2), a, b, c, w32 (d + t1), e, f, g).

Definition sha_block (hs : sha_state) (block : list N) : sha_state :=
  let w := sha_schedule 48 (words_of 16 block) in
  let '(a, b, c, d, e, f, g, h) := fold_left sha_round (combine sha_k w) hs in
  let '(a0, b0, c0, d0, e0, f0, g0, h0) := hs in
  (w32 (a0 + a), w32 (b0 + b), w32 (c0 + c), w32 (d0 + d),
   w32 (e0 + e), w32 (f0 + f), w32 (g0 + g), w32 (h0 + h)).

Fixpoint sha_blocks (n : nat) (hs : sha_state) (bytes : list N) : sha_state :=
  match n with
  | O => hs
  | S n' => sha_blocks n' (sha_block hs (firstn 64 bytes)) (skipn 64 bytes)
  end.

Definition hex8 (w : N) : str :=
  hex4 (w / 65536 mod 65536) ++ hex4 (w mod 65536).

(** [hashlib.sha256(bytes).hexdigest()] *)
Definition sha256_hexdigest (bytes : list N) : str :=
  let padded := sha_pad bytes in
  let '(a, b, c, d, e, f, g, h) :=
    sha_blocks (List.length padded / 64)
               (1779033703, 3144134277, 1013904242, 2773480762,
                1359893119, 2600822924, 528734635, 1541459225) padded in
  hex8 a ++ hex8 b ++ hex8 c ++ hex8 d ++ hex8 e ++ hex8 f ++ hex8 g ++ hex8 h.

(* ===================================================================== *)
(** * Admin authentication *)
(* ===================================================================== *)

Definition DEFAULT_PASSWORD : str := lit "admin123".

(** [hashlib.sha256(password.encode()).hexdigest()] *)
Definition hash_password (password : str) : result str :=
  bytes <- encode password ;; Ok (sha256_hexdigest bytes).

(** [hash_password(password) == hashed], where [hashed] is whatever the
    auth file holds: a string equals only a string. *)
Definition verify_password (password : str) (hashed : pyval) : result bool :=
  h <- hash_password password ;; Ok (is_str h hashed).

(** [v[key]] for a string key: a dict looks the key up, any other
    value refuses a string subscript. *)
Definition subscript (v : pyval) (key : str) : result pyval :=
  match v with
  | PyDict d =>
      match dict_get d key with
      | Some x => Ok x
      | None => Raise KeyError
      end
  | _ => Raise TypeError
  end.

(** The dict written to [AUTH_FILE]; [now] is the formatted clock. *)
Definition auth_record (password_hash now : str) : pyval :=
  PyDict [ (lit "password_hash", PyStr password_hash); (lit "created", PyStr now) ].

(** [init_admin_auth]: on the disk state of [AUTH_FILE]. *)
Definition init_admin_auth (env : io) (now : str) (auth : disk) : result unit * disk :=
  if negb (exists_ auth) then
    match hash_password DEFAULT_PASSWORD with
    | Ok h => write_json env auth (auth_record h now)
    | Raise e => (Raise e, auth)
    end
  else (Ok tt, auth).

(** [authenticate_admin]: nothing here catches what reading raises. *)
Definition authenticate_admin (auth : disk) (password : str) : result bool :=
  if exists_ auth then
    auth_data <- read_json auth ;;
    hashed <- subscript auth_data (lit "password_hash") ;;
    verify_password password hashed
  else Ok false.

(** [st.session_state]: a dict. *)
Definition session := list (str * pyval).

(** [st.session_state.get('admin_authenticated', False)] *)
Definition check_admin_auth (session_state : session) : pyval :=
  match dict_get session_state (lit "admin_authenticated") with
  | Some v => v
  | None => PyBool false
  end.

(* ===================================================================== *)
(** * The script: [admin_login_form], [admin_panel], [main] *)
(* ===================================================================== *)

(** What persists from one run of the script to the next: the two
    files and the session. *)
Record app_state := {
  auth_file : disk;
  data_file : disk;
  session_state : session
}.

(** What one run reads from outside: the values of the widgets, the
    clock at the two places it is read, and what the system allows the
    two writes to do. *)
Record inputs := {
  in_search_term : str;
  in_password : str;
  in_login : bool;
  in_logout : bool;
  in_file : option UploadedFile;
  in_replace : bool;
  in_created : str;
  in_uploaded : str;
  in_auth_io : io;
  in_data_io : io
}.

(** What a run puts on the page, without the wording. *)
Inductive ui :=
| UiTitle
| UiNoWorkbook
| UiCurrent (file upload : pyval) (n_sheets : nat) (total : pyval)
| UiFound (results : list Match)
| UiNotFound (listing : list (str * Z))
| UiLoginForm
| UiLoginOk
| UiLoginDenied
| UiPasswordHint
| UiPanel
| UiPanelCurrent (file upload file_size : pyval)
| UiFileInfo (file : str) (bytes : Z)
| UiRemovingOld (file : pyval)
| UiIngestError
| UiReplaced (listing : list (str * Z * nat)) (total : Z) (upload : str).

(** How a run stops before the end of [main]: [return], [st.rerun()],
    or an exception nothing catches. *)
Inductive halt :=
| Returned
| Rerun
| Crashed (e : exn).

Inductive step (A : Type) :=
| Go (a : A)
| Halt (h : halt).
Arguments Go {A} a.
Arguments Halt {A} h.

(** A piece of the script: it reads and changes the state, adds to the
    page, and goes on or stops. *)
Definition script (A : Type) : Type :=
  app_state -> list ui -> step A * app_state * list ui.

Definition ret {A : Type} (a : A) : script A := fun s page => (Go a, s, page).

Definition seq {A B : Type} (c : script A) (k : A -> script B) : script B :=
  fun s page =>
    match c s page with
    | (Go a, s', page') => k a s' page'
    | (Halt h, s', page') => (Halt h, s', page')
    end.

Notation "x <-- c ;;; k" := (seq c (fun x => k))
  (at level 61, c at next level, right associativity).
Notation "c ;;; k" := (seq c (fun _ => k))
  (at level 61, right associativity).

Definition stop {A : Type} (h : halt) : script A := fun s page => (Halt h, s, page).

Definition show (e : ui) : script unit := fun s page => (Go tt, s, page ++ [e]).

Definition show_all (es : list ui) : script unit := fun s page => (Go tt, s, page ++ es).

(** A call that may raise, outside any [try]. *)
Definition lift {A : Type} (r : result A) : script A :=
  match r with
  | Ok a => ret a
  | Raise e => stop (Crashed e)
  end.

Definition get_state : script app_state := fun s page => (Go s, s, page).

Definition set_session (key : str) (v : pyval) : script unit :=
  fun s page =>
    (Go tt,
     {| auth_file := auth_file s;
        data_file := data_file s;
        session_state := dict_set (session_state s) key v |},
     page).

Definition set_auth_file (d : disk) : script unit :=
  fun s page =>
    (Go tt,
     {| auth_file := d; data_file := data_file s; session_state := session_state s |},
     page).

Definition set_data_file (d : disk) : script unit :=
  fun s page =>
    (Go tt,
     {| auth_file := auth_file s; data_file := d; session_state := session_state s |},
     page).

(** [len(v)] *)
Definition py_len (v : pyval) : result nat :=
  match v with
  | PyDict d => Ok (List.length d)
  | PyList l => Ok (List.length l)
  | PyStr s => Ok (List.length s)
  | _ => Raise TypeError
  end.

(** [f"{v:,}"]: numbers take the thousands separator, a string
    refuses it ([ValueError]), other values have no such format. *)
Definition format_comma (v : pyval) : result pyval :=
  match v with
  | PyInt _ | PyFloat _ | PyBool _ => Ok v
  | PyStr _ => Raise ValueError
  | _ => Raise TypeError
  end.

(** The values the line about the current workbook of the user tab
    needs, in the order the f-string evaluates them. *)
Definition banner (workbook : pyval) : result ui :=
  file <- subscript workbook (lit "filename") ;;
  upload <- subscript workbook (lit "upload_time") ;;
  sheets_value <- subscript workbook (lit "sheets") ;;
  n <- py_len sheets_value ;;
  total <- subscript workbook (lit "total_rows") ;;
  total' <- format_comma total ;;
  Ok (UiCurrent file upload n total').

(** [current_data.get('file_size', 0)] on a dict *)
Definition get_file_size (current_data : pyval) : pyval :=
  match current_data with
  | PyDict d =>
      match dict_get d (lit "file_size") with
      | Some v => v
      | None => PyInt 0
      end
  | _ => PyInt 0
  end.

Section Script.
(** The Unicode tables, and what the search block of the user tab does
    (the page it writes, or the exception it raises) when the stored
    value is not of the shape of a workbook: the data model says
    nothing of it. *)
Variable lower : str -> str.
Variable isspace : char -> bool.
Variable untyped_search : pyval -> str -> result (list ui).

(** The form is always drawn; the password is checked when the button
    was pressed. *)
Definition admin_login_form (inp : inputs) : script unit :=
  show UiLoginForm ;;;
  (if in_login inp then
     s <-- get_state ;;;
     granted <-- lift (authenticate_admin (auth_file s) (in_password inp)) ;;;
     if granted : bool then
       set_session (lit "admin_authenticated") (PyBool true) ;;;
       show UiLoginOk ;;;
       stop Rerun
     else show UiLoginDenied
   else ret tt) ;;;
  show UiPasswordHint.

(** The replacement of the workbook, once the button was pressed. *)
Definition replace_workbook (inp : inputs) (file : UploadedFile) : script unit :=
  match process_excel_file (in_uploaded inp) file with
  | None => show UiIngestError
  | Some new_workbook_data =>
      s <-- get_state ;;;
      let '(outcome, d', shown) :=
        save_workbook_data (in_data_io inp) (data_file s) (to_py new_workbook_data) in
      show_all (map UiRemovingOld shown) ;;;
      set_data_file d' ;;;
      lift outcome ;;;
      show (UiReplaced
              (map (fun kv => (fst kv, rows (snd kv), List.length (columns (snd kv))))
                   (sheets new_workbook_data))
              (total_rows new_workbook_data)
              (upload_time new_workbook_data))
  end.

Definition admin_panel (inp : inputs) : script unit :=
  show UiPanel ;;;
  (if in_logout inp then
     set_session (lit "admin_authenticated") (PyBool false) ;;;
     stop Rerun
   else ret tt) ;;;
  s <-- get_state ;;;
  let current_data := load_workbook_data (data_file s) in
  (if truthy current_data then
     file <-- lift (subscript current_data (lit "filename")) ;;;
     upload <-- lift (subscript current_data (lit "upload_time")) ;;;
     file_size <-- lift (format_comma (get_file_size current_data)) ;;;
     show (UiPanelCurrent file upload file_size)
   else ret tt) ;;;
  match in_file inp with
  | None => ret tt
  | Some file =>
      show (UiFileInfo (name file) (size file)) ;;;
      if in_replace inp then replace_workbook inp file else ret tt
  end.

(** The search block of the user tab, for a non-empty search term. *)
Definition search_block (workbook_data : pyval) (search_term : str) : script unit :=
  match as_workbook workbook_data with
  | Some wb =>
      match search_link_in_workbook lower isspace wb search_term with
      | [] => show (UiNotFound (map (fun kv => (fst kv, rows (snd kv))) (sheets wb)))
      | results => show (UiFound results)
      end
  | None =>
      events <-- lift (untyped_search workbook_data search_term) ;;;
      show_all events
  end.

Definition user_tab (inp : inputs) (workbook_data : pyval) : script unit :=
  match workbook_data with
  | PyNone => show UiNoWorkbook ;;; stop Returned
  | _ =>
      line <-- lift (banner workbook_data) ;;;
      show line ;;;
      match in_search_term inp with
      | [] => ret tt
      | _ :: _ => search_block workbook_data (in_search_term inp)
      end
  end.

Definition admin_tab (inp : inputs) : script unit :=
  s <-- get_state ;;;
  if negb (truthy (check_admin_auth (session_state s)))
  then admin_login_form inp
  else admin_panel inp.

Definition main (inp : inputs) : script unit :=
  s <-- get_state ;;;
  let '(outcome, auth') := init_admin_auth (in_auth_io inp) (in_created inp) (auth_file s) in
  set_auth_file auth' ;;;
  lift outcome ;;;
  show UiTitle ;;;
  s <-- get_state ;;;
  let workbook_data := load_workbook_data (data_file s) in
  user_tab inp workbook_data ;;;
  admin_tab inp.

(** The state after a run, and after a sequence of runs. *)
Definition run (inp : inputs) (s : app_state) : app_state :=
  snd (fst (main inp s [])).

Definition page_of (inp : inputs) (s : app_state) : list ui :=
  snd (main inp s []).

Fixpoint run_all (inps : list inputs) (s : app_state) : app_state :=
  match inps with
  | [] => s
  | inp :: inps' => run_all inps' (run inp s)
  end.

(** The run in which the session was authenticated: the button of the
    login form was pressed with a password the auth file accepts. *)
Definition grants (inp : inputs) (s : app_state) : Prop :=
  in_login inp = true /\
  authenticate_admin (auth_file (run inp s)) (in_password inp) = Ok true.
End Script.

(* ===================================================================== *)
(** * Notions used to state further properties *)
(* ===================================================================== *)

From Stdlib Require Import Sorted.

(** The SHA-256 digest of the default password. *)
Definition default_hash : str :=
  lit "240be518fabd2724ddb6f04eeb1da5967448d7e831c08c8fa822809f74c720a9".

(** The session is authenticated: [check_admin_auth()] is true. *)
Definition authenticated (s : app_state) : bool :=
  truthy (check_admin_auth (session_state s)).

(** Scan order on positions: by sheet, then row, then column. *)
Definition pos_lt (p q : nat * nat * nat) : Prop :=
  let '(si, ri, ci) := p in
  let '(sj, rj, cj) := q in
  (si < sj)%nat \/ (si = sj /\ ((ri < rj)%nat \/ (ri = rj /\ (ci < cj)%nat))).

(** Every row of every sheet has one cell per column. *)
Definition aligned (wb : workbook_data) : Prop :=
  Forall (fun kv =>
            Forall (fun r => List.length r = List.length (columns (snd kv)))
                   (data (snd kv)))
         (sheets wb).

(** An uploaded workbook made of text. *)
Definition text_cell (x : cell) : Prop :=
  match x with
  | CStr s => wf_str s
  | COther text => wf_str text
  | _ => True
  end.

Definition text_frame (df : DataFrame) : Prop :=
  Forall wf_str (df_columns df) /\ Forall (Forall text_cell) (df_rows df).

Definition text_excel_data (excel_data : list (str * DataFrame)) : Prop :=
  Forall (fun kv => wf_str (fst kv) /\ text_frame (snd kv)) excel_data.

(** The state after the first lines of [main]: the auth file is as
    [init_admin_auth] leaves it. *)
Definition after_init (inp : inputs) (s : app_state) : app_state :=
  {| auth_file := snd (init_admin_auth (in_auth_io inp) (in_created inp) (auth_file s));
     data_file := data_file s;
     session_state := session_state s |}.

(** Instances for running the script: the ASCII tables, and a search
    that refuses any stored value that is not a workbook. *)
Definition refuse_untyped (v : pyval) (q : str) : result (list ui) := Raise TypeError.

Definition run_ascii : inputs -> app_state -> app_state :=
  run ascii_lower ascii_isspace refuse_untyped.

Definition run_all_ascii : list inputs -> app_state -> app_state :=
  run_all ascii_lower ascii_isspace refuse_untyped.

(** An auth file as a first run leaves it. *)
Definition installed_auth : disk :=
  Some (Text (dumps (auth_record default_hash (lit "2024-01-01 00:00:00")))).

(** The login button pressed with a password. *)
Definition login_with (p : str) : inputs :=
  {| in_search_term := [];
     in_password := p;
     in_login := true;
     in_logout := false;
     in_file := None;
     in_replace := false;
     in_created := lit "2024-01-01 00:00:00";
     in_uploaded := lit "2024-01-02 00:00:00";
     in_auth_io := healthy;
     in_data_io := healthy |}.

(** A file selected and the replace button pressed. *)
Definition replace_with (file : UploadedFile) : inputs :=
  {| in_search_term := [];
     in_password := [];
     in_login := false;
     in_logout := false;
     in_file := Some file;
     in_replace := true;
     in_created := lit "2024-01-01 00:00:00";
     in_uploaded := lit "2024-01-02 00:00:00";
     in_auth_io := healthy;
     in_data_io := healthy |}.

(** A search typed in the user tab. *)
Definition search_for (q : str) : inputs :=
  {| in_search_term := q;
     in_password := [];
     in_login := false;
     in_logout := false;
     in_file := None;
     in_replace := false;
     in_created := lit "2024-01-01 00:00:00";
     in_uploaded := lit "2024-01-02 00:00:00";
     in_auth_io := healthy;
     in_data_io := healthy |}.

(** A fresh installation, and one with a workbook and no session. *)
Definition fresh : app_state :=
  {| auth_file := None; data_file := None; session_state := [] |}.

Definition serving : app_state :=
  {| auth_file := installed_auth; data_file := links_disk; session_state := [] |}.

Definition serving_admin : app_state :=
  {| auth_file := installed_auth;
     data_file := links_disk;
     session_state := [(lit "admin_authenticated", PyBool true)] |}.

(** What the user tab shows for a search over a workbook. *)
Definition search_event (lower : str -> str) (isspace : char -> bool)
           (wb : workbook_data) (q : str) : ui :=
  match search_link_in_workbook lower isspace wb q with
  | [] => UiNotFound (map (fun kv => (fst kv, rows (snd kv))) (sheets wb))
  | results => UiFound results
  end.

(** The line of the user tab about a stored workbook. *)
Definition current_line (wb : workbook_data) : ui :=
  UiCurrent (PyStr (filename wb)) (PyStr (upload_time wb))
            (List.length (sheets wb)) (PyInt (total_rows wb)).

(** What the user tab puts on the page for a stored workbook. *)
Definition user_part (lower : str -> str) (isspace : char -> bool)
           (wb : workbook_data) (q : str) : list ui :=
  current_line wb ::
  match q with
  | [] => []
  | _ :: _ => [search_event lower isspace wb q]
  end.

(** What the panel puts on the page when [file], ingested as [wb],
    replaces the workbook [old]. *)
Definition replace_part (old : workbook_data) (file : UploadedFile)
           (wb : workbook_data) : list ui :=
  [ UiPanel;
    UiPanelCurrent (PyStr (filename old)) (PyStr (upload_time old)) (PyInt (file_size old));
    UiFileInfo (name file) (size file);
    UiRemovingOld (PyStr (filename old));
    UiReplaced (map (fun kv => (fst kv, rows (snd kv), List.length (columns (snd kv))))
                    (sheets wb))
               (total_rows wb) (upload_time wb) ].

(** What the panel puts on the page before the write of a replacement. *)
Definition replace_intro (old : workbook_data) (file : UploadedFile) : list ui :=
  [ UiPanel;
    UiPanelCurrent (PyStr (filename old)) (PyStr (upload_time old)) (PyInt (file_size old));
    UiFileInfo (name file) (size file);
    UiRemovingOld (PyStr (filename old)) ].

(** A device that refuses to open the file, and one that takes only the
    first characters. *)
Definition read_only : io := {| may_write := false; room := None |}.

Definition short_of_room (n : nat) : io := {| may_write := true; room := Some n |}.

(** The replace button pressed on a device. *)
Definition replace_on (env : io) (file : UploadedFile) : inputs :=
  {| in_search_term := [];
     in_password := [];
     in_login := false;
     in_logout := false;
     in_file := Some file;
     in_replace := true;
     in_created := lit "2024-01-01 00:00:00";
     in_uploaded := lit "2024-01-02 00:00:00";
     in_auth_io := healthy;
     in_data_io := env |}.

(** The logout button pressed, with a file selected. *)
Definition logout_with (file : UploadedFile) : inputs :=
  {| in_search_term := [];
     in_password := [];
     in_login := false;
     in_logout := true;
     in_file := Some file;
     in_replace := true;
     in_created := lit "2024-01-01 00:00:00";
     in_uploaded := lit "2024-01-02 00:00:00";
     in_auth_io := healthy;
     in_data_io := healthy |}.

(** How a run ends: at the end of [main], or stopped before. *)
Definition ending (lower : str -> str) (isspace : char -> bool)
           (untyped_search : pyval -> str -> result (list ui))
           (inp : inputs) (s : app_state) : step unit :=
  fst (fst (main lower isspace untyped_search inp s [])).

(** What ingesting [sample_upload] gives at the clock of the runs
    above. *)
Definition sample_workbook : workbook_data :=
  {| sheets := [ (lit "Links",
                  {| data := [ [lit "1"; lit "https://a.com"]; [lit ""; lit "2.5"] ];
                     columns := [lit "ID"; lit "URL"];
                     rows := 2 |}) ];
     upload_time := lit "2024-01-02 00:00:00";
     filename := lit "links.xlsx";
     file_size := 2048;
     total_rows := 2 |}.

(* ===================================================================== *)
(** * Properties of the Python primitives *)
(* ===================================================================== *)

Lemma str_eqb_eq (a b : str) : str_eqb a b = true <-> a = b.
Proof.
  revert b; induction a as [|x a IH]; intros [|y b]; simpl;
    try (split; [discriminate | congruence]); [tauto|].
  rewrite andb_true_iff, N.eqb_eq, IH. split.
  - intros [-> ->]; reflexivity.
  - intros H; injection H; auto.
Qed.

Lemma str_eqb_refl (a : str) : str_eqb a a = true.
Proof. apply str_eqb_eq; reflexivity. Qed.

Lemma startswith_spec (hay needle : str) :
  startswith hay needle = true <-> exists post, hay = needle ++ post.
Proof.
  revert hay; induction needle as [|x n IH]; intros hay; simpl.
  - split; [intros _; exists hay; reflexivity | reflexivity].
  - destruct hay as [|y hay].
    + split; [discriminate | intros [post H]; discriminate].
    + rewrite andb_true_iff, N.eqb_eq, IH. split.
      * intros [-> [post ->]]. exists post; reflexivity.
      * intros [post H]. injection H as -> ->. split; [reflexivity | exists post; reflexivity].
Qed.

Lemma contains_spec (needle hay : str) :
  contains needle hay = true <-> Substring needle hay.
Proof.
  unfold Substring. induction hay as [|y hay IH].
  - simpl. rewrite orb_false_r, startswith_spec. split.
    + intros [post H]. exists [], post. exact H.
    + intros [[|? pre] [post H]]; [exists post; exact H | discriminate].
  - cbn [contains]. rewrite orb_true_iff, startswith_spec, IH. split.
    + intros [[post H] | [pre [post H]]].
      * exists [], post. exact H.
      * exists (y :: pre), post. rewrite H. reflexivity.
    + intros [[|z pre] [post H]].
      * left. exists post. exact H.
      * right. injection H as _ H. exists pre, post. exact H.
Qed.

Section StripFacts.
Variable isspace : char -> bool.

Lemma lstrip_split (s : str) :
  exists ws, s = ws ++ lstrip isspace s /\ forallb isspace ws = true.
Proof.
  induction s as [|c s [ws [E F]]]; simpl.
  - exists []; split; reflexivity.
  - destruct (isspace c) eqn:Hc.
    + exists (c :: ws). simpl. rewrite Hc, F. split; [congruence | reflexivity].
    + exists []. split; reflexivity.
Qed.

Lemma lstrip_head (s : str) (c : char) (s' : str) :
  lstrip isspace s = c :: s' -> isspace c = false.
Proof.
  induction s as [|x s IH]; simpl; [discriminate|].
  destruct (isspace x) eqn:Hx; [exact IH|].
  intros H; injection H as <- _. exact Hx.
Qed.

Lemma lstrip_all_space (s : str) :
  forallb isspace s = true -> lstrip isspace s = [].
Proof.
  induction s as [|c s IH]; simpl; [reflexivity|].
  destruct (isspace c); simpl; [exact IH | discriminate].
Qed.

(** The stripped string neither starts nor ends with a space. *)
Lemma strip_head (s : str) (c : char) (s' : str) :
  strip isspace s = c :: s' -> isspace c = false.
Proof.
  unfold strip, rstrip. intros H.
  destruct (lstrip_split (List.rev (lstrip isspace s))) as [ws [E F]].
  apply (f_equal (@List.rev char)) in E. rewrite rev_involutive, rev_app_distr, H in E.
  simpl in E. apply lstrip_head with (s := s) (s' := s' ++ List.rev ws). exact E.
Qed.

Lemma strip_last (s : str) (c : char) (s' : str) :
  strip isspace s = s' ++ [c] -> isspace c = false.
Proof.
  unfold strip, rstrip. intros H.
  apply (f_equal (@List.rev char)) in H. rewrite rev_involutive, rev_app_distr in H.
  simpl in H. eapply lstrip_head. exact H.
Qed.

Lemma strip_all_space (s : str) :
  forallb isspace s = true -> strip isspace s = [].
Proof.
  intros H. unfold strip, rstrip. rewrite (lstrip_all_space s H). reflexivity.
Qed.
End StripFacts.

(* ===================================================================== *)
(** * The enumeration of cells *)
(* ===================================================================== *)

Lemma In_cells_row si name info ri k r p x :
  In (p, x) (cells_row si name info ri k r) <->
  exists ci v, p = (si, ri, ci) /\ x = (name, info, v) /\
               (k <= ci)%nat /\ nth_error r (ci - k) = Some v.
Proof.
  revert k; induction r as [|v0 r IH]; intros k; simpl.
  - split; [tauto|]. intros (ci & v & _ & _ & _ & H).
    destruct (ci - k)%nat; discriminate.
  - rewrite IH. split.
    + intros [H | (ci & v & -> & -> & Hk & Hn)].
      * injection H as <- <-. exists k, v0. rewrite Nat.sub_diag. auto.
      * exists ci, v. repeat split; [lia|].
        replace (ci - k)%nat with (S (ci - S k)) by lia. exact Hn.
    + intros (ci & v & -> & -> & Hk & Hn).
      destruct (Nat.eq_dec ci k) as [-> | Hne].
      * rewrite Nat.sub_diag in Hn. injection Hn as ->. left; reflexivity.
      * right. exists ci, v. repeat split; [lia|].
        replace (ci - k)%nat with (S (ci - S k)) in Hn by lia. exact Hn.
Qed.

Lemma In_cells_sheet si name info k rs p x :
  In (p, x) (cells_sheet si name info k rs) <->
  exists ri ci r v, p = (si, ri, ci) /\ x = (name, info, v) /\
                    (k <= ri)%nat /\ nth_error rs (ri - k) = Some r /\
                    nth_error r ci = Some v.
Proof.
  revert k; induction rs as [|r0 rs IH]; intros k; simpl.
  - split; [tauto|]. intros (ri & ci & r & v & _ & _ & _ & H & _).
    destruct (ri - k)%nat; discriminate.
  - rewrite in_app_iff, IH, In_cells_row. split.
    + intros [(ci & v & -> & -> & _ & Hn) | (ri & ci & r & v & -> & -> & Hk & Hr & Hn)].
      * exists k, ci, r0, v. rewrite Nat.sub_diag, Nat.sub_0_r in *. auto.
      * exists ri, ci, r, v. repeat split; [lia | | exact Hn].
        replace (ri - k)%nat with (S (ri - S k)) by lia. exact Hr.
    + intros (ri & ci & r & v & -> & -> & Hk & Hr & Hn).
      destruct (Nat.eq_dec ri k) as [-> | Hne].
      * rewrite Nat.sub_diag in Hr. injection Hr as ->. left.
        exists ci, v. rewrite Nat.sub_0_r. repeat split; [lia | exact Hn].
      * right. exists ri, ci, r, v. repeat split; [lia | | exact Hn].
        replace (ri - k)%nat with (S (ri - S k)) in Hr by lia. exact Hr.
Qed.

Lemma In_cells_sheets k items p x :
  In (p, x) (cells_sheets k items) <->
  exists si ri ci name info r v,
    p = (si, ri, ci) /\ x = (name, info, v) /\ (k <= si)%nat /\
    nth_error items (si - k) = Some (name, info) /\
    nth_error (data info) ri = Some r /\ nth_error r ci = Some v.
Proof.
  revert k; induction items as [|[name0 info0] items IH]; intros k; simpl.
  - split; [tauto|]. intros (si & ri & ci & name & info & r & v & _ & _ & _ & H & _).
    destruct (si - k)%nat; discriminate.
  - rewrite in_app_iff, IH, In_cells_sheet. split.
    + intros [(ri & ci & r & v & -> & -> & _ & Hr & Hn)
             | (si & ri & ci & name & info & r & v & -> & -> & Hk & Hs & Hr & Hn)].
      * exists k, ri, ci, name0, info0, r, v.
        rewrite Nat.sub_diag. rewrite Nat.sub_0_r in Hr. auto 10.
      * exists si, ri, ci, name, info, r, v. repeat split; [lia | | exact Hr | exact Hn].
        replace (si - k)%nat with (S (si - S k)) by lia. exact Hs.
    + intros (si & ri & ci & name & info & r & v & -> & -> & Hk & Hs & Hr & Hn).
      destruct (Nat.eq_dec si k) as [-> | Hne].
      * rewrite Nat.sub_diag in Hs. injection Hs as -> ->. left.
        exists ri, ci, r, v. rewrite Nat.sub_0_r. repeat split; [lia | exact Hr | exact Hn].
      * right. exists si, ri, ci, name, info, r, v.
        repeat split; [lia | | exact Hr | exact Hn].
        replace (si - k)%nat with (S (si - S k)) in Hs by lia. exact Hs.
Qed.

(** The enumeration lists exactly the cells of the workbook. *)
Lemma In_all_cells wb p x :
  In (p, x) (all_cells wb) <-> cell_at wb p = Some x.
Proof.
  unfold all_cells. rewrite In_cells_sheets. destruct p as [[si ri] ci]. simpl.
  split.
  - intros (si' & ri' & ci' & name & info & r & v & Hp & -> & _ & Hs & Hr & Hn).
    injection Hp as -> -> ->. rewrite Nat.sub_0_r in Hs.
    rewrite Hs, Hr, Hn. reflexivity.
  - destruct (nth_error (sheets wb) si) as [[name info]|] eqn:Hs; [|discriminate].
    destruct (nth_error (data info) ri) as [r|] eqn:Hr; [|discriminate].
    destruct (nth_error r ci) as [v|] eqn:Hn; [|discriminate].
    intros H; injection H as <-.
    exists si, ri, ci, name, info, r, v. rewrite Nat.sub_0_r. repeat split; auto. lia.
Qed.

Lemma in_map_fst {A B : Type} (l : list (A * B)) (a : A) :
  In a (map fst l) -> exists b, In (a, b) l.
Proof.
  rewrite in_map_iff. intros [[a' b] [E H]]. simpl in E. subst a'. exists b. exact H.
Qed.

Lemma NoDup_cells_row si name info ri k r :
  NoDup (map fst (cells_row si name info ri k r)).
Proof.
  revert k; induction r as [|v r IH]; intros k; simpl; constructor.
  - intros H. apply in_map_fst in H. destruct H as [x H].
    apply In_cells_row in H. destruct H as (ci & v' & E & _ & Hk & _).
    injection E as ->. lia.
  - apply IH.
Qed.

Lemma NoDup_cells_sheet si name info k rs :
  NoDup (map fst (cells_sheet si name info k rs)).
Proof.
  revert k; induction rs as [|r rs IH]; intros k; simpl; [constructor|].
  rewrite map_app. apply NoDup_app; [apply NoDup_cells_row | apply IH |].
  intros p H1 H2. apply in_map_fst in H1, H2.
  destruct H1 as [x1 H1], H2 as [x2 H2].
  apply In_cells_row in H1. apply In_cells_sheet in H2.
  destruct H1 as (ci & v & -> & _).
  destruct H2 as (ri' & ci' & r' & v' & E & _ & Hk & _).
  injection E as -> _. lia.
Qed.

Lemma NoDup_cells_sheets k items :
  NoDup (map fst (cells_sheets k items)).
Proof.
  revert k; induction items as [|[name info] items IH]; intros k; simpl; [constructor|].
  rewrite map_app. apply NoDup_app; [apply NoDup_cells_sheet | apply IH |].
  intros p H1 H2. apply in_map_fst in H1, H2.
  destruct H1 as [x1 H1], H2 as [x2 H2].
  apply In_cells_sheet in H1. apply In_cells_sheets in H2.
  destruct H1 as (ri & ci & r & v & -> & _).
  destruct H2 as (si' & ri' & ci' & n' & i' & r' & v' & E & _ & Hk & _).
  injection E as -> _ _. lia.
Qed.

Lemma NoDup_map_filter {A B : Type} (f : A -> B) (g : A -> bool) (l : list A) :
  NoDup (map f l) -> NoDup (map f (filter g l)).
Proof.
  induction l as [|a l IH]; simpl; [auto|].
  intros H. inversion H as [|? ? Hn Hd]; subst.
  destruct (g a); simpl; [|auto].
  constructor; [|auto].
  intros Hin. apply Hn. rewrite in_map_iff in *.
  destruct Hin as [b [E Hb]]. exists b. split; [exact E|].
  apply filter_In in Hb. tauto.
Qed.

(* ===================================================================== *)
(** * The loops of the search as a filter over the enumeration *)
(* ===================================================================== *)

Section SearchLoops.
Variable lower : str -> str.
Variable isspace : char -> bool.

Lemma scan_row_spec q si name info ri ci r results :
  scan_row lower q name (columns info) ri ci r results =
  results ++ map (match_of lower q)
                 (filter (hit lower q) (cells_row si name info ri ci r)).
Proof.
  revert ci results; induction r as [|v r IH]; intros ci results; simpl.
  - rewrite app_nil_r. reflexivity.
  - rewrite IH. unfold hit at 2. simpl.
    destruct (contains q (lower (py_str v))); simpl.
    + rewrite <- app_assoc. reflexivity.
    + reflexivity.
Qed.

Lemma scan_sheet_spec q si name info ri rs results :
  scan_sheet lower q name (columns info) ri rs results =
  results ++ map (match_of lower q)
                 (filter (hit lower q) (cells_sheet si name info ri rs)).
Proof.
  revert ri results; induction rs as [|r rs IH]; intros ri results; simpl.
  - rewrite app_nil_r. reflexivity.
  - rewrite IH, (scan_row_spec q si), filter_app, map_app, app_assoc. reflexivity.
Qed.

Lemma scan_sheets_spec q si items results :
  scan_sheets lower q items results =
  results ++ map (match_of lower q)
                 (filter (hit lower q) (cells_sheets si items)).
Proof.
  revert si results; induction items as [|[name info] items IH]; intros si results; simpl.
  - rewrite app_nil_r. reflexivity.
  - rewrite (IH (S si)), (scan_sheet_spec q si), filter_app, map_app, app_assoc.
    reflexivity.
Qed.

(** For a query that survives preprocessing, the result is the list of
    the matching cells in scan order, each turned into its record. *)
Lemma search_spec wb q :
  strip isspace (lower q) <> [] ->
  search_link_in_workbook lower isspace wb q =
  map (match_of lower (strip isspace (lower q)))
      (filter (hit lower (strip isspace (lower q))) (all_cells wb)).
Proof.
  intros Hq. unfold search_link_in_workbook.
  destruct (strip isspace (lower q)) as [|c q'] eqn:E; [congruence|].
  apply (scan_sheets_spec (c :: q') 0 (sheets wb) []).
Qed.

Lemma search_empty wb q :
  strip isspace (lower q) = [] ->
  search_link_in_workbook lower isspace wb q = [].
Proof.
  intros Hq. unfold search_link_in_workbook. rewrite Hq. reflexivity.
Qed.

(** Every record of the result comes from a cell of the workbook that
    matches the preprocessed query. *)
Lemma search_In wb q m :
  In m (search_link_in_workbook lower isspace wb q) ->
  strip isspace (lower q) <> [] /\
  exists si ri ci name info v,
    cell_at wb (si, ri, ci) = Some (name, info, v) /\
    contains (strip isspace (lower q)) (lower v) = true /\
    m = make_match lower (strip isspace (lower q)) name (columns info) ri ci v.
Proof.
  intros Hin.
  destruct (strip isspace (lower q)) as [|c q'] eqn:E.
  - rewrite (search_empty wb q E) in Hin. destruct Hin.
  - split; [discriminate|].
    rewrite search_spec in Hin by (rewrite E; discriminate).
    rewrite E in Hin. apply in_map_iff in Hin.
    destruct Hin as [[[[si ri] ci] [[name info] v]] [Hm Hc]].
    apply filter_In in Hc. destruct Hc as [Hc Hh].
    apply In_all_cells in Hc.
    exists si, ri, ci, name, info, v. auto.
Qed.
End SearchLoops.

Lemma Forall2_map_In {A B C : Type} (R : B -> C -> Prop) (f : A -> B) (g : A -> C)
      (l : list A) :
  (forall a, In a l -> R (f a) (g a)) -> Forall2 R (map f l) (map g l).
Proof.
  induction l as [|a l IH]; simpl; intros H; constructor; auto.
Qed.

(* ===================================================================== *)
(** * The search engine: claims *)
(* ===================================================================== *)

(** C1. For every workbook and every query whose trimmed, lower-cased
    form [q'] is not empty, the search is sound and complete: every
    returned record has a [cell_value] whose lower-cased form contains
    [q'], and the result is in one-to-one correspondence with a
    duplicate-free list of positions that holds exactly the cells whose
    lower-cased value contains [q']; the record of a position carries the
    name of its sheet, its row index plus 2, the value of its cell, and
    as column the entry that the sheet's column list has at the column
    position of the cell (["Column_"] followed by the decimal 1-based
    position when the list has no such entry). *)
Theorem search_sound_and_complete
        (lower : str -> str) (isspace : char -> bool)
        (wb : workbook_data) (q : str) :
  strip isspace (lower q) <> [] ->
  (forall m, In m (search_link_in_workbook lower isspace wb q) ->
             Substring (strip isspace (lower q)) (lower (cell_value m))) /\
  exists ps : list (nat * nat * nat),
    NoDup ps /\
    (forall p, In p ps <->
               exists name info v,
                 cell_at wb p = Some (name, info, v) /\
                 Substring (strip isspace (lower q)) (lower v)) /\
    Forall2
      (fun p m =>
         exists name info v,
           cell_at wb p = Some (name, info, v) /\
           sheet m = name /\
           row m = (snd (fst p) + 2)%nat /\
           column m = match nth_error (columns info) (snd p) with
                      | Some label => label
                      | None => lit "Column_" ++ str_of_N (N.of_nat (snd p + 1))
                      end /\
           cell_value m = v)
      ps (search_link_in_workbook lower isspace wb q).
Proof.
  intros Hq. split.
  - intros m Hm. apply search_In in Hm.
    destruct Hm as (_ & si & ri & ci & name & info & v & _ & Hc & ->).
    apply contains_spec. exact Hc.
  - rewrite (search_spec lower isspace wb q Hq).
    set (q' := strip isspace (lower q)).
    exists (map fst (filter (hit lower q') (all_cells wb))).
    split; [|split].
    + apply NoDup_map_filter. apply NoDup_cells_sheets.
    + intros p. split.
      * intros H. apply in_map_fst in H. destruct H as [[[name info] v] H].
        apply filter_In in H. destruct H as [Hc Hh].
        apply In_all_cells in Hc. exists name, info, v.
        split; [exact Hc | apply contains_spec; exact Hh].
      * intros (name & info & v & Hc & Hs).
        apply in_map_iff. exists (p, (name, info, v)). split; [reflexivity|].
        apply filter_In. split; [apply In_all_cells; exact Hc|].
        apply contains_spec. exact Hs.
    + apply Forall2_map_In.
      intros [[[si ri] ci] [[name info] v]] Hin.
      apply filter_In in Hin. destruct Hin as [Hc _]. apply In_all_cells in Hc.
      exists name, info, v.
      cbn [match_of make_match sheet row column cell_value fst snd].
      unfold col_name, py_str. auto.
Qed.

Lemma search_sound_and_complete_witness :
  strip ascii_isspace (ascii_lower (lit "a.com")) <> [] /\
  exists ps : list (nat * nat * nat),
    NoDup ps /\
    (forall p, In p ps <->
               exists name info v,
                 cell_at links_workbook p = Some (name, info, v) /\
                 Substring (strip ascii_isspace (ascii_lower (lit "a.com")))
                           (ascii_lower v)) /\
    Forall2
      (fun p m =>
         exists name info v,
           cell_at links_workbook p = Some (name, info, v) /\
           sheet m = name /\
           row m = (snd (fst p) + 2)%nat /\
           column m = match nth_error (columns info) (snd p) with
                      | Some label => label
                      | None => lit "Column_" ++ str_of_N (N.of_nat (snd p + 1))
                      end /\
           cell_value m = v)
      ps (search_link_in_workbook ascii_lower ascii_isspace links_workbook (lit "a.com")).
Proof.
  assert (H : strip ascii_isspace (ascii_lower (lit "a.com")) <> [])
    by (vm_compute; discriminate).
  split; [exact H|].
  exact (proj2 (search_sound_and_complete ascii_lower ascii_isspace
                                          links_workbook (lit "a.com") H)).
Defined.

(** C4. For every record returned by the search, the kind is [Exact]
    exactly when the lower-cased cell value equals the trimmed,
    lower-cased query, and [Partial] otherwise. *)
Theorem match_kind_exact_iff_equal
        (lower : str -> str) (isspace : char -> bool)
        (wb : workbook_data) (q : str) (m : Match) :
  In m (search_link_in_workbook lower isspace wb q) ->
  (match_type m = Exact <-> lower (cell_value m) = strip isspace (lower q)) /\
  (match_type m = Partial <-> lower (cell_value m) <> strip isspace (lower q)).
Proof.
  intros Hm. apply search_In in Hm.
  destruct Hm as (_ & si & ri & ci & name & info & v & _ & _ & ->).
  simpl. unfold py_str.
  destruct (str_eqb (strip isspace (lower q)) (lower v)) eqn:E.
  - apply str_eqb_eq in E. rewrite <- E.
    split; split; try reflexivity; try discriminate. intros H; exfalso; apply H; reflexivity.
  - assert (Hne : lower v <> strip isspace (lower q)).
    { intros H. rewrite H, str_eqb_refl in E. discriminate. }
    split; split; try reflexivity; try discriminate; try (intros H; exact Hne).
    intros H. contradiction.
Qed.

Lemma match_kind_exact_iff_equal_witness :
  let m := {| sheet := lit "Links"; row := 2; column := lit "URL";
              cell_value := lit "https://a.com"; match_type := Exact |} in
  In m (search_link_in_workbook ascii_lower ascii_isspace links_workbook
                                (lit "  HTTPS://a.com ")) /\
  (match_type m = Exact <->
   ascii_lower (cell_value m) =
   strip ascii_isspace (ascii_lower (lit "  HTTPS://a.com "))).
Proof.
  intros m.
  assert (H : In m (search_link_in_workbook ascii_lower ascii_isspace links_workbook
                                            (lit "  HTTPS://a.com ")))
    by (vm_compute; left; reflexivity).
  split; [exact H|].
  exact (proj1 (match_kind_exact_iff_equal ascii_lower ascii_isspace links_workbook
                                           (lit "  HTTPS://a.com ") m H)).
Defined.

(** C5. When the trimmed, lower-cased query is empty, the search returns
    the empty list, whatever the workbook. *)
Theorem empty_query_gives_no_match
        (lower : str -> str) (isspace : char -> bool)
        (wb : workbook_data) (q : str) :
  strip isspace (lower q) = [] ->
  search_link_in_workbook lower isspace wb q = [].
Proof.
  intros Hq. unfold search_link_in_workbook. rewrite Hq. reflexivity.
Qed.

Lemma empty_query_gives_no_match_witness :
  strip ascii_isspace (ascii_lower (lit "   ")) = [] /\
  search_link_in_workbook ascii_lower ascii_isspace links_workbook (lit "   ") = [].
Proof.
  assert (H : strip ascii_isspace (ascii_lower (lit "   ")) = []) by reflexivity.
  split; [exact H|].
  exact (empty_query_gives_no_match ascii_lower ascii_isspace links_workbook (lit "   ") H).
Defined.

(** The two queries the specification names, under the ASCII tables:
    the empty query and a query made of white space only. *)
Lemma ascii_lower_space (q : str) :
  forallb ascii_isspace q = true -> ascii_lower q = q.
Proof.
  induction q as [|c q IH]; simpl; [reflexivity|].
  rewrite andb_true_iff. intros [Hc Hq]. rewrite (IH Hq). f_equal.
  unfold ascii_lower_char, ascii_isspace in *.
  destruct (N.leb_spec 65 c); [|reflexivity]. exfalso.
  rewrite orb_true_iff, !andb_true_iff, !N.leb_le in Hc. lia.
Qed.

Lemma blank_query_gives_no_match (wb : workbook_data) (q : str) :
  forallb ascii_isspace q = true ->
  search_link_in_workbook ascii_lower ascii_isspace wb q = [].
Proof.
  intros Hq. apply search_empty. rewrite (ascii_lower_space q Hq).
  apply strip_all_space. exact Hq.
Qed.

(** The scenarios of the specification. *)
Example scenario_a_com :
  search_link_in_workbook ascii_lower ascii_isspace links_workbook (lit "a.com") =
  [ {| sheet := lit "Links"; row := 2; column := lit "URL";
       cell_value := lit "https://a.com"; match_type := Partial |};
    {| sheet := lit "Links"; row := 3; column := lit "URL";
       cell_value := lit "HTTPS://A.com/page"; match_type := Partial |} ].
Proof. reflexivity. Qed.

Example scenario_https_a_com :
  search_link_in_workbook ascii_lower ascii_isspace links_workbook (lit "https://a.com") =
  [ {| sheet := lit "Links"; row := 2; column := lit "URL";
       cell_value := lit "https://a.com"; match_type := Exact |};
    {| sheet := lit "Links"; row := 3; column := lit "URL";
       cell_value := lit "HTTPS://A.com/page"; match_type := Partial |} ].
Proof. reflexivity. Qed.

Example scenario_missing :
  search_link_in_workbook ascii_lower ascii_isspace links_workbook (lit "missing") = [].
Proof. reflexivity. Qed.

(** C8. Every record returned by the search comes from a cell of the
    workbook: its [row] is the zero-based row index of that cell plus 2,
    and when the column position of the cell has no entry in the sheet's
    column list, its [column] is ["Column_"] followed by the decimal
    1-based position (otherwise it is the entry of the column list). *)
Theorem row_number_and_column_placeholder
        (lower : str -> str) (isspace : char -> bool)
        (wb : workbook_data) (q : str) (m : Match) :
  In m (search_link_in_workbook lower isspace wb q) ->
  exists si ri ci name info v,
    cell_at wb (si, ri, ci) = Some (name, info, v) /\
    sheet m = name /\
    cell_value m = v /\
    row m = (ri + 2)%nat /\
    ((List.length (columns info) <= ci)%nat ->
     column m = lit "Column_" ++ str_of_N (N.of_nat (ci + 1))) /\
    (forall c, nth_error (columns info) ci = Some c -> column m = c).
Proof.
  intros Hm. apply search_In in Hm.
  destruct Hm as (_ & si & ri & ci & name & info & v & Hc & _ & ->).
  exists si, ri, ci, name, info, v. simpl. unfold col_name.
  repeat split; auto.
  - intros Hlen. apply nth_error_None in Hlen. rewrite Hlen. reflexivity.
  - intros c Hn. rewrite Hn. reflexivity.
Qed.

Lemma row_number_and_column_placeholder_witness :
  let m := {| sheet := lit "S"; row := 3; column := lit "Column_2";
              cell_value := lit "see a.com"; match_type := Partial |} in
  In m (search_link_in_workbook ascii_lower ascii_isspace ragged_workbook (lit "a.com")) /\
  exists si ri ci name info v,
    cell_at ragged_workbook (si, ri, ci) = Some (name, info, v) /\
    sheet m = name /\
    cell_value m = v /\
    row m = (ri + 2)%nat /\
    ((List.length (columns info) <= ci)%nat ->
     column m = lit "Column_" ++ str_of_N (N.of_nat (ci + 1))) /\
    (forall c, nth_error (columns info) ci = Some c -> column m = c).
Proof.
  intros m.
  assert (H : In m (search_link_in_workbook ascii_lower ascii_isspace
                                            ragged_workbook (lit "a.com")))
    by (vm_compute; left; reflexivity).
  split; [exact H|].
  exact (row_number_and_column_placeholder ascii_lower ascii_isspace
                                           ragged_workbook (lit "a.com") m H).
Defined.

(** C10, as stated, fails when the trimmed query is empty: the cell
    [" "] is the (empty) trimmed query preceded by a space, and the search
    for [""] returns nothing. *)
Lemma padded_cell_empty_query_not_returned :
  ~ (forall (wb : workbook_data) (q : str) si ri ci name info v (ws1 ws2 : str),
        cell_at wb (si, ri, ci) = Some (name, info, v) ->
        ascii_lower v = ws1 ++ strip ascii_isspace (ascii_lower q) ++ ws2 ->
        forallb ascii_isspace ws1 = true ->
        forallb ascii_isspace ws2 = true ->
        ws1 ++ ws2 <> [] ->
        exists m, In m (search_link_in_workbook ascii_lower ascii_isspace wb q) /\
                  cell_value m = v /\ match_type m = Partial).
Proof.
  intros H.
  set (info := {| data := [[lit " "]]; columns := [lit "A"]; rows := 1 |}).
  set (wb := {| sheets := [(lit "S", info)]; upload_time := []; filename := [];
                file_size := 0; total_rows := 1 |}).
  destruct (H wb [] 0%nat 0%nat 0%nat (lit "S") info (lit " ") (lit " ") [])
    as (m & Hin & _); try reflexivity.
  - discriminate.
  - exact Hin.
Qed.

(** C10, amended. Only the query is trimmed. When the trimmed,
    lower-cased query [q'] is not empty and the lower-cased value of a
    cell is [q'] with white space before or after it (at least one
    character in all), the search returns the record of that cell with
    kind [Partial], and no record of the result with that cell value has
    kind [Exact]. *)
Theorem padded_cell_is_partial
        (lower : str -> str) (isspace : char -> bool)
        (wb : workbook_data) (q : str)
        (si ri ci : nat) (name : str) (info : sheet_info) (v ws1 ws2 : str) :
  strip isspace (lower q) <> [] ->
  cell_at wb (si, ri, ci) = Some (name, info, v) ->
  lower v = ws1 ++ strip isspace (lower q) ++ ws2 ->
  forallb isspace ws1 = true ->
  forallb isspace ws2 = true ->
  ws1 ++ ws2 <> [] ->
  In {| sheet := name; row := ri + 2; column := col_name (columns info) ci;
        cell_value := v; match_type := Partial |}
     (search_link_in_workbook lower isspace wb q) /\
  (forall m, In m (search_link_in_workbook lower isspace wb q) ->
             cell_value m = v -> match_type m = Partial).
Proof.
  intros Hq Hc Hv _ _ Hpad.
  assert (Hne : str_eqb (strip isspace (lower q)) (lower v) = false).
  { destruct (str_eqb (strip isspace (lower q)) (lower v)) eqn:E; [|reflexivity].
    apply str_eqb_eq in E. exfalso. apply Hpad.
    apply (f_equal (@List.length char)) in Hv. rewrite <- E, !length_app in Hv.
    apply length_zero_iff_nil. rewrite length_app. lia. }
  split.
  - rewrite (search_spec lower isspace wb q Hq). apply in_map_iff.
    exists ((si, ri, ci), (name, info, v)). split.
    + simpl. unfold make_match, py_str. rewrite Hne. reflexivity.
    + apply filter_In. split; [apply In_all_cells; exact Hc|].
      unfold hit, py_str. simpl. apply contains_spec. exists ws1, ws2. exact Hv.
  - intros m Hm Hcv. apply search_In in Hm.
    destruct Hm as (_ & si' & ri' & ci' & name' & info' & v' & _ & _ & ->).
    simpl in *. unfold py_str in *. subst v'. rewrite Hne. reflexivity.
Qed.

Lemma padded_cell_is_partial_witness :
  In {| sheet := lit "S"; row := 2; column := lit "URL";
        cell_value := lit " A.com "; match_type := Partial |}
     (search_link_in_workbook ascii_lower ascii_isspace padded_workbook (lit "a.com ")).
Proof.
  refine (proj1 (padded_cell_is_partial ascii_lower ascii_isspace padded_workbook
                   (lit "a.com ") 0 0 0 (lit "S")
                   {| data := [ [lit " A.com "] ]; columns := [lit "URL"]; rows := 1 |}
                   (lit " A.com ") (lit " ") (lit " ") _ _ _ _ _ _));
    try reflexivity; vm_compute; discriminate.
Defined.

(* ===================================================================== *)
(** * Ingestion *)
(* ===================================================================== *)

Lemma str_eqb_neq (a b : str) : a <> b -> str_eqb a b = false.
Proof.
  intros H. destruct (str_eqb a b) eqn:E; [|reflexivity].
  apply str_eqb_eq in E. contradiction.
Qed.

Lemma dict_set_fresh {V : Type} (d : list (str * V)) (key : str) (value : V) :
  ~ In key (map fst d) -> dict_set d key value = d ++ [(key, value)].
Proof.
  induction d as [|[k v] d IH]; simpl; [reflexivity|].
  intros H. rewrite str_eqb_neq by tauto. rewrite IH by tauto. reflexivity.
Qed.

Lemma label_positions_absent (index : list str) (label : str) (k : nat) :
  ~ In label index -> label_positions index label k = [].
Proof.
  revert k; induction index as [|l index IH]; intros k H; simpl; [reflexivity|].
  simpl in H. rewrite str_eqb_neq by tauto. apply IH. tauto.
Qed.

Lemma label_positions_unique (index : list str) (label : str) (i k : nat) :
  NoDup index -> nth_error index i = Some label ->
  label_positions index label k = [(k + i)%nat].
Proof.
  revert i k; induction index as [|l index IH]; intros i k Hnd Hi.
  - destruct i; discriminate.
  - inversion Hnd as [|? ? Hnotin Hnd']; subst. destruct i as [|i]; simpl in *.
    + injection Hi as ->. rewrite str_eqb_refl, Nat.add_0_r.
      rewrite label_positions_absent by exact Hnotin. reflexivity.
    + rewrite str_eqb_neq.
      * rewrite (IH i (S k) Hnd' Hi). f_equal. lia.
      * intros ->. apply Hnotin. eapply nth_error_In. exact Hi.
Qed.

Lemma series_get_unique (index : list str) (values : list cell) (label : str)
      (i : nat) (x : cell) :
  NoDup index -> nth_error index i = Some label -> nth_error values i = Some x ->
  series_get index values label = Ok x.
Proof.
  intros Hnd Hi Hx. unfold series_get.
  rewrite (label_positions_unique index label i 0 Hnd Hi). simpl. rewrite Hx. reflexivity.
Qed.

Lemma stringified_eq (x : cell) :
  (if notna x then cell_str x else lit "") = stringified x.
Proof. destruct x as [| | |[|]|]; reflexivity. Qed.

Lemma convert_row_spec (index : list str) (values : list cell) :
  NoDup index ->
  forall (cols : list str) (done : list str) (vdone vs : list cell) (row_data : list str),
    index = done ++ cols -> values = vdone ++ vs ->
    List.length vdone = List.length done -> List.length vs = List.length cols ->
    convert_row index values cols row_data = Ok (row_data ++ map stringified vs).
Proof.
  intros Hnd. induction cols as [|col cols IH]; intros done vdone vs row_data Hi Hv Hl1 Hl2.
  - destruct vs; [|discriminate]. simpl. rewrite app_nil_r. reflexivity.
  - destruct vs as [|x vs]; [discriminate|]. simpl.
    rewrite (series_get_unique index values col (List.length done) x Hnd).
    + simpl. rewrite stringified_eq.
      rewrite (IH (done ++ [col]) (vdone ++ [x]) vs).
      * rewrite <- app_assoc. reflexivity.
      * rewrite <- app_assoc. exact Hi.
      * rewrite <- app_assoc. exact Hv.
      * rewrite !length_app. simpl. lia.
      * simpl in Hl2. lia.
    + rewrite Hi. rewrite nth_error_app2 by lia. rewrite Nat.sub_diag. reflexivity.
    + rewrite Hv, <- Hl1. rewrite nth_error_app2 by lia. rewrite Nat.sub_diag. reflexivity.
Qed.

Lemma convert_rows_spec (df : DataFrame) (rs : list (list cell))
      (sheet_data : list (list str)) :
  NoDup (df_columns df) ->
  Forall (fun r => List.length r = List.length (df_columns df)) rs ->
  convert_rows df rs sheet_data = Ok (sheet_data ++ map (map stringified) rs).
Proof.
  intros Hnd. revert sheet_data. induction rs as [|r rs IH]; intros sheet_data Hall; simpl.
  - rewrite app_nil_r. reflexivity.
  - inversion Hall as [|? ? Hr Hrs]; subst.
    rewrite (convert_row_spec (df_columns df) r Hnd (df_columns df) [] [] r []);
      try reflexivity; [|exact Hr].
    simpl. rewrite (IH _ Hrs), <- app_assoc. reflexivity.
Qed.

Lemma convert_sheets_spec (items : list (str * DataFrame)) :
  forall (d : list (str * sheet_info)) (total : Z),
    NoDup (map fst d ++ map fst items) ->
    Forall (fun kv => wf_dataframe (snd kv)) items ->
    convert_sheets items (d, total) =
    Ok (d ++ map (fun kv => (fst kv, ingested_sheet (snd kv))) items,
        (total + count_rows items)%Z).
Proof.
  induction items as [|[sheet_name df] items IH]; intros d total Hnd Hwf; simpl.
  - rewrite app_nil_r, Z.add_0_r. reflexivity.
  - inversion Hwf as [|? ? [Hcols Hrows] Hwf']; subst. simpl in *.
    rewrite (convert_rows_spec df (df_rows df) [] Hcols Hrows). simpl.
    rewrite dict_set_fresh.
    + rewrite IH.
      * rewrite <- app_assoc, Z.add_assoc. reflexivity.
      * rewrite map_app, <- app_assoc. exact Hnd.
      * exact Hwf'.
    + intros Hin. apply NoDup_remove_2 in Hnd. apply Hnd.
      apply in_or_app. left. exact Hin.
Qed.

Lemma sum_rows_ingested (items : list (str * DataFrame)) :
  sum_rows (map (fun kv => (fst kv, ingested_sheet (snd kv))) items) = count_rows items.
Proof.
  induction items as [|kv items IH]; simpl; [reflexivity|]. rewrite IH. reflexivity.
Qed.

(** C7. For every uploaded file that pandas reads as a dict of
    DataFrames, ingestion returns a workbook.  Its sheets are those of
    the input, in order; each cell is the text of the input cell at the
    same place, the empty string for a null cell and [str()] of any
    other one, so no cell of the result is null; each sheet records its
    number of rows, and [total_rows] is the sum of these numbers. *)
Theorem ingest_stringifies_every_cell
        (now : str) (uploaded_file : UploadedFile)
        (excel_data : list (str * DataFrame)) :
  read_excel uploaded_file = Ok excel_data ->
  wf_excel_data excel_data ->
  exists workbook,
    process_excel_file now uploaded_file = Some workbook /\
    map fst (sheets workbook) = map fst excel_data /\
    Forall2 (fun kv df =>
               data (snd kv) = map (map stringified) (df_rows df) /\
               columns (snd kv) = df_columns df /\
               rows (snd kv) = Z.of_nat (List.length (data (snd kv))))
            (sheets workbook) (map snd excel_data) /\
    total_rows workbook = sum_rows (sheets workbook) /\
    filename workbook = name uploaded_file /\
    file_size workbook = size uploaded_file /\
    upload_time workbook = now.
Proof.
  intros Hread [Hkeys Hwf].
  unfold process_excel_file, process_excel_body. rewrite Hread. simpl.
  rewrite (convert_sheets_spec excel_data [] 0%Z Hkeys Hwf). simpl.
  eexists. split; [reflexivity|]. simpl.
  split; [|split; [|split; [|auto]]].
  - rewrite map_map. reflexivity.
  - clear. induction excel_data as [|[n df] l IH]; simpl; constructor; [|exact IH].
    simpl. rewrite !length_map. auto.
  - rewrite sum_rows_ingested. reflexivity.
Qed.

Lemma sample_upload_wf :
  wf_excel_data [ (lit "Links",
                   {| df_columns := [lit "ID"; lit "URL"];
                      df_rows := [ [CInt 1; CStr (lit "https://a.com")];
                                   [CNull; COther (lit "2.5")] ] |}) ].
Proof.
  split.
  - constructor; [intros [] | constructor].
  - constructor; [|constructor]. split; simpl.
    + constructor; [|constructor; [intros [] | constructor]].
      intros [H | []]. discriminate.
    + constructor; [reflexivity | constructor; [reflexivity | constructor]].
Defined.

Lemma ingest_stringifies_every_cell_witness :
  exists workbook,
    process_excel_file (lit "2024-01-01 00:00:00") sample_upload = Some workbook /\
    map fst (sheets workbook) = [lit "Links"] /\
    Forall2 (fun kv df =>
               data (snd kv) = map (map stringified) (df_rows df) /\
               columns (snd kv) = df_columns df /\
               rows (snd kv) = Z.of_nat (List.length (data (snd kv))))
            (sheets workbook)
            [ {| df_columns := [lit "ID"; lit "URL"];
                 df_rows := [ [CInt 1; CStr (lit "https://a.com")];
                              [CNull; COther (lit "2.5")] ] |} ] /\
    total_rows workbook = sum_rows (sheets workbook) /\
    filename workbook = lit "links.xlsx" /\
    file_size workbook = 2048%Z /\
    upload_time workbook = lit "2024-01-01 00:00:00".
Proof.
  exact (ingest_stringifies_every_cell (lit "2024-01-01 00:00:00") sample_upload
                                       _ eq_refl sample_upload_wf).
Defined.

Example ingest_sample :
  process_excel_file (lit "2024-01-01 00:00:00") sample_upload =
  Some {| sheets := [ (lit "Links",
                       {| data := [ [lit "1"; lit "https://a.com"]; [lit ""; lit "2.5"] ];
                          columns := [lit "ID"; lit "URL"];
                          rows := 2 |}) ];
          upload_time := lit "2024-01-01 00:00:00";
          filename := lit "links.xlsx";
          file_size := 2048;
          total_rows := 2 |}.
Proof. reflexivity. Qed.

(** A file pandas cannot read gives no workbook. *)
Example ingest_unreadable (now nm : str) (sz : Z) (e : exn) :
  process_excel_file now {| name := nm; size := sz; read_excel := Raise e |} = None.
Proof. reflexivity. Qed.

(* ===================================================================== *)
(** * The JSON codec: string literals *)
(* ===================================================================== *)

Ltac lia_div := zify; Z.to_euclidean_division_equations; lia.

Ltac bool_to_prop :=
  repeat match goal with
         | H : _ && _ = true |- _ => apply andb_true_iff in H; destruct H
         | H : _ || _ = false |- _ => apply orb_false_iff in H; destruct H
         | H : (_ <=? _) = true |- _ => apply N.leb_le in H
         | H : (_ <=? _) = false |- _ => apply N.leb_gt in H
         | H : (_ <? _) = true |- _ => apply N.ltb_lt in H
         | H : (_ <? _) = false |- _ => apply N.ltb_ge in H
         | H : (_ =? _) = true |- _ => apply N.eqb_eq in H
         | H : (_ =? _) = false |- _ => apply N.eqb_neq in H
         end.

(** Deciding a comparison of the goal from the arithmetic context. *)
Ltac decide_cmp :=
  repeat match goal with
         | |- context [?a =? ?b] =>
             first [ replace (a =? b) with false by (symmetry; apply N.eqb_neq; lia)
                   | replace (a =? b) with true by (symmetry; apply N.eqb_eq; lia) ]
         | |- context [?a <=? ?b] =>
             first [ replace (a <=? b) with true by (symmetry; apply N.leb_le; lia)
                   | replace (a <=? b) with false by (symmetry; apply N.leb_gt; lia) ]
         | |- context [?a <? ?b] =>
             first [ replace (a <? b) with true by (symmetry; apply N.ltb_lt; lia)
                   | replace (a <? b) with false by (symmetry; apply N.ltb_ge; lia) ]
         end.

Lemma hex_value_digit (d : N) : d < 16 -> hex_value (hex_digit d) = Some d.
Proof.
  intros H. unfold hex_digit, hex_value.
  destruct (N.ltb_spec d 10); decide_cmp; cbn [andb]; f_equal; lia.
Qed.

Lemma scan_hex4 (n : N) (tail : str) (us : list unit_) :
  n < 65536 ->
  scan_units (SHex 4 0) (hex4 n ++ tail) us = scan_units SNormal tail (us ++ [UEsc n]).
Proof.
  intros H. unfold hex4. cbn [List.app scan_units].
  repeat (rewrite hex_value_digit by (apply N.mod_lt; discriminate)).
  assert (E : (((0 * 16 + n / 4096 mod 16) * 16 + n / 256 mod 16) * 16 + n / 16 mod 16) * 16
              + n mod 16 = n) by lia_div.
  rewrite E. reflexivity.
Qed.

Lemma scan_u_escape (n : N) (tail : str) (us : list unit_) :
  n < 65536 ->
  scan_units SNormal (u_escape n ++ tail) us = scan_units SNormal tail (us ++ [UEsc n]).
Proof.
  intros H. unfold u_escape. change ((92 :: 117 :: hex4 n) ++ tail) with (92 :: 117 :: (hex4 n ++ tail)).
  cbn [scan_units]. simpl (92 =? 34). simpl (92 =? 92). simpl (117 =? 117).
  cbv iota. apply scan_hex4. exact H.
Qed.

Lemma is_scalar_range (c : char) :
  is_scalar c = true -> c < 55296 \/ (57343 < c /\ c < 1114112).
Proof.
  unfold is_scalar. rewrite orb_true_iff, andb_true_iff, !N.ltb_lt. tauto.
Qed.

Lemma scan_escape_char (c : char) (tail : str) (us : list unit_) :
  is_scalar c = true ->
  scan_units SNormal (escape_char c ++ tail) us =
  scan_units SNormal tail (us ++ units_of_char c).
Proof.
  intros Hc. apply is_scalar_range in Hc. unfold escape_char, units_of_char.
  destruct (N.eqb_spec c 34) as [->|H34]; [reflexivity|].
  destruct (N.eqb_spec c 92) as [->|H92]; [reflexivity|].
  destruct (N.eqb_spec c 10) as [->|H10]; [reflexivity|].
  destruct (N.eqb_spec c 13) as [->|H13]; [reflexivity|].
  destruct (N.eqb_spec c 9) as [->|H9]; [reflexivity|].
  destruct (N.eqb_spec c 8) as [->|H8]; [reflexivity|].
  destruct (N.eqb_spec c 12) as [->|H12]; [reflexivity|].
  cbn [orb].
  destruct ((32 <=? c) && (c <=? 126)) eqn:Hp.
  - bool_to_prop. cbn [List.app scan_units]. decide_cmp. reflexivity.
  - destruct (N.ltb_spec c 65536) as [Hlt|Hge].
    + apply scan_u_escape. exact Hlt.
    + rewrite <- app_assoc, scan_u_escape by lia_div.
      rewrite scan_u_escape by lia_div.
      rewrite <- app_assoc. reflexivity.
Qed.

Lemma scan_encoded (s tail : str) (us : list unit_) :
  wf_str s ->
  scan_units SNormal (flat_map escape_char s ++ 34 :: tail) us =
  Some (us ++ flat_map units_of_char s, tail).
Proof.
  unfold wf_str. revert us; induction s as [|c s IH]; intros us H; simpl in *.
  - rewrite app_nil_r. reflexivity.
  - apply andb_true_iff in H. destruct H as [Hc Hs].
    rewrite <- app_assoc, scan_escape_char by exact Hc.
    rewrite IH by exact Hs. rewrite <- app_assoc. reflexivity.
Qed.

Lemma join_units_char (c : char) (us : list unit_) :
  is_scalar c = true -> join_units (units_of_char c ++ us) = c :: join_units us.
Proof.
  intros Hc. apply is_scalar_range in Hc. unfold units_of_char.
  destruct ((c =? 34) || (c =? 92) || (c =? 10) || (c =? 13) || (c =? 9) || (c =? 8) || (c =? 12));
    [reflexivity|].
  destruct ((32 <=? c) && (c <=? 126)); [reflexivity|].
  destruct (N.ltb_spec c 65536) as [Hlt|Hge].
  - cbn [List.app join_units]. destruct us as [|[c'|n2] us]; try reflexivity.
    unfold is_high_surrogate. replace ((55296 <=? c) && (c <=? 56319)) with false; [reflexivity|].
    symmetry. apply andb_false_iff. rewrite N.leb_gt, N.leb_gt. lia.
  - cbn [List.app join_units]. unfold is_high_surrogate, is_low_surrogate.
    replace ((55296 <=? 55296 + (c - 65536) / 1024 mod 1024) &&
             (55296 + (c - 65536) / 1024 mod 1024 <=? 56319)) with true
      by (symmetry; apply andb_true_iff; rewrite !N.leb_le; lia_div).
    replace ((56320 <=? 56320 + (c - 65536) mod 1024) &&
             (56320 + (c - 65536) mod 1024 <=? 57343)) with true
      by (symmetry; apply andb_true_iff; rewrite !N.leb_le; lia_div).
    cbn [andb]. f_equal. lia_div.
Qed.

Lemma join_encoded (s : str) :
  wf_str s -> join_units (flat_map units_of_char s) = s.
Proof.
  unfold wf_str. induction s as [|c s IH]; intros H; simpl in *; [reflexivity|].
  apply andb_true_iff in H. destruct H as [Hc Hs].
  rewrite join_units_char by exact Hc. rewrite IH by exact Hs. reflexivity.
Qed.

(** A string literal written by the encoder is read back as the string. *)
Lemma parse_string_encoded (s tail : str) :
  wf_str s ->
  parse_string (flat_map escape_char s ++ 34 :: tail) = Some (s, tail).
Proof.
  intros H. unfold parse_string. rewrite scan_encoded by exact H.
  simpl. rewrite join_encoded by exact H. reflexivity.
Qed.

(* ===================================================================== *)
(** * The JSON codec: integers *)
(* ===================================================================== *)

Lemma chars_of_uint_digits (d : uint) : forallb is_digit (chars_of_uint d) = true.
Proof. induction d; simpl; auto. Qed.

Lemma uint_of_chars_of_uint (d : uint) : uint_of_chars (chars_of_uint d) = d.
Proof. induction d; simpl; congruence. Qed.

Lemma span_digits_all (ds rest : str) :
  forallb is_digit ds = true ->
  match rest with [] => True | c :: _ => is_digit c = false end ->
  span_digits (ds ++ rest) = (ds, rest).
Proof.
  intros Hds Hrest. induction ds as [|c ds IH]; simpl in *.
  - destruct rest as [|c rest]; [reflexivity|]. simpl. rewrite Hrest. reflexivity.
  - apply andb_true_iff in Hds. destruct Hds as [Hc Hds].
    rewrite Hc, (IH Hds). reflexivity.
Qed.

Lemma nzhead_not_D0 (d d' : uint) : nzhead d <> D0 d'.
Proof. induction d; simpl; try discriminate; assumption. Qed.

Lemma unorm_fixed (d : uint) :
  unorm d = d -> d = D0 Nil \/ (d <> Nil /\ forall d', d <> D0 d').
Proof.
  destruct d as [|d| | | | | | | | |]; try (right; split; discriminate).
  intros H. rewrite DecimalFacts.unorm_D0 in H. left.
  unfold unorm in H. destruct (nzhead d) eqn:E;
    try (exfalso; apply (nzhead_not_D0 d d); rewrite E; exact H); try discriminate.
  injection H as <-. reflexivity.
Qed.

Lemma to_uint_fixed (n : N) : unorm (N.to_uint n) = N.to_uint n.
Proof.
  rewrite <- DecimalN.Unsigned.to_of, DecimalN.Unsigned.of_to. reflexivity.
Qed.

(** The decimal text of a natural number is [0] or starts with a digit
    other than 0. *)
Lemma str_of_N_head (n : N) :
  str_of_N n = [48] \/
  exists c ds, str_of_N n = c :: ds /\ is_digit c = true /\ c <> 48.
Proof.
  unfold str_of_N. destruct (unorm_fixed _ (to_uint_fixed n)) as [E | [Hn Hz]].
  - left. rewrite E. reflexivity.
  - right. destruct (N.to_uint n) as [|d|d|d|d|d|d|d|d|d|d];
      try (eexists _, _; split; [reflexivity | split; [reflexivity | discriminate]]).
    + contradiction.
    + exfalso. apply (Hz d). reflexivity.
Qed.

Lemma str_of_N_value (n : N) : N.of_uint (uint_of_chars (str_of_N n)) = n.
Proof.
  unfold str_of_N. rewrite uint_of_chars_of_uint. apply DecimalN.Unsigned.of_to.
Qed.

Lemma closed_after_digit (rest : str) :
  closed_after rest -> match rest with [] => True | c :: _ => is_digit c = false end.
Proof.
  destruct rest as [|c rest]; [auto|]. unfold closed_after, number_continues.
  intros H. bool_to_prop. destruct (is_digit c); [discriminate | reflexivity].
Qed.

Lemma scan_int_part_str_of_N (n : N) (rest : str) :
  closed_after rest ->
  scan_int_part (str_of_N n ++ rest) = Some (str_of_N n, rest).
Proof.
  intros Hrest. destruct (str_of_N_head n) as [E | (c & ds & E & Hc & Hz)].
  - rewrite E. reflexivity.
  - assert (Hds : forallb is_digit (c :: ds) = true).
    { rewrite <- E. apply chars_of_uint_digits. }
    rewrite E. unfold scan_int_part. cbn [List.app].
    apply N.eqb_neq in Hz. rewrite Hz, Hc. f_equal.
    apply (span_digits_all (c :: ds) rest Hds).
    apply closed_after_digit. exact Hrest.
Qed.

Lemma scan_frac_closed (rest : str) : closed_after rest -> scan_frac rest = ([], rest).
Proof.
  destruct rest as [|c rest]; [reflexivity|]. unfold closed_after, number_continues.
  intros H. bool_to_prop. unfold scan_frac.
  match goal with H : c <> 46 |- _ => apply N.eqb_neq in H; rewrite H end. reflexivity.
Qed.

Lemma scan_exp_closed (rest : str) : closed_after rest -> scan_exp rest = ([], rest).
Proof.
  destruct rest as [|c rest]; [reflexivity|]. unfold closed_after, number_continues.
  intros H. bool_to_prop. unfold scan_exp.
  repeat match goal with H : c <> _ |- _ => apply N.eqb_neq in H; rewrite H end.
  reflexivity.
Qed.

Lemma parse_unsigned (n : N) (rest : str) :
  closed_after rest ->
  parse_number (str_of_N n ++ rest) = Some (PyInt (Z.of_N n), rest).
Proof.
  intros Hrest. unfold parse_number.
  assert (Hhead : exists c ds, str_of_N n ++ rest = c :: ds /\ (c =? 45) = false).
  { destruct (str_of_N_head n) as [E | (c & ds & E & Hc & _)].
    - rewrite E. eexists _, _. split; reflexivity.
    - rewrite E. exists c, (ds ++ rest). split; [reflexivity|].
      unfold is_digit in Hc. bool_to_prop. apply N.eqb_neq. lia. }
  destruct Hhead as (c & ds & E & Hc). rewrite E, Hc, <- E.
  rewrite scan_int_part_str_of_N by exact Hrest.
  rewrite scan_frac_closed, scan_exp_closed by exact Hrest.
  rewrite str_of_N_value. reflexivity.
Qed.

(** The decimal text of an integer is read back as the integer. *)
Lemma parse_number_str_of_Z (z : Z) (rest : str) :
  closed_after rest ->
  parse_number (str_of_Z z ++ rest) = Some (PyInt z, rest).
Proof.
  intros Hrest. destruct z as [|p|p].
  - apply (parse_unsigned 0 rest Hrest).
  - unfold str_of_Z. rewrite parse_unsigned by exact Hrest.
    rewrite Z2N.id by lia. reflexivity.
  - unfold str_of_Z, parse_number. cbn [List.app]. change (45 =? 45) with true. cbv iota.
    rewrite scan_int_part_str_of_N by exact Hrest.
    rewrite scan_frac_closed, scan_exp_closed by exact Hrest.
    rewrite str_of_N_value. reflexivity.
Qed.

(** The text of an integer starts with a digit or a minus sign. *)
Lemma str_of_Z_head (z : Z) :
  exists c ds, str_of_Z z = c :: ds /\ (is_digit c = true \/ c = 45).
Proof.
  destruct z as [|p|p].
  - eexists _, _. split; [reflexivity | left; reflexivity].
  - unfold str_of_Z. destruct (str_of_N_head (Z.to_N (Z.pos p))) as [E | (c & ds & E & Hc & _)].
    + rewrite E. eexists _, _. split; [reflexivity | left; reflexivity].
    + rewrite E. eexists _, _. split; [reflexivity | left; exact Hc].
  - eexists _, _. split; [reflexivity | right; reflexivity].
Qed.

(* ===================================================================== *)
(** * The JSON codec: [loads] after [dumps] *)
(* ===================================================================== *)

Lemma dumps_list (l : list pyval) : dumps (PyList l) = 91 :: dumps_items true l ++ [93].
Proof.
  reflexivity.
Qed.

Lemma dumps_dict (d : list (str * pyval)) :
  dumps (PyDict d) = 123 :: dumps_pairs true d ++ [125].
Proof.
  reflexivity.
Qed.

Lemma nodes_list (l : list pyval) : nodes (PyList l) = S (nodes_items l).
Proof.
  reflexivity.
Qed.

Lemma nodes_dict (d : list (str * pyval)) : nodes (PyDict d) = S (nodes_pairs d).
Proof.
  reflexivity.
Qed.

Lemma plain_list (l : list pyval) : plain (PyList l) <-> plain_items l.
Proof.
  reflexivity.
Qed.

Lemma plain_dict (d : list (str * pyval)) :
  plain (PyDict d) <-> NoDup (map fst d) /\ plain_pairs d.
Proof.
  reflexivity.
Qed.

Lemma dumps_head (v : pyval) :
  plain v -> exists c r, dumps v = c :: r /\ opens_value c.
Proof.
  unfold opens_value. destruct v as [|[|]|z|f|s|l|d]; intros Hv.
  - eexists _, _. split; [reflexivity|]. repeat split; discriminate.
  - eexists _, _. split; [reflexivity|]. repeat split; discriminate.
  - eexists _, _. split; [reflexivity|]. repeat split; discriminate.
  - destruct (str_of_Z_head z) as (c & ds & E & Hc). simpl. rewrite E.
    exists c, ds. split; [reflexivity|].
    destruct Hc as [Hc | ->]; [|repeat split; discriminate].
    unfold is_digit in Hc. bool_to_prop. unfold is_ws.
    repeat split; try lia. decide_cmp. reflexivity.
  - destruct Hv.
  - eexists _, _. split; [reflexivity|]. repeat split; discriminate.
  - rewrite dumps_list. eexists _, _. split; [reflexivity|]. repeat split; discriminate.
  - rewrite dumps_dict. eexists _, _. split; [reflexivity|]. repeat split; discriminate.
Qed.

Lemma skip_ws_opens (c : char) (s : str) : is_ws c = false -> skip_ws (c :: s) = c :: s.
Proof. intros H. simpl. rewrite H. reflexivity. Qed.

Lemma dumps_items_head (x : pyval) (l : list pyval) (tail : str) :
  plain x ->
  exists c r, dumps_items true (x :: l) ++ tail = c :: r /\ opens_value c.
Proof.
  intros Hx. destruct (dumps_head x Hx) as (c & r & E & Hc).
  simpl. rewrite E. eexists _, _. split; [reflexivity | exact Hc].
Qed.

Lemma closed_after_items (l : list pyval) (close : char) (rest : str) :
  number_continues close = false ->
  closed_after (dumps_items false l ++ close :: rest).
Proof. intros H. destruct l; simpl; [exact H | reflexivity]. Qed.

Lemma closed_after_pairs (d : list (str * pyval)) (close : char) (rest : str) :
  number_continues close = false ->
  closed_after (dumps_pairs false d ++ close :: rest).
Proof. intros H. destruct d as [|[k x] d]; simpl; [exact H | reflexivity]. Qed.

Lemma not_ws_cmp (c : char) :
  opens_value c -> is_ws c = false /\ (c =? 93) = false /\ (c =? 125) = false.
Proof. intros (H1 & H2 & H3). rewrite <- !N.eqb_neq in *. auto. Qed.

Lemma dumps_pairs_head (k : str) (x : pyval) (d : list (str * pyval)) (tail : str) :
  exists r, dumps_pairs true ((k, x) :: d) ++ tail = 34 :: r.
Proof. eexists. reflexivity. Qed.

Lemma dumps_pairs_cons (k : str) (x : pyval) (d : list (str * pyval)) (tail : str) :
  dumps_pairs true ((k, x) :: d) ++ tail =
  34 :: flat_map escape_char k ++ 34 :: 58 :: 32 :: dumps x ++ dumps_pairs false d ++ tail.
Proof.
  cbn [dumps_pairs encode_str key_separator List.app].
  rewrite <- !app_assoc. cbn [List.app]. rewrite <- !app_assoc. reflexivity.
Qed.

Lemma dumps_items_next (y : pyval) (l : list pyval) (tail : str) :
  dumps_items false (y :: l) ++ tail = 44 :: 32 :: dumps_items true (y :: l) ++ tail.
Proof. reflexivity. Qed.

Lemma dumps_pairs_next (k : str) (y : pyval) (d : list (str * pyval)) (tail : str) :
  dumps_pairs false ((k, y) :: d) ++ tail = 44 :: 32 :: dumps_pairs true ((k, y) :: d) ++ tail.
Proof. reflexivity. Qed.

(** With fuel for every node, the scanner reads the text of a plain
    value back, and stops where the text stops. *)
Lemma parse_dumps_fuel (fuel : nat) :
  (forall v rest,
      plain v -> closed_after rest -> (nodes v <= fuel)%nat ->
      parse_value fuel (dumps v ++ rest) = Some (v, rest)) /\
  (forall l acc rest,
      l <> [] -> plain_items l -> (nodes_items l <= fuel)%nat ->
      parse_items fuel (dumps_items true l ++ 93 :: rest) acc = Some (acc ++ l, rest)) /\
  (forall d acc rest,
      d <> [] -> NoDup (map fst acc ++ map fst d) -> plain_pairs d ->
      (nodes_pairs d <= fuel)%nat ->
      parse_pairs fuel (dumps_pairs true d ++ 125 :: rest) acc = Some (acc ++ d, rest)).
Proof.
  induction fuel as [|fuel (IHv & IHl & IHd)].
  - split; [|split].
    + intros v rest _ _ H. destruct v; simpl in H; lia.
    + intros [|x l] acc rest Hne _ H; [congruence | simpl in H; lia].
    + intros [|[k x] d] acc rest Hne _ _ H; [congruence | simpl in H; lia].
  - split; [|split].
    + (* values *)
      intros v rest Hv Hrest Hn. destruct v as [|[|]|z|f|s|l|d].
      * reflexivity.
      * reflexivity.
      * reflexivity.
      * destruct (str_of_Z_head z) as (c & ds & E & Hc).
        assert (Hcmp : (c =? 34) = false /\ (c =? 123) = false /\ (c =? 91) = false /\
                       (c =? 110) = false /\ (c =? 116) = false /\ (c =? 102) = false).
        { rewrite !N.eqb_neq. destruct Hc as [Hc | ->].
          - unfold is_digit in Hc. bool_to_prop. lia.
          - repeat split; discriminate. }
        destruct Hcmp as (H1 & H2 & H3 & H4 & H5 & H6).
        cbn [dumps parse_value]. rewrite E. cbn [List.app]. rewrite H1, H2, H3.
        unfold parse_constant. rewrite H4, H5, H6.
        change (c :: ds ++ rest) with ((c :: ds) ++ rest). rewrite <- E.
        rewrite parse_number_str_of_Z by exact Hrest. reflexivity.
      * destruct Hv.
      * cbn [dumps parse_value]. unfold encode_str. cbn [List.app].
        change (34 =? 34) with true. cbv iota.
        rewrite <- app_assoc. cbn [List.app].
        rewrite parse_string_encoded by exact Hv. reflexivity.
      * rewrite dumps_list. rewrite nodes_list in Hn. apply plain_list in Hv.
        cbn [List.app parse_value]. change (91 =? 34) with false.
        change (91 =? 123) with false. change (91 =? 91) with true. cbv iota.
        rewrite <- app_assoc. cbn [List.app].
        destruct l as [|x l].
        { reflexivity. }
        destruct (dumps_items_head x l (93 :: rest)) as (c & r & E & Hc); [apply Hv|].
        apply not_ws_cmp in Hc. destruct Hc as (Hw & H93 & _).
        rewrite E. rewrite skip_ws_opens by exact Hw. rewrite H93, <- E.
        rewrite (IHl (x :: l) [] rest); [reflexivity | discriminate | exact Hv | lia].
      * rewrite dumps_dict. rewrite nodes_dict in Hn. apply plain_dict in Hv.
        destruct Hv as [Hnd Hv].
        cbn [List.app parse_value]. change (123 =? 34) with false.
        change (123 =? 123) with true. cbv iota.
        rewrite <- app_assoc. cbn [List.app].
        destruct d as [|[k x] d].
        { reflexivity. }
        destruct (dumps_pairs_head k x d (125 :: rest)) as (r & E).
        rewrite E. rewrite skip_ws_opens by reflexivity.
        change (34 =? 125) with false. cbv iota. rewrite <- E.
        rewrite (IHd ((k, x) :: d) [] rest);
          [reflexivity | discriminate | exact Hnd | exact Hv | lia].
    + (* items *)
      intros l acc rest Hne Hl Hn. destruct l as [|x l]; [congruence|].
      destruct Hl as [Hx Hl]. simpl in Hn.
      cbn [dumps_items parse_items List.app]. rewrite <- app_assoc.
      rewrite IHv; [| exact Hx | apply closed_after_items; reflexivity | lia].
      destruct l as [|y l].
      * reflexivity.
      * rewrite dumps_items_next. rewrite skip_ws_opens by reflexivity.
        change (44 =? 44) with true. cbv iota.
        destruct (dumps_items_head y l (93 :: rest)) as (c & r & E & Hc); [apply Hl|].
        apply not_ws_cmp in Hc. destruct Hc as (Hw & _).
        cbn [skip_ws]. change (is_ws 32) with true. cbv iota.
        rewrite E, skip_ws_opens by exact Hw. rewrite <- E.
        rewrite IHl; [| discriminate | exact Hl | lia].
        rewrite <- app_assoc. reflexivity.
    + (* pairs *)
      intros d acc rest Hne Hnd Hd Hn. destruct d as [|[k x] d]; [congruence|].
      destruct Hd as (Hk & Hx & Hd). simpl in Hn.
      rewrite dumps_pairs_cons. cbn [parse_pairs]. change (34 =? 34) with true. cbv iota.
      rewrite parse_string_encoded by exact Hk.
      rewrite skip_ws_opens by reflexivity. change (58 =? 58) with true. cbv iota.
      destruct (dumps_head x Hx) as (c & r & E & Hc).
      apply not_ws_cmp in Hc. destruct Hc as (Hw & _).
      cbn [skip_ws]. change (is_ws 32) with true. cbv iota.
      rewrite E. cbn [List.app]. rewrite skip_ws_opens by exact Hw.
      change (c :: r ++ dumps_pairs false d ++ 125 :: rest)
        with ((c :: r) ++ dumps_pairs false d ++ 125 :: rest). rewrite <- E.
      rewrite IHv; [| exact Hx | apply closed_after_pairs; reflexivity | lia].
      assert (Hset : dict_set acc k x = acc ++ [(k, x)]).
      { apply dict_set_fresh. simpl in Hnd. apply NoDup_remove_2 in Hnd.
        intros Hin. apply Hnd. apply in_or_app. left. exact Hin. }
      destruct d as [|[k' y] d].
      * cbn [dumps_pairs List.app skip_ws]. change (is_ws 125) with false.
        change (125 =? 44) with false. change (125 =? 125) with true. cbv iota.
        rewrite Hset. reflexivity.
      * rewrite dumps_pairs_next. rewrite skip_ws_opens by reflexivity.
        change (44 =? 44) with true. cbv iota.
        destruct (dumps_pairs_head k' y d (125 :: rest)) as (r' & E').
        cbn [skip_ws]. change (is_ws 32) with true. cbv iota.
        rewrite E', skip_ws_opens by reflexivity. rewrite <- E'.
        rewrite Hset. rewrite IHd; [| discriminate | | exact Hd | lia].
        -- rewrite <- app_assoc. reflexivity.
        -- rewrite map_app, <- app_assoc. exact Hnd.
Qed.

(** The text of a value has at least as many characters as the value has
    nodes, so the fuel [loads] takes is enough. *)
Lemma nodes_bound (n : nat) :
  (forall v, (nodes v <= n)%nat -> plain v -> (nodes v <= List.length (dumps v))%nat) /\
  (forall l, (nodes_items l <= n)%nat -> plain_items l ->
             (nodes_items l <= List.length (dumps_items false l))%nat /\
             (nodes_items l <= S (List.length (dumps_items true l)))%nat) /\
  (forall d b, (nodes_pairs d <= n)%nat -> plain_pairs d ->
               (nodes_pairs d <= List.length (dumps_pairs b d))%nat).
Proof.
  induction n as [|n (IHv & IHl & IHd)].
  - split; [|split].
    + intros v H. destruct v; simpl in H; lia.
    + intros [|x l] H _; simpl in *; lia.
    + intros [|[k x] d] b H _; simpl in *; lia.
  - split; [|split].
    + intros v Hn Hv. destruct v as [|[|]|z|f|s|l|d]; try (simpl; lia).
      * destruct (str_of_Z_head z) as (c & ds & E & _). simpl. rewrite E. simpl. lia.
      * destruct Hv.
      * rewrite dumps_list, nodes_list in *. apply plain_list in Hv.
        destruct (IHl l) as [_ H]; [lia | exact Hv |].
        cbn [List.length]. rewrite length_app. simpl. lia.
      * rewrite dumps_dict, nodes_dict in *. apply plain_dict in Hv.
        specialize (IHd d true). cbn [List.length]. rewrite length_app. simpl.
        destruct Hv as [_ Hv]. specialize (IHd ltac:(lia) Hv). lia.
    + intros l Hn Hl. destruct l as [|x l]; [simpl; lia|].
      destruct Hl as [Hx Hl]. simpl in Hn.
      specialize (IHv x ltac:(lia) Hx). destruct (IHl l ltac:(lia) Hl) as [IH _].
      cbn [dumps_items nodes_items]. rewrite !length_app. simpl. lia.
    + intros d b Hn Hd. destruct d as [|[k x] d]; [simpl; lia|].
      destruct Hd as (_ & Hx & Hd). simpl in Hn.
      specialize (IHv x ltac:(lia) Hx). specialize (IHd d false ltac:(lia) Hd).
      cbn [dumps_pairs nodes_pairs]. rewrite !length_app. simpl. lia.
Qed.

Lemma nodes_le_length (v : pyval) :
  plain v -> (nodes v <= List.length (dumps v))%nat.
Proof. intros Hv. apply (proj1 (nodes_bound (nodes v))); [lia | exact Hv]. Qed.

(** [json.loads(json.dumps(v))] is [v] for every plain value. *)
Lemma loads_dumps (v : pyval) : plain v -> loads (dumps v) = Some v.
Proof.
  intros Hv. unfold loads.
  destruct (dumps_head v Hv) as (c & r & E & Hc). apply not_ws_cmp in Hc.
  destruct Hc as (Hw & _).
  rewrite E at 2. rewrite skip_ws_opens by exact Hw. rewrite <- E.
  rewrite <- (app_nil_r (dumps v)) at 2.
  rewrite (proj1 (parse_dumps_fuel _)); [reflexivity | exact Hv | exact I |].
  pose proof (nodes_le_length v Hv). lia.
Qed.

(* ===================================================================== *)
(** * The scanner: more fuel, longer text *)
(* ===================================================================== *)

(** What succeeds with some fuel succeeds with more. *)
Lemma parse_fuel_mono (fuel : nat) :
  (forall s res fuel', parse_value fuel s = Some res -> (fuel <= fuel')%nat ->
                       parse_value fuel' s = Some res) /\
  (forall s acc res fuel', parse_items fuel s acc = Some res -> (fuel <= fuel')%nat ->
                           parse_items fuel' s acc = Some res) /\
  (forall s acc res fuel', parse_pairs fuel s acc = Some res -> (fuel <= fuel')%nat ->
                           parse_pairs fuel' s acc = Some res).
Proof.
  induction fuel as [|fuel (IHv & IHl & IHd)].
  - repeat split; intros; discriminate.
  - split; [|split].
    + intros s res [|fuel'] H Hle; [lia|]. apply le_S_n in Hle.
      cbn [parse_value] in *. destruct s as [|c s]; [discriminate|].
      destruct (c =? 34); [exact H|].
      destruct (c =? 123).
      { destruct (skip_ws s) as [|c1 s1]; [discriminate|].
        destruct (c1 =? 125); [exact H|].
        destruct (parse_pairs fuel (c1 :: s1) []) as [[d rest]|] eqn:E; [|discriminate].
        rewrite (IHd _ _ _ _ E Hle). exact H. }
      destruct (c =? 91); [|exact H].
      destruct (skip_ws s) as [|c1 s1]; [discriminate|].
      destruct (c1 =? 93); [exact H|].
      destruct (parse_items fuel (c1 :: s1) []) as [[l rest]|] eqn:E; [|discriminate].
      rewrite (IHl _ _ _ _ E Hle). exact H.
    + intros s acc res [|fuel'] H Hle; [lia|]. apply le_S_n in Hle.
      cbn [parse_items] in *.
      destruct (parse_value fuel s) as [[x rest]|] eqn:E; [|discriminate].
      rewrite (IHv _ _ _ E Hle).
      destruct (skip_ws rest) as [|c rest']; [discriminate|].
      destruct (c =? 44); [apply IHl; assumption | exact H].
    + intros s acc res [|fuel'] H Hle; [lia|]. apply le_S_n in Hle.
      cbn [parse_pairs] in *. destruct s as [|q s0]; [discriminate|].
      destruct (q =? 34); [|discriminate].
      destruct (parse_string s0) as [[k s1]|]; [|discriminate].
      destruct (skip_ws s1) as [|c s2]; [discriminate|].
      destruct (c =? 58); [|discriminate].
      destruct (parse_value fuel (skip_ws s2)) as [[x rest]|] eqn:E; [|discriminate].
      rewrite (IHv _ _ _ E Hle).
      destruct (skip_ws rest) as [|c' rest']; [discriminate|].
      destruct (c' =? 44); [apply IHd; assumption | exact H].
Qed.

Lemma skip_ws_app (s t : str) (c : char) (r : str) :
  skip_ws s = c :: r -> skip_ws (s ++ t) = c :: r ++ t.
Proof.
  induction s as [|x s IH]; simpl; [discriminate|].
  destruct (is_ws x); [exact IH|]. intros H. injection H as -> ->. reflexivity.
Qed.

Lemma skip_ws_head (s : str) (c : char) (r : str) :
  skip_ws s = c :: r ->
  exists c0 r0, s = c0 :: r0 /\ (is_ws c0 = true \/ c0 = c).
Proof.
  destruct s as [|x s]; simpl; [discriminate|].
  destruct (is_ws x) eqn:E; intros H.
  - exists x, s. auto.
  - injection H as -> _. exists c, s. auto.
Qed.

Lemma ws_not_number (c : char) : is_ws c = true -> number_continues c = false.
Proof.
  unfold is_ws. rewrite !orb_true_iff, !N.eqb_eq.
  intros [[[-> | ->] | ->] | ->]; reflexivity.
Qed.

Lemma scan_units_app (s t : str) :
  forall st us res r,
    scan_units st s us = Some (res, r) ->
    scan_units st (s ++ t) us = Some (res, r ++ t).
Proof.
  induction s as [|c s IH]; intros st us res r H; [discriminate|].
  cbn [List.app scan_units] in *. destruct st as [| |k acc].
  - destruct (c =? 34).
    + injection H as -> ->. reflexivity.
    + destruct (c =? 92); [apply IH; exact H|].
      destruct (c <? 32); [discriminate | apply IH; exact H].
  - destruct (c =? 117); [apply IH; exact H|].
    destruct (simple_escape c); [apply IH; exact H | discriminate].
  - destruct (hex_value c); [|discriminate].
    destruct k as [|[|k]]; [discriminate | apply IH; exact H | apply IH; exact H].
Qed.

Lemma parse_string_app (s t : str) (x r : str) :
  parse_string s = Some (x, r) -> parse_string (s ++ t) = Some (x, r ++ t).
Proof.
  unfold parse_string. destruct (scan_units SNormal s []) as [[us rest]|] eqn:E; [|discriminate].
  intros H. injection H as <- <-. rewrite (scan_units_app s t _ _ _ _ E). reflexivity.
Qed.

Lemma strip_prefix_app (p s t r : str) :
  strip_prefix p s = Some r -> strip_prefix p (s ++ t) = Some (r ++ t).
Proof.
  revert s; induction p as [|x p IH]; intros s; simpl.
  - intros H. injection H as ->. reflexivity.
  - destruct s as [|y s]; [discriminate|]. simpl.
    destruct (x =? y); [apply IH | discriminate].
Qed.

Lemma span_digits_app (s t : str) (ds : str) (c : char) (r : str) :
  span_digits s = (ds, c :: r) -> span_digits (s ++ t) = (ds, c :: r ++ t).
Proof.
  revert ds; induction s as [|x s IH]; intros ds; simpl; [discriminate|].
  destruct (is_digit x).
  - destruct (span_digits s) as [ds' rest'] eqn:E. intros H. injection H as <- ->.
    rewrite (IH ds' eq_refl). reflexivity.
  - intros H. injection H as <- -> ->. reflexivity.
Qed.

Lemma scan_int_part_app (s t : str) (ds : str) (c : char) (r : str) :
  scan_int_part s = Some (ds, c :: r) ->
  scan_int_part (s ++ t) = Some (ds, c :: r ++ t).
Proof.
  unfold scan_int_part. destruct s as [|x s]; [discriminate|]. cbn [List.app].
  destruct (x =? 48).
  - intros H. injection H as <- ->. reflexivity.
  - destruct (is_digit x); [|discriminate].
    intros H. injection H as H. change (x :: s ++ t) with ((x :: s) ++ t).
    rewrite (span_digits_app (x :: s) t ds c r H). reflexivity.
Qed.

Lemma scan_frac_nil (s s3 : str) : scan_frac s = ([], s3) -> s3 = s.
Proof.
  unfold scan_frac. destruct s as [|x s]; [congruence|].
  destruct (x =? 46); [|congruence].
  destruct (span_digits s) as [[|d ds] rest]; [congruence | discriminate].
Qed.

Lemma scan_frac_app (s t : str) (fr : str) (c : char) (r : str) :
  scan_frac s = (fr, c :: r) -> c <> 46 ->
  scan_frac (s ++ t) = (fr, c :: r ++ t).
Proof.
  unfold scan_frac. destruct s as [|x s]; [discriminate|]. cbn [List.app].
  destruct (N.eqb_spec x 46) as [->|Hx].
  - destruct (span_digits s) as [[|d ds] rest] eqn:E.
    + intros H. injection H as _ <-. congruence.
    + intros H _. injection H as <- ->.
      rewrite (span_digits_app _ t _ _ _ E). reflexivity.
  - intros H _. injection H as <- <- <-. reflexivity.
Qed.

Lemma scan_exp_nil (s s4 : str) : scan_exp s = ([], s4) -> s4 = s.
Proof.
  unfold scan_exp. destruct s as [|x s]; [congruence|].
  destruct ((x =? 101) || (x =? 69)); [|congruence].
  destruct s as [|y s'].
  - simpl. congruence.
  - destruct ((y =? 43) || (y =? 45)).
    + destruct (span_digits s') as [[|d ds] rest]; [congruence | discriminate].
    + destruct (span_digits (y :: s')) as [[|d ds] rest]; [congruence | discriminate].
Qed.

(** What follows an exponent, or the text itself when there is none. *)
Lemma scan_exp_head (s : str) (ex : str) (c : char) (r : str) :
  scan_exp s = (ex, c :: r) ->
  exists c3 r3, s = c3 :: r3 /\ (c3 = c \/ c3 = 101 \/ c3 = 69).
Proof.
  unfold scan_exp. destruct s as [|x s]; [discriminate|].
  destruct ((x =? 101) || (x =? 69)) eqn:Hx.
  - intros _. exists x, s. split; [reflexivity|]. right.
    rewrite orb_true_iff, !N.eqb_eq in Hx. exact Hx.
  - intros H. injection H as _ <- _. exists x, s. auto.
Qed.

Lemma scan_exp_app (s t : str) (ex : str) (c : char) (r : str) :
  scan_exp s = (ex, c :: r) -> c <> 101 -> c <> 69 ->
  scan_exp (s ++ t) = (ex, c :: r ++ t).
Proof.
  unfold scan_exp. destruct s as [|x s]; [discriminate|]. cbn [List.app].
  destruct ((x =? 101) || (x =? 69)) eqn:Hx.
  - rewrite orb_true_iff, !N.eqb_eq in Hx. intros H H1 H2.
    assert (Hc : c <> x) by (destruct Hx; congruence).
    destruct s as [|y s'].
    + simpl in H. injection H as _ <-. congruence.
    + cbn [List.app]. destruct ((y =? 43) || (y =? 45)).
      * destruct (span_digits s') as [[|d ds] rest] eqn:E.
        -- injection H as _ <-. congruence.
        -- injection H as <- ->. rewrite (span_digits_app _ t _ _ _ E). reflexivity.
      * destruct (span_digits (y :: s')) as [[|d ds] rest] eqn:E.
        -- injection H as _ <-. congruence.
        -- injection H as <- ->. change (y :: s' ++ t) with ((y :: s') ++ t).
           rewrite (span_digits_app _ t _ _ _ E). reflexivity.
  - intros H _ _. injection H as <- <- <-. reflexivity.
Qed.

Lemma scan_frac_head (s : str) (fr : str) (c : char) (r : str) :
  scan_frac s = (fr, c :: r) -> exists c2 r2, s = c2 :: r2.
Proof. destruct s as [|x s]; [discriminate | eauto]. Qed.

Lemma number_continues_false (c : char) :
  number_continues c = false -> c <> 46 /\ c <> 101 /\ c <> 69.
Proof. unfold number_continues. intros H. bool_to_prop. auto. Qed.

(** A number followed by a character that cannot prolong it is read the
    same when text is added at the end. *)
Lemma parse_number_app (s t : str) (v : pyval) (c : char) (r : str) :
  parse_number s = Some (v, c :: r) -> number_continues c = false ->
  parse_number (s ++ t) = Some (v, c :: r ++ t).
Proof.
  intros H Hc. apply number_continues_false in Hc. destruct Hc as (H46 & H101 & H69).
  unfold parse_number in *.
  assert (Hsign :
            (let (neg, s1) := match s ++ t with
                              | c0 :: s' => if c0 =? 45 then (true, s') else (false, s ++ t)
                              | [] => (false, s ++ t)
                              end in (neg, s1)) =
            (let (neg, s1) := match s with
                              | c0 :: s' => if c0 =? 45 then (true, s') else (false, s)
                              | [] => (false, s)
                              end in (neg, s1 ++ t)) \/ s = []).
  { destruct s as [|c0 s']; [right; reflexivity | left]. cbn [List.app].
    destruct (c0 =? 45); reflexivity. }
  destruct Hsign as [Hsign | ->]; [|discriminate].
  destruct (match s with
            | c0 :: s' => if c0 =? 45 then (true, s') else (false, s)
            | [] => (false, s)
            end) as [neg s1] eqn:E1.
  destruct (match s ++ t with
            | c0 :: s' => if c0 =? 45 then (true, s') else (false, s ++ t)
            | [] => (false, s ++ t)
            end) as [neg' s1'] eqn:E1'.
  injection Hsign as -> ->.
  destruct (scan_int_part s1) as [[ds s2]|] eqn:E2; [|discriminate].
  destruct (scan_frac s2) as [fr s3] eqn:E3.
  destruct (scan_exp s3) as [ex s4] eqn:E4.
  assert (Hr : s4 = c :: r).
  { destruct fr, ex; injection H as _ H; try exact H.
    apply scan_frac_nil in E3. apply scan_exp_nil in E4. congruence. }
  subst s4.
  destruct (scan_exp_head _ _ _ _ E4) as (c3 & r3 & -> & Hc3).
  assert (H3 : c3 <> 46) by (destruct Hc3 as [-> | [-> | ->]]; [exact H46 | discriminate | discriminate]).
  destruct (scan_frac_head _ _ _ _ E3) as (c2 & r2 & ->).
  rewrite (scan_int_part_app _ t _ _ _ E2).
  change (c2 :: r2 ++ t) with ((c2 :: r2) ++ t).
  rewrite (scan_frac_app _ t _ _ _ E3 H3).
  change (c3 :: r3 ++ t) with ((c3 :: r3) ++ t).
  rewrite (scan_exp_app _ t _ _ _ E4 H101 H69).
  destruct fr, ex; inversion H; subst; reflexivity.
Qed.

Lemma parse_number_not_start (c : char) (s : str) :
  is_digit c = false -> c <> 45 -> parse_number (c :: s) = None.
Proof.
  intros Hd Hm. unfold parse_number. apply N.eqb_neq in Hm. rewrite Hm.
  unfold scan_int_part. rewrite Hd.
  destruct (N.eqb_spec c 48) as [->|_]; [discriminate Hd | reflexivity].
Qed.

Lemma strip_prefix_inv (p s r : str) : strip_prefix p s = Some r -> s = p ++ r.
Proof.
  revert s; induction p as [|x p IH]; intros s; simpl.
  - congruence.
  - destruct s as [|y s]; [discriminate|].
    destruct (N.eqb_spec x y) as [->|_]; [|discriminate].
    intros H. rewrite (IH s H). reflexivity.
Qed.

(** The condition under which a value is read the same when text is
    added at the end: it does not start like a number, or it is followed
    by a character that cannot prolong a number. *)
Lemma parse_constant_app (s t : str) (v : pyval) (r : str) :
  parse_constant s = Some (v, r) ->
  number_start s = false \/ (exists c r', r = c :: r' /\ number_continues c = false) ->
  parse_constant (s ++ t) = Some (v, r ++ t).
Proof.
  destruct s as [|c s']; [discriminate|]. intros H Hcond.
  unfold parse_constant in *. cbn [List.app].
  change (c :: s' ++ t) with ((c :: s') ++ t).
  destruct (c =? 110).
  { destruct (strip_prefix text_null (c :: s')) as [r0|] eqn:E; [|discriminate].
    injection H as <- <-. rewrite (strip_prefix_app _ _ t _ E). reflexivity. }
  destruct (c =? 116).
  { destruct (strip_prefix text_true (c :: s')) as [r0|] eqn:E; [|discriminate].
    injection H as <- <-. rewrite (strip_prefix_app _ _ t _ E). reflexivity. }
  destruct (c =? 102).
  { destruct (strip_prefix text_false (c :: s')) as [r0|] eqn:E; [|discriminate].
    injection H as <- <-. rewrite (strip_prefix_app _ _ t _ E). reflexivity. }
  destruct (parse_number (c :: s')) as [[v0 r0]|] eqn:En.
  - injection H as <- <-. destruct Hcond as [Hs | (c' & r' & -> & Hc')].
    + simpl in Hs. apply orb_false_iff in Hs. destruct Hs as [Hd Hm].
      apply N.eqb_neq in Hm. rewrite (parse_number_not_start c s' Hd Hm) in En. discriminate.
    + rewrite (parse_number_app _ t _ _ _ En Hc'). reflexivity.
  - destruct (N.eqb_spec c 78) as [->|_].
    { change ((78 :: s') ++ t) with (78 :: (s' ++ t)).
      rewrite parse_number_not_start by (reflexivity || discriminate).
      change (78 :: (s' ++ t)) with ((78 :: s') ++ t).
      destruct (strip_prefix text_nan (78 :: s')) as [r0|] eqn:E; [|discriminate].
      injection H as <- <-. rewrite (strip_prefix_app _ _ t _ E). reflexivity. }
    destruct (N.eqb_spec c 73) as [->|_].
    { change ((73 :: s') ++ t) with (73 :: (s' ++ t)).
      rewrite parse_number_not_start by (reflexivity || discriminate).
      change (73 :: (s' ++ t)) with ((73 :: s') ++ t).
      destruct (strip_prefix text_infinity (73 :: s')) as [r0|] eqn:E; [|discriminate].
      injection H as <- <-. rewrite (strip_prefix_app _ _ t _ E). reflexivity. }
    destruct (N.eqb_spec c 45) as [->|_]; [|discriminate].
    destruct (strip_prefix text_minus_infinity (45 :: s')) as [r0|] eqn:E; [|discriminate].
    injection H as <- <-. rewrite (strip_prefix_app _ _ t _ E).
    apply strip_prefix_inv in E. rewrite E. reflexivity.
Qed.

Lemma parse_value_nil (fuel : nat) : parse_value fuel [] = None.
Proof. destruct fuel; reflexivity. Qed.

Lemma parse_items_nil (fuel : nat) (acc : list pyval) : parse_items fuel [] acc = None.
Proof. destruct fuel; [reflexivity|]. cbn [parse_items]. rewrite parse_value_nil. reflexivity. Qed.

Lemma parse_pairs_nil (fuel : nat) (acc : list (str * pyval)) : parse_pairs fuel [] acc = None.
Proof. destruct fuel; reflexivity. Qed.

Lemma separator_closes (rest : str) (c : char) (rest' : str) :
  skip_ws rest = c :: rest' -> number_continues c = false ->
  exists c0 r0, rest = c0 :: r0 /\ number_continues c0 = false.
Proof.
  intros H Hc. destruct (skip_ws_head _ _ _ H) as (c0 & r0 & -> & [Hw | ->]).
  - exists c0, r0. split; [reflexivity | apply ws_not_number; exact Hw].
  - exists c, r0. auto.
Qed.

(** A scan that succeeded gives the same result when text is added at
    the end of its input, and leaves that text after what it left. *)
Lemma parse_app (fuel : nat) :
  (forall s t v r,
      parse_value fuel s = Some (v, r) ->
      number_start s = false \/ (exists c r', r = c :: r' /\ number_continues c = false) ->
      parse_value fuel (s ++ t) = Some (v, r ++ t)) /\
  (forall s t acc l r,
      parse_items fuel s acc = Some (l, r) ->
      parse_items fuel (s ++ t) acc = Some (l, r ++ t)) /\
  (forall s t acc d r,
      parse_pairs fuel s acc = Some (d, r) ->
      parse_pairs fuel (s ++ t) acc = Some (d, r ++ t)).
Proof.
  induction fuel as [|fuel (IHv & IHl & IHd)].
  - repeat split; intros; discriminate.
  - split; [|split].
    + intros s t v r H Hcond. destruct s as [|c s']; [discriminate|].
      cbn [parse_value List.app] in *.
      destruct (c =? 34).
      { destruct (parse_string s') as [[x rest]|] eqn:E; [|discriminate].
        injection H as <- <-. rewrite (parse_string_app _ t _ _ E). reflexivity. }
      destruct (c =? 123).
      { destruct (skip_ws s') as [|c1 s1] eqn:E; [discriminate|].
        rewrite (skip_ws_app _ t _ _ E).
        destruct (c1 =? 125).
        - injection H as <- <-. reflexivity.
        - destruct (parse_pairs fuel (c1 :: s1) []) as [[d rest]|] eqn:Ep; [|discriminate].
          injection H as <- <-.
          change (c1 :: s1 ++ t) with ((c1 :: s1) ++ t).
          rewrite (IHd _ t _ _ _ Ep). reflexivity. }
      destruct (c =? 91).
      { destruct (skip_ws s') as [|c1 s1] eqn:E; [discriminate|].
        rewrite (skip_ws_app _ t _ _ E).
        destruct (c1 =? 93).
        - injection H as <- <-. reflexivity.
        - destruct (parse_items fuel (c1 :: s1) []) as [[l rest]|] eqn:Ep; [|discriminate].
          injection H as <- <-.
          change (c1 :: s1 ++ t) with ((c1 :: s1) ++ t).
          rewrite (IHl _ t _ _ _ Ep). reflexivity. }
      change (c :: s' ++ t) with ((c :: s') ++ t).
      apply parse_constant_app; assumption.
    + intros s t acc l r H. cbn [parse_items] in *.
      destruct (parse_value fuel s) as [[x rest]|] eqn:E; [|discriminate].
      destruct (skip_ws rest) as [|c rest'] eqn:Ew; [discriminate|].
      assert (Hc : number_continues c = false).
      { destruct (N.eqb_spec c 44) as [->|_]; [reflexivity|].
        destruct (N.eqb_spec c 93) as [->|_]; [reflexivity | discriminate]. }
      destruct (separator_closes _ _ _ Ew Hc) as (c0 & r0 & -> & Hc0).
      rewrite (IHv _ t _ _ E) by (right; eauto).
      rewrite (skip_ws_app _ t _ _ Ew).
      destruct (c =? 44).
      * destruct (skip_ws rest') as [|c' r''] eqn:Ew'.
        -- rewrite parse_items_nil in H. discriminate.
        -- rewrite (skip_ws_app _ t _ _ Ew').
           change (c' :: r'' ++ t) with ((c' :: r'') ++ t). apply IHl. exact H.
      * destruct (c =? 93); [|discriminate]. injection H as <- <-. reflexivity.
    + intros s t acc d r H. cbn [parse_pairs] in *.
      destruct s as [|q s0]; [discriminate|]. cbn [List.app].
      destruct (q =? 34); [|discriminate].
      destruct (parse_string s0) as [[k s1]|] eqn:Es; [|discriminate].
      rewrite (parse_string_app _ t _ _ Es).
      destruct (skip_ws s1) as [|c s2] eqn:Ew1; [discriminate|].
      rewrite (skip_ws_app _ t _ _ Ew1).
      destruct (c =? 58); [|discriminate].
      destruct (skip_ws s2) as [|c2 s3] eqn:Ew2.
      { rewrite parse_value_nil in H. discriminate. }
      rewrite (skip_ws_app _ t _ _ Ew2).
      destruct (parse_value fuel (c2 :: s3)) as [[x rest]|] eqn:E; [|discriminate].
      destruct (skip_ws rest) as [|c' rest'] eqn:Ew; [discriminate|].
      assert (Hc : number_continues c' = false).
      { destruct (N.eqb_spec c' 44) as [->|_]; [reflexivity|].
        destruct (N.eqb_spec c' 125) as [->|_]; [reflexivity | discriminate]. }
      destruct (separator_closes _ _ _ Ew Hc) as (c0 & r0 & -> & Hc0).
      change (c2 :: s3 ++ t) with ((c2 :: s3) ++ t).
      rewrite (IHv _ t _ _ E) by (right; eauto).
      rewrite (skip_ws_app _ t _ _ Ew).
      destruct (c' =? 44).
      * destruct (skip_ws rest') as [|c'' r''] eqn:Ew'.
        -- rewrite parse_pairs_nil in H. discriminate.
        -- rewrite (skip_ws_app _ t _ _ Ew').
           change (c'' :: r'' ++ t) with ((c'' :: r'') ++ t). apply IHd. exact H.
      * destruct (c' =? 125); [|discriminate]. injection H as <- <-. reflexivity.
Qed.

(** Why text is asked to hold no surrogate: an escaped high surrogate
    followed by an escaped low one is read as one character. *)
Example surrogates_are_joined :
  loads (dumps (PyStr [55357; 56832])) = Some (PyStr [128512]).
Proof. reflexivity. Qed.

Example loads_dumps_sample :
  loads (dumps (PyDict [(lit "a", PyList [PyInt 1; PyStr [233; 128512; 10]; PyNone]);
                        (lit "b", PyDict [])]))
  = Some (PyDict [(lit "a", PyList [PyInt 1; PyStr [233; 128512; 10]; PyNone]);
                  (lit "b", PyDict [])]).
Proof. reflexivity. Qed.

(** No strict prefix of the text of a dict is a JSON text. *)
Lemma loads_strict_prefix (d : list (str * pyval)) (n : nat) :
  plain (PyDict d) ->
  (n < List.length (dumps (PyDict d)))%nat ->
  loads (firstn n (dumps (PyDict d))) = None.
Proof.
  intros Hd Hn.
  set (x := dumps (PyDict d)) in *.
  assert (Hx : x = firstn n x ++ skipn n x) by (symmetry; apply firstn_skipn).
  assert (Ht : skipn n x <> []).
  { intros E. apply (f_equal (@List.length N)) in E. rewrite length_skipn in E.
    cbn [List.length] in E. lia. }
  assert (Hlen : (List.length (firstn n x) <= List.length x)%nat).
  { rewrite length_firstn. lia. }
  assert (Hfull : parse_value (S (List.length x)) (x ++ []) = Some (PyDict d, [])).
  { apply (proj1 (parse_dumps_fuel _)); [exact Hd | exact I |].
    pose proof (nodes_le_length (PyDict d) Hd). fold x in H. lia. }
  rewrite app_nil_r in Hfull.
  destruct (loads (firstn n x)) as [v|] eqn:E; [exfalso | reflexivity].
  unfold loads in E.
  assert (Hhead : exists r, x = 123 :: r) by (eexists; unfold x; rewrite dumps_dict; reflexivity).
  destruct Hhead as [r0 Hr0].
  destruct (firstn n x) as [|c p] eqn:Ep.
  - simpl in E. discriminate.
  - assert (Hc : c = 123).
    { rewrite Hr0 in Hx. injection Hx as Hc _. symmetry. exact Hc. }
    subst c. rewrite skip_ws_opens in E by reflexivity.
    destruct (parse_value (S (List.length (123 :: p))) (123 :: p)) as [[v' r]|] eqn:Ev;
      [|discriminate].
    apply (proj1 (parse_app _)) with (t := skipn n x) in Ev; [|left; reflexivity].
    apply (proj1 (parse_fuel_mono _)) with (fuel' := S (List.length x)) in Ev; [|lia].
    rewrite <- Hx in Ev. rewrite Hfull in Ev. injection Ev as _ Ev.
    symmetry in Ev. apply app_eq_nil in Ev. destruct Ev as [_ Ev]. contradiction.
Qed.

(* ===================================================================== *)
(** * The workbook as a dict *)
(* ===================================================================== *)

Lemma plain_strs (l : list str) : Forall wf_str l -> plain_items (map PyStr l).
Proof. induction 1; simpl; auto. Qed.

Lemma plain_rows (rs : list (list str)) :
  Forall (Forall wf_str) rs -> plain_items (map (fun r => PyList (map PyStr r)) rs).
Proof.
  induction 1 as [|r rs Hr _ IH]; simpl; [exact I|]. split; [|exact IH].
  apply (proj2 (plain_list _)). apply plain_strs. exact Hr.
Qed.

Lemma NoDup_of_distinct3 (a b c : str) :
  a <> b -> a <> c -> b <> c -> NoDup [a; b; c].
Proof.
  intros. repeat constructor; simpl; intuition congruence.
Qed.

Lemma plain_sheet (info : sheet_info) : wf_sheet info -> plain (sheet_to_py info).
Proof.
  intros [Hd Hc]. unfold sheet_to_py. apply (proj2 (plain_dict _)). split.
  - apply NoDup_of_distinct3; vm_compute; discriminate.
  - cbn [plain_pairs]. split; [reflexivity | split].
    + apply (proj2 (plain_list _)). apply plain_rows. exact Hd.
    + split; [reflexivity | split].
      * apply (proj2 (plain_list _)). apply plain_strs. exact Hc.
      * split; [reflexivity | split; exact I].
Qed.

Lemma plain_sheets (l : list (str * sheet_info)) :
  Forall (fun kv => wf_str (fst kv) /\ wf_sheet (snd kv)) l ->
  plain_pairs (map (fun kv => (fst kv, sheet_to_py (snd kv))) l).
Proof.
  induction 1 as [|[k info] l [Hk Hi] _ IH]; cbn [map plain_pairs fst snd]; [exact I|].
  split; [exact Hk | split; [apply plain_sheet; exact Hi | exact IH]].
Qed.

(** The dict of a well-formed workbook is plain. *)
Lemma plain_to_py (wb : workbook_data) : wf_workbook wb -> plain (to_py wb).
Proof.
  intros (Hnd & Hs & Hu & Hf). unfold to_py. apply (proj2 (plain_dict _)). split.
  - vm_compute. repeat constructor; simpl; intuition discriminate.
  - cbn [plain_pairs].
    split; [reflexivity | split].
    + apply (proj2 (plain_dict _)). split.
      * rewrite map_map. simpl. exact Hnd.
      * apply plain_sheets. exact Hs.
    + split; [reflexivity | split; [exact Hu|]].
      split; [reflexivity | split; [exact Hf|]].
      split; [reflexivity | split; [exact I|]].
      split; [reflexivity | split; exact I].
Qed.

Lemma all_some_strs (l : list str) : all_some (map as_str (map PyStr l)) = Some l.
Proof. induction l as [|s l IH]; simpl; [reflexivity|]. rewrite IH. reflexivity. Qed.

Lemma as_rows_to_py (rs : list (list str)) :
  as_rows (PyList (map (fun r => PyList (map PyStr r)) rs)) = Some rs.
Proof.
  simpl. induction rs as [|r rs IH]; simpl; [reflexivity|].
  rewrite all_some_strs, IH. reflexivity.
Qed.

Lemma as_sheet_to_py (info : sheet_info) : as_sheet (sheet_to_py info) = Some info.
Proof.
  destruct info as [d c n]. unfold sheet_to_py, as_sheet.
  change (dict_get _ (lit "data")) with (Some (PyList (map (fun r => PyList (map PyStr r)) d))).
  change (dict_get _ (lit "columns")) with (Some (PyList (map PyStr c))).
  change (dict_get _ (lit "rows")) with (Some (PyInt n)).
  cbv iota. rewrite as_rows_to_py. simpl. rewrite all_some_strs. reflexivity.
Qed.

Lemma as_sheets_to_py (l : list (str * sheet_info)) :
  as_sheets (PyDict (map (fun kv => (fst kv, sheet_to_py (snd kv))) l)) = Some l.
Proof.
  unfold as_sheets. induction l as [|[k info] l IH]; cbn [map all_some fst snd]; [reflexivity|].
  rewrite as_sheet_to_py, IH. reflexivity.
Qed.

(** Reading the dict of a workbook gives the workbook back: the dict
    determines every field, sheet, row and cell, in order. *)
Lemma as_workbook_to_py (wb : workbook_data) : as_workbook (to_py wb) = Some wb.
Proof.
  destruct wb as [ss u f z t]. unfold to_py, as_workbook.
  cbn [sheets upload_time filename file_size total_rows].
  change (dict_get _ (lit "sheets"))
    with (Some (PyDict (map (fun kv => (fst kv, sheet_to_py (snd kv))) ss))).
  change (dict_get _ (lit "upload_time")) with (Some (PyStr u)).
  change (dict_get _ (lit "filename")) with (Some (PyStr f)).
  change (dict_get _ (lit "file_size")) with (Some (PyInt z)).
  change (dict_get _ (lit "total_rows")) with (Some (PyInt t)).
  cbv iota. rewrite as_sheets_to_py. reflexivity.
Qed.

(* ===================================================================== *)
(** * The snapshot store *)
(* ===================================================================== *)

Lemma write_json_ok (env : io) (d : disk) (data : pyval) :
  can_store env data ->
  write_json env d data = (Ok tt, Some (Text (dumps data))).
Proof.
  intros [Hw Hr]. unfold write_json. rewrite Hw.
  destruct (room env) as [n|]; [|reflexivity].
  apply Nat.leb_le in Hr. rewrite Hr. reflexivity.
Qed.

(** A write ends in one of three ways. *)
Lemma write_json_cases (env : io) (d : disk) (data : pyval) :
  write_json env d data = (Ok tt, Some (Text (dumps data))) \/
  (may_write env = false /\ write_json env d data = (Raise OSError, d)) \/
  (may_write env = true /\
   exists n, (n < List.length (dumps data))%nat /\
             write_json env d data = (Raise OSError, Some (Text (firstn n (dumps data))))).
Proof.
  unfold write_json. destruct (may_write env); [|right; left; auto].
  destruct (room env) as [n|]; [|left; reflexivity].
  destruct (Nat.leb_spec (List.length (dumps data)) n); [left; reflexivity|].
  right; right. split; [reflexivity|]. exists n. auto.
Qed.

Lemma save_disk (env : io) (d : disk) (data : pyval) :
  exists shown,
    save_workbook_data env d data =
    (fst (write_json env d data), snd (write_json env d data), shown).
Proof.
  unfold save_workbook_data. destruct (write_json env d data) as [outcome d'].
  eexists. reflexivity.
Qed.

Lemma load_text (t : str) (v : pyval) :
  loads t = Some v -> load_workbook_data (Some (Text t)) = v.
Proof. intros H. unfold load_workbook_data, read_json. simpl. rewrite H. reflexivity. Qed.

Lemma load_corrupt (t : str) :
  loads t = None -> load_workbook_data (Some (Text t)) = PyNone.
Proof. intros H. unfold load_workbook_data, read_json. simpl. rewrite H. reflexivity. Qed.

(** Loading what a completed write of a workbook left gives the dict of
    the workbook. *)
Lemma load_saved (wb : workbook_data) :
  wf_workbook wb ->
  load_workbook_data (Some (Text (dumps (to_py wb)))) = to_py wb.
Proof.
  intros Hwf. apply load_text. apply loads_dumps. apply plain_to_py. exact Hwf.
Qed.

Lemma links_workbook_wf : wf_workbook links_workbook.
Proof.
  unfold wf_workbook, links_workbook. cbn [sheets upload_time filename map fst snd].
  split; [|split; [|split]].
  - constructor; [intros [] | constructor].
  - constructor; [|constructor]. cbn [fst snd]. split; [reflexivity|].
    unfold wf_sheet. cbn [data columns]. split.
    + repeat constructor.
    + repeat constructor.
  - reflexivity.
  - reflexivity.
Defined.

Lemma padded_workbook_wf : wf_workbook padded_workbook.
Proof.
  unfold wf_workbook, padded_workbook. cbn [sheets upload_time filename map fst snd].
  split; [|split; [|split]].
  - constructor; [intros [] | constructor].
  - constructor; [|constructor]. cbn [fst snd]. split; [reflexivity|].
    unfold wf_sheet. cbn [data columns]. split.
    + repeat constructor.
    + repeat constructor.
  - reflexivity.
  - reflexivity.
Defined.

(** C3. For every workbook (a dict of text: distinct sheet names,
    strings of Unicode scalar values), after a save that ended normally,
    loading returns the dict that was saved, and that dict reads back as
    the workbook: same fields, same sheets, rows and columns, in the same
    order. *)
Theorem save_load_round_trip
        (env : io) (d d' : disk) (wb : workbook_data) (shown : list pyval) :
  wf_workbook wb ->
  save_workbook_data env d (to_py wb) = (Ok tt, d', shown) ->
  load_workbook_data d' = to_py wb /\
  as_workbook (load_workbook_data d') = Some wb.
Proof.
  intros Hwf Hsave.
  destruct (save_disk env d (to_py wb)) as [shown' E]. rewrite E in Hsave.
  injection Hsave as Hout Hd _.
  assert (Hd' : d' = Some (Text (dumps (to_py wb)))).
  { destruct (write_json_cases env d (to_py wb)) as [H | [[_ H] | [_ (n & _ & H)]]];
      rewrite H in Hout, Hd; simpl in *; congruence. }
  rewrite Hd', (load_saved wb Hwf). split; [reflexivity | apply as_workbook_to_py].
Qed.

Lemma save_load_round_trip_witness :
  load_workbook_data links_disk = to_py links_workbook /\
  as_workbook (load_workbook_data links_disk) = Some links_workbook.
Proof.
  exact (save_load_round_trip healthy None links_disk links_workbook []
                              links_workbook_wf eq_refl).
Defined.

(** C2, as stated, fails: a save that stops part-way does not leave the
    previous workbook in place.  With [links_workbook] on disk and a
    device that takes ten more characters, saving [padded_workbook]
    raises, and the disk then holds the first ten characters of the new
    text: the old workbook is gone and loading returns [None]. *)
Lemma save_is_not_atomic :
  ~ (forall (env : io) (d : disk) (wb : workbook_data),
        wf_workbook wb ->
        let '(outcome, d', _) := save_workbook_data env d (to_py wb) in
        (outcome = Ok tt /\ load_workbook_data d' = to_py wb) \/
        (outcome <> Ok tt /\ d' = d /\ load_workbook_data d' = load_workbook_data d)).
Proof.
  intros H. specialize (H nearly_full links_disk padded_workbook padded_workbook_wf).
  vm_compute in H. destruct H as [[H _] | [_ [H _]]]; discriminate H.
Qed.

(** C2, amended. A save either (1) ends normally, and then loading
    returns the saved workbook; or (2) fails to open the file for
    writing, and then the disk is untouched; or (3) fails while writing,
    and then the previous content is lost: the file holds a strict prefix
    of the new text, which loading reads as [None], never as a workbook
    written in part. *)
Theorem save_outcomes (env : io) (d : disk) (wb : workbook_data) :
  wf_workbook wb ->
  exists outcome d' shown,
    save_workbook_data env d (to_py wb) = (outcome, d', shown) /\
    ((outcome = Ok tt /\
      d' = Some (Text (dumps (to_py wb))) /\
      load_workbook_data d' = to_py wb) \/
     (outcome = Raise OSError /\ may_write env = false /\ d' = d) \/
     (outcome = Raise OSError /\ may_write env = true /\
      (exists n, (n < List.length (dumps (to_py wb)))%nat /\
                 d' = Some (Text (firstn n (dumps (to_py wb))))) /\
      load_workbook_data d' = PyNone)).
Proof.
  intros Hwf. destruct (save_disk env d (to_py wb)) as [shown E].
  exists (fst (write_json env d (to_py wb))), (snd (write_json env d (to_py wb))), shown.
  split; [exact E|].
  destruct (write_json_cases env d (to_py wb)) as [H | [[Hw H] | [Hw (n & Hn & H)]]];
    rewrite H; cbn [fst snd].
  - left. split; [reflexivity | split; [reflexivity | apply load_saved; exact Hwf]].
  - right; left. auto.
  - right; right. split; [reflexivity | split; [exact Hw | split]].
    + exists n. auto.
    + apply load_corrupt. apply loads_strict_prefix; [|exact Hn].
      apply (plain_to_py wb Hwf).
Qed.

Lemma save_outcomes_witness :
  exists outcome d' shown,
    save_workbook_data nearly_full links_disk (to_py padded_workbook) = (outcome, d', shown) /\
    ((outcome = Ok tt /\
      d' = Some (Text (dumps (to_py padded_workbook))) /\
      load_workbook_data d' = to_py padded_workbook) \/
     (outcome = Raise OSError /\ may_write nearly_full = false /\ d' = links_disk) \/
     (outcome = Raise OSError /\ may_write nearly_full = true /\
      (exists n, (n < List.length (dumps (to_py padded_workbook)))%nat /\
                 d' = Some (Text (firstn n (dumps (to_py padded_workbook))))) /\
      load_workbook_data d' = PyNone)).
Proof.
  exact (save_outcomes nearly_full links_disk padded_workbook padded_workbook_wf).
Defined.

(** C6. Loading returns [None] when the file does not exist, and also
    when it exists but reading it raises, whatever the exception: the
    bytes do not decode, or the text is not a JSON document. *)
Theorem load_degrades_to_none :
  load_workbook_data None = PyNone /\
  (forall d e, read_json d = Raise e -> load_workbook_data d = PyNone) /\
  read_json (Some Undecodable) = Raise UnicodeDecodeError /\
  (forall t, loads t = None -> read_json (Some (Text t)) = Raise JSONDecodeError).
Proof.
  split; [reflexivity | split; [|split; [reflexivity|]]].
  - intros d e H. unfold load_workbook_data. rewrite H.
    destruct (exists_ d); reflexivity.
  - intros t H. simpl. rewrite H. reflexivity.
Qed.

Lemma load_degrades_to_none_witness :
  load_workbook_data (Some (Text (lit "[1, 2"))) = PyNone /\
  load_workbook_data (Some Undecodable) = PyNone /\
  read_json (Some (Text (lit "[1, 2"))) = Raise JSONDecodeError.
Proof.
  destruct load_degrades_to_none as (_ & Hraise & Hbytes & Htext).
  assert (H : loads (lit "[1, 2") = None) by reflexivity.
  split; [|split].
  - exact (Hraise _ _ (Htext _ H)).
  - exact (Hraise _ _ Hbytes).
  - exact (Htext _ H).
Defined.

(** C9. Whatever the disk holds before (no file, bytes that do not
    decode, a text that is not JSON, a JSON text of any shape), a save
    whose write can complete ends normally and leaves the text of the new
    workbook, which loading then returns. *)
Theorem save_ignores_previous_slot (env : io) (d : disk) (wb : workbook_data) :
  wf_workbook wb ->
  can_store env (to_py wb) ->
  exists shown,
    save_workbook_data env d (to_py wb) =
    (Ok tt, Some (Text (dumps (to_py wb))), shown) /\
    load_workbook_data (Some (Text (dumps (to_py wb)))) = to_py wb.
Proof.
  intros Hwf Hcan. destruct (save_disk env d (to_py wb)) as [shown E].
  exists shown. rewrite E, (write_json_ok env d (to_py wb) Hcan).
  split; [reflexivity | apply load_saved; exact Hwf].
Qed.

Lemma save_ignores_previous_slot_witness :
  exists shown,
    save_workbook_data healthy (Some (Text (lit "[1, 2"))) (to_py links_workbook) =
    (Ok tt, Some (Text (dumps (to_py links_workbook))), shown) /\
    load_workbook_data (Some (Text (dumps (to_py links_workbook)))) = to_py links_workbook.
Proof.
  exact (save_ignores_previous_slot healthy (Some (Text (lit "[1, 2"))) links_workbook
                                    links_workbook_wf (conj eq_refl I)).
Defined.

(** The three states of the slot: no file, bytes that do not decode,
    a text that is not JSON. *)
Example save_over_missing :
  fst (save_workbook_data healthy None (to_py links_workbook)) = (Ok tt, links_disk).
Proof. reflexivity. Qed.

Example save_over_undecodable :
  fst (save_workbook_data healthy (Some Undecodable) (to_py links_workbook))
  = (Ok tt, links_disk).
Proof. reflexivity. Qed.

Example save_over_corrupt :
  fst (save_workbook_data healthy (Some (Text (lit "[1, 2"))) (to_py links_workbook))
  = (Ok tt, links_disk).
Proof. reflexivity. Qed.

(** Replacing a workbook shows the name of the one it replaces. *)
Example save_over_previous :
  save_workbook_data healthy links_disk (to_py padded_workbook) =
  (Ok tt, Some (Text (dumps (to_py padded_workbook))), [PyStr (lit "links.xlsx")]).
Proof. vm_compute. reflexivity. Qed.

(** A refused write leaves the previous workbook in place. *)
Example save_refused :
  save_workbook_data {| may_write := false; room := None |} links_disk
                     (to_py padded_workbook) =
  (Raise OSError, links_disk, [PyStr (lit "links.xlsx")]).
Proof. vm_compute. reflexivity. Qed.

(** The store does not look at the shape of what it loads: a JSON text
    that is not a workbook is returned as it is. *)
Example load_other_shape :
  load_workbook_data (Some (Text (lit "42"))) = PyInt 42.
Proof. reflexivity. Qed.

(** After two saves, the second workbook is the one loaded. *)
Lemma save_twice (env1 env2 : io) (d d1 d2 : disk) (wb1 wb2 : workbook_data)
      (shown1 shown2 : list pyval) :
  wf_workbook wb2 ->
  save_workbook_data env1 d (to_py wb1) = (Ok tt, d1, shown1) ->
  save_workbook_data env2 d1 (to_py wb2) = (Ok tt, d2, shown2) ->
  load_workbook_data d2 = to_py wb2.
Proof.
  intros Hwf _ H2.
  destruct (save_disk env2 d1 (to_py wb2)) as [shown' E]. rewrite E in H2.
  injection H2 as Hout Hd _.
  destruct (write_json_cases env2 d1 (to_py wb2)) as [H | [[_ H] | [_ (n & _ & H)]]];
    rewrite H in Hout, Hd; cbn [fst snd] in *; try discriminate.
  rewrite <- Hd. apply load_saved. exact Hwf.
Qed.

(* ===================================================================== *)
(** * Admin authentication *)
(* ===================================================================== *)

Lemma wf_str_app (a b : str) : wf_str a -> wf_str b -> wf_str (a ++ b).
Proof. unfold wf_str. intros Ha Hb. rewrite forallb_app, Ha, Hb. reflexivity. Qed.

Lemma hex_digit_scalar (d : N) : d < 16 -> is_scalar (hex_digit d) = true.
Proof.
  intros H. unfold is_scalar, hex_digit. apply orb_true_iff. left. apply N.ltb_lt.
  destruct (d <? 10); lia.
Qed.

Lemma wf_hex4 (n : N) : wf_str (hex4 n).
Proof.
  unfold wf_str, hex4. cbn [forallb].
  rewrite !hex_digit_scalar by (apply N.mod_lt; discriminate). reflexivity.
Qed.

Lemma wf_hex8 (w : N) : wf_str (hex8 w).
Proof. unfold hex8. apply wf_str_app; apply wf_hex4. Qed.

(** A digest is text: 64 hexadecimal digits. *)
Lemma wf_sha256 (bytes : list N) : wf_str (sha256_hexdigest bytes).
Proof.
  unfold sha256_hexdigest.
  destruct (sha_blocks _ _ _) as [[[[[[[a b] c] d] e] f] g] h].
  do 7 (apply wf_str_app; [apply wf_hex8|]). apply wf_hex8.
Qed.

Lemma length_sha256 (bytes : list N) : List.length (sha256_hexdigest bytes) = 64%nat.
Proof.
  unfold sha256_hexdigest.
  destruct (sha_blocks _ _ _) as [[[[[[[a b] c] d] e] f] g] h].
  reflexivity.
Qed.

Lemma wf_hash_password (p h : str) : hash_password p = Ok h -> wf_str h.
Proof.
  unfold hash_password. destruct (encode p) as [bytes|e]; [|discriminate].
  intros H. injection H as <-. apply wf_sha256.
Qed.

Lemma hash_default : hash_password DEFAULT_PASSWORD = Ok default_hash.
Proof. vm_compute. reflexivity. Qed.

Lemma plain_auth_record (h now : str) :
  wf_str h -> wf_str now -> plain (auth_record h now).
Proof.
  intros Hh Hn. unfold auth_record. apply (proj2 (plain_dict _)). split.
  - vm_compute. repeat constructor; simpl; intuition discriminate.
  - cbn [plain_pairs]. split; [reflexivity | split; [exact Hh|]].
    split; [reflexivity | split; [exact Hn | exact I]].
Qed.

Lemma is_str_iff (s : str) (v : pyval) : is_str s v = true <-> v = PyStr s.
Proof.
  destruct v; simpl; try (split; [discriminate | congruence]).
  rewrite str_eqb_eq. split; congruence.
Qed.

(** What [authenticate_admin] answers on an auth file that holds the
    text of a record. *)
Lemma authenticate_record (h now p : str) :
  wf_str h -> wf_str now ->
  authenticate_admin (Some (Text (dumps (auth_record h now)))) p =
  verify_password p (PyStr h).
Proof.
  intros Hh Hn. unfold authenticate_admin, read_json. cbn [exists_].
  rewrite (loads_dumps _ (plain_auth_record h now Hh Hn)).
  cbn [bind]. unfold auth_record at 1.
  change (subscript _ (lit "password_hash")) with (Ok (PyStr h)).
  reflexivity.
Qed.

Lemma verify_password_true (p h : str) :
  verify_password p (PyStr h) = Ok true <-> hash_password p = Ok h.
Proof.
  unfold verify_password. destruct (hash_password p) as [hp|e]; cbn [bind is_str].
  - split; intros H.
    + assert (Hq : str_eqb h hp = true) by congruence.
      apply str_eqb_eq in Hq. congruence.
    + injection H as ->. rewrite str_eqb_refl. reflexivity.
  - split; discriminate.
Qed.

(** X1. On a first run (no auth file) whose write can complete,
    [init_admin_auth] creates the auth file, after which
    [authenticate_admin] accepts the default password and accepts no
    password whose digest is another one. *)
Theorem first_run_accepts_default (env : io) (now : str) :
  wf_str now ->
  can_store env (auth_record default_hash now) ->
  exists auth',
    init_admin_auth env now None = (Ok tt, auth') /\
    exists_ auth' = true /\
    authenticate_admin auth' DEFAULT_PASSWORD = Ok true /\
    (forall p, authenticate_admin auth' p = Ok true -> hash_password p = Ok default_hash).
Proof.
  intros Hn Hcan. exists (Some (Text (dumps (auth_record default_hash now)))).
  assert (Hh : wf_str default_hash) by (apply (wf_hash_password _ _ hash_default)).
  split; [|split; [reflexivity | split]].
  - unfold init_admin_auth. cbn [exists_ negb]. rewrite hash_default.
    apply write_json_ok. exact Hcan.
  - rewrite (authenticate_record default_hash now DEFAULT_PASSWORD Hh Hn).
    apply verify_password_true. exact hash_default.
  - intros p Hp. rewrite (authenticate_record default_hash now p Hh Hn) in Hp.
    apply verify_password_true. exact Hp.
Qed.

Lemma first_run_accepts_default_witness :
  exists auth',
    init_admin_auth healthy (lit "2024-01-01 00:00:00") None = (Ok tt, auth') /\
    exists_ auth' = true /\
    authenticate_admin auth' DEFAULT_PASSWORD = Ok true /\
    (forall p, authenticate_admin auth' p = Ok true -> hash_password p = Ok default_hash).
Proof.
  exact (first_run_accepts_default healthy (lit "2024-01-01 00:00:00")
                                   eq_refl (conj eq_refl I)).
Defined.

(** X2. [authenticate_admin] answers True exactly when the auth file
    holds a JSON object whose ['password_hash'] is the string that is the
    SHA-256 digest of the password. *)
Theorem authenticate_grants_iff (auth : disk) (p : str) :
  authenticate_admin auth p = Ok true <->
  exists t d h,
    auth = Some (Text t) /\
    loads t = Some (PyDict d) /\
    dict_get d (lit "password_hash") = Some (PyStr h) /\
    hash_password p = Ok h.
Proof.
  unfold authenticate_admin, read_json, subscript, verify_password. split.
  - destruct auth as [[|t]|]; cbn [exists_ bind]; try discriminate.
    destruct (loads t) as [v|] eqn:El; cbn [bind]; [|discriminate].
    destruct v as [| | | | | |d]; cbn [bind]; try discriminate.
    destruct (dict_get d (lit "password_hash")) as [hashed|] eqn:Ed; cbn [bind];
      [|discriminate].
    destruct (hash_password p) as [h|e] eqn:Eh; cbn [bind]; [|discriminate].
    intros H. injection H as H. apply is_str_iff in H. subst hashed.
    exists t, d, h. auto.
  - intros (t & d & h & -> & El & Ed & Eh). cbn [exists_ bind].
    rewrite El. cbn [bind]. rewrite Ed. cbn [bind]. rewrite Eh. cbn [bind].
    simpl. rewrite str_eqb_refl. reflexivity.
Qed.

(** X3. Unlike [load_workbook_data], [authenticate_admin] catches
    nothing: on an auth file that exists, the exception reading raises
    (bytes that do not decode, a text that is not JSON) is the exception
    [authenticate_admin] raises, where [load_workbook_data] on the same
    content returns None; and a JSON object without ['password_hash']
    raises KeyError.  Only a missing file is answered with False. *)
Theorem authenticate_lets_errors_through (p : str) :
  authenticate_admin None p = Ok false /\
  (forall auth e,
      exists_ auth = true -> read_json auth = Raise e ->
      authenticate_admin auth p = Raise e /\ load_workbook_data auth = PyNone) /\
  (forall t d,
      loads t = Some (PyDict d) -> dict_get d (lit "password_hash") = None ->
      authenticate_admin (Some (Text t)) p = Raise KeyError).
Proof.
  split; [reflexivity | split].
  - intros auth e Hex Hr. unfold authenticate_admin, load_workbook_data.
    rewrite Hex, Hr. split; reflexivity.
  - intros t d Hl Hd. unfold authenticate_admin, read_json. cbn [exists_].
    rewrite Hl. cbn [bind subscript]. rewrite Hd. reflexivity.
Qed.

Lemma authenticate_lets_errors_through_witness :
  authenticate_admin (Some (Text (lit "[1, 2"))) DEFAULT_PASSWORD = Raise JSONDecodeError /\
  load_workbook_data (Some (Text (lit "[1, 2"))) = PyNone /\
  authenticate_admin (Some (Text (lit "{}"))) DEFAULT_PASSWORD = Raise KeyError.
Proof.
  destruct (authenticate_lets_errors_through DEFAULT_PASSWORD) as (_ & Hraise & Hkey).
  destruct (Hraise (Some (Text (lit "[1, 2"))) JSONDecodeError eq_refl eq_refl) as [H1 H2].
  split; [exact H1 | split; [exact H2|]].
  exact (Hkey (lit "{}") [] eq_refl eq_refl).
Defined.

Lemma init_existing (env : io) (now : str) (auth : disk) :
  exists_ auth = true -> init_admin_auth env now auth = (Ok tt, auth).
Proof. intros H. unfold init_admin_auth. rewrite H. reflexivity. Qed.

(** [init_admin_auth] leaves a file where there was none only through
    its write; the data file is not its concern. *)
Lemma init_absent_cases (env : io) (now : str) :
  let r := init_admin_auth env now None in
  (fst r = Ok tt /\ exists_ (snd r) = true) \/ (exists e, fst r = Raise e).
Proof.
  unfold init_admin_auth. cbn [exists_ negb]. rewrite hash_default.
  destruct (write_json_cases env None (auth_record default_hash now))
    as [H | [[_ H] | [_ (n & _ & H)]]]; rewrite H; cbn [fst snd]; eauto.
Qed.

Lemma init_refused (env : io) (now : str) :
  may_write env = false -> init_admin_auth env now None = (Raise OSError, None).
Proof.
  intros H. unfold init_admin_auth. cbn [exists_ negb]. rewrite hash_default.
  unfold write_json. rewrite H. reflexivity.
Qed.

Lemma utf8_char_scalar (c : char) :
  is_scalar c = true <-> exists bs, utf8_char c = Some bs.
Proof.
  unfold is_scalar, utf8_char.
  destruct (N.ltb_spec c 128); [split; [eauto | intros _; apply orb_true_iff; left;
                                                  apply N.ltb_lt; lia]|].
  destruct (N.ltb_spec c 2048); [split; [eauto | intros _; apply orb_true_iff; left;
                                                   apply N.ltb_lt; lia]|].
  destruct (N.ltb_spec c 55296).
  - destruct (N.ltb_spec c 65536); [|lia].
    destruct (N.leb_spec 55296 c); [lia|]. cbn [andb orb]. split; eauto.
  - cbn [orb]. destruct (N.ltb_spec 57343 c).
    + cbn [andb]. destruct (N.ltb_spec c 65536).
      * destruct (N.leb_spec 55296 c); [|lia]. destruct (N.leb_spec c 57343); [lia|].
        cbn [andb]. destruct (N.ltb_spec c 1114112); [|lia]. split; eauto.
      * destruct (N.ltb_spec c 1114112); split; eauto;
          first [discriminate | intros [bs Hbs]; discriminate].
    + cbn [andb]. destruct (N.ltb_spec c 65536); [|lia].
      destruct (N.leb_spec 55296 c); [|lia]. destruct (N.leb_spec c 57343); [|lia].
      cbn [andb]. split; [discriminate | intros [bs Hbs]; discriminate].
Qed.

Lemma encode_text (p : str) : wf_str p <-> exists bytes, encode p = Ok bytes.
Proof.
  unfold wf_str. induction p as [|c p IH]; cbn [forallb encode].
  - split; eauto.
  - rewrite andb_true_iff, IH, utf8_char_scalar. split.
    + intros [[bs Hbs] [bytes Hbytes]]. rewrite Hbs, Hbytes. cbn [bind]. eauto.
    + intros [bytes H]. destruct (utf8_char c) as [bs|]; [|discriminate].
      destruct (encode p) as [bytes'|e]; [|discriminate]. eauto.
Qed.

Lemma encode_raises (p : str) (e : exn) : encode p = Raise e -> e = ValueError.
Proof.
  induction p as [|c p IH]; cbn [encode]; [discriminate|].
  destruct (utf8_char c) as [bs|]; [|congruence].
  destruct (encode p) as [bytes|e']; cbn [bind]; [discriminate|].
  intros H. injection H as <-. apply IH. reflexivity.
Qed.

(** X17. [hash_password] returns a digest for every password that is
    text, and the digest is text of 64 characters; the only passwords it
    refuses are those with a code point that has no UTF-8 encoding (a
    lone surrogate), on which it raises a ValueError instead of
    returning. *)
Theorem hash_password_total_on_text (p : str) :
  (wf_str p ->
   exists h, hash_password p = Ok h /\ List.length h = 64%nat /\ wf_str h) /\
  (forall e, hash_password p = Raise e -> e = ValueError /\ ~ wf_str p).
Proof.
  unfold hash_password. split.
  - intros Hp. apply encode_text in Hp. destruct Hp as [bytes Hb]. rewrite Hb.
    cbn [bind]. exists (sha256_hexdigest bytes).
    split; [reflexivity | split; [apply length_sha256 | apply wf_sha256]].
  - intros e H. destruct (encode p) as [bytes|e'] eqn:Ee; cbn [bind] in H; [discriminate|].
    injection H as <-. split; [exact (encode_raises p e' Ee)|].
    intros Hp. apply encode_text in Hp. destruct Hp as [bytes Hb]. congruence.
Qed.

Lemma hash_password_total_on_text_witness :
  (exists h, hash_password DEFAULT_PASSWORD = Ok h /\ List.length h = 64%nat /\ wf_str h) /\
  ~ wf_str [97; 55357].
Proof.
  split.
  - exact (proj1 (hash_password_total_on_text DEFAULT_PASSWORD) eq_refl).
  - exact (proj2 (proj2 (hash_password_total_on_text [97; 55357]) ValueError eq_refl)).
Defined.

(* ===================================================================== *)
(** * Ingestion: the workbook it returns *)
(* ===================================================================== *)

(** What [process_excel_file] returns for a file pandas reads. *)
Lemma process_excel_file_spec (now : str) (file : UploadedFile)
      (excel_data : list (str * DataFrame)) :
  read_excel file = Ok excel_data ->
  wf_excel_data excel_data ->
  process_excel_file now file =
  Some {| sheets := map (fun kv => (fst kv, ingested_sheet (snd kv))) excel_data;
          upload_time := now;
          filename := name file;
          file_size := size file;
          total_rows := count_rows excel_data |}.
Proof.
  intros Hread [Hkeys Hwf]. unfold process_excel_file, process_excel_body.
  rewrite Hread. cbn [bind].
  rewrite (convert_sheets_spec excel_data [] 0%Z Hkeys Hwf). reflexivity.
Qed.

Lemma wf_chars_of_uint (d : uint) : wf_str (chars_of_uint d).
Proof. unfold wf_str. induction d; simpl; auto. Qed.

Lemma wf_str_of_Z (z : Z) : wf_str (str_of_Z z).
Proof.
  destruct z; unfold str_of_Z, str_of_N; apply wf_chars_of_uint.
Qed.

Lemma wf_stringified (x : cell) : text_cell x -> wf_str (stringified x).
Proof.
  destruct x as [|s|z|[|]|t]; simpl; intros H; try exact H; try reflexivity.
  apply wf_str_of_Z.
Qed.

Lemma wf_ingested_sheet (df : DataFrame) : text_frame df -> wf_sheet (ingested_sheet df).
Proof.
  intros [Hc Hr]. split; [|exact Hc]. cbn [ingested_sheet data].
  induction Hr as [|r rs Hrow _ IH]; cbn [map]; constructor; [|exact IH].
  induction Hrow as [|x r Hx _ IHr]; cbn [map]; constructor;
    [apply wf_stringified; exact Hx | exact IHr].
Qed.

(** A workbook ingested from text is a dict of text. *)
Lemma wf_ingested (now : str) (file : UploadedFile)
      (excel_data : list (str * DataFrame)) (wb : workbook_data) :
  read_excel file = Ok excel_data ->
  wf_excel_data excel_data -> text_excel_data excel_data ->
  wf_str now -> wf_str (name file) ->
  process_excel_file now file = Some wb ->
  wf_workbook wb.
Proof.
  intros Hread Hwf Htext Hnow Hname Hp.
  rewrite (process_excel_file_spec now file excel_data Hread Hwf) in Hp.
  injection Hp as <-. unfold wf_workbook. cbn [sheets upload_time filename].
  split; [|split; [|split; assumption]].
  - rewrite map_map. cbn [fst]. apply Hwf.
  - clear Hread Hwf. induction Htext as [|[k df] l [Hk Hdf] _ IH]; cbn [map];
      constructor; [|exact IH].
    cbn [fst snd]. split; [exact Hk | apply wf_ingested_sheet; exact Hdf].
Qed.

(** In a workbook that comes from ingestion every row has one cell per
    column. *)
Lemma aligned_ingested (now : str) (file : UploadedFile)
      (excel_data : list (str * DataFrame)) (wb : workbook_data) :
  read_excel file = Ok excel_data ->
  wf_excel_data excel_data ->
  process_excel_file now file = Some wb ->
  aligned wb.
Proof.
  intros Hread Hwf Hp.
  rewrite (process_excel_file_spec now file excel_data Hread Hwf) in Hp.
  injection Hp as <-. unfold aligned. cbn [sheets].
  destruct Hwf as [_ Hwf].
  clear Hread.
  induction Hwf as [|[k df] l [_ Hrows] _ IH]; cbn [map];
    [apply Forall_nil | apply Forall_cons; [|exact IH]].
  cbn [snd ingested_sheet data columns] in Hrows |- *.
  induction Hrows as [|r rs Hr _ IHr]; cbn [map];
    [apply Forall_nil | apply Forall_cons; [|exact IHr]].
  rewrite length_map. exact Hr.
Qed.

(* ===================================================================== *)
(** * The script: what a run can and cannot do *)
(* ===================================================================== *)

(** The digest is never computed by the proofs below. *)
Opaque sha256_hexdigest hash_password init_admin_auth.

Ltac script_unfold :=
  unfold seq, show, show_all, ret, stop, lift, get_state,
         set_session, set_auth_file, set_data_file in *.

Section ScriptFacts.
Variable lower : str -> str.
Variable isspace : char -> bool.
Variable untyped_search : pyval -> str -> result (list ui).

Lemma main_eq (inp : inputs) (s : app_state) (page : list ui) :
  main lower isspace untyped_search inp s page =
  match fst (init_admin_auth (in_auth_io inp) (in_created inp) (auth_file s)) with
  | Ok _ =>
      match user_tab lower isspace untyped_search inp (load_workbook_data (data_file s))
                     (after_init inp s) (page ++ [UiTitle]) with
      | (Go _, s2, page2) => admin_tab inp s2 page2
      | (Halt h, s2, page2) => (Halt h, s2, page2)
      end
  | Raise e => (Halt (Crashed e), after_init inp s, page)
  end.
Proof.
  unfold main, after_init. script_unfold.
  destruct (init_admin_auth (in_auth_io inp) (in_created inp) (auth_file s)) as [[u|e] auth'];
    script_unfold; cbn [fst snd auth_file data_file session_state]; [|reflexivity].
  destruct (user_tab _ _ _ _ _ _ _) as [[[u'|h] s2] page2]; reflexivity.
Qed.

(** The user tab changes nothing of the state. *)
Lemma user_tab_state (inp : inputs) (v : pyval) (s : app_state) (page : list ui) :
  snd (fst (user_tab lower isspace untyped_search inp v s page)) = s.
Proof.
  unfold user_tab, search_block.
  destruct v; script_unfold; try reflexivity;
    (destruct (banner _) as [line|e]; script_unfold; [|reflexivity];
     destruct (in_search_term inp) as [|c q]; [reflexivity|];
     destruct (as_workbook _) as [wb|];
     [ destruct (search_link_in_workbook _ _ _ _); reflexivity
     | destruct (untyped_search _ _); reflexivity ]).
Qed.

Lemma user_tab_none (inp : inputs) (s : app_state) (page : list ui) :
  user_tab lower isspace untyped_search inp PyNone s page =
  (Halt Returned, s, page ++ [UiNoWorkbook]).
Proof. reflexivity. Qed.

Lemma user_tab_crash (inp : inputs) (v : pyval) (e : exn) (s : app_state) (page : list ui) :
  v <> PyNone -> banner v = Raise e ->
  user_tab lower isspace untyped_search inp v s page = (Halt (Crashed e), s, page).
Proof.
  intros Hv Hb. unfold user_tab. destruct v; try congruence; rewrite Hb; reflexivity.
Qed.

(** The login form touches neither file, and sets the flag of the
    session only when the password was accepted. *)
Lemma admin_login_form_effect (inp : inputs) (s : app_state) (page : list ui) :
  let s' := snd (fst (admin_login_form inp s page)) in
  auth_file s' = auth_file s /\
  data_file s' = data_file s /\
  (session_state s' = session_state s \/
   (in_login inp = true /\
    authenticate_admin (auth_file s) (in_password inp) = Ok true /\
    session_state s' =
    dict_set (session_state s) (lit "admin_authenticated") (PyBool true))).
Proof.
  unfold admin_login_form. script_unfold.
  destruct (in_login inp); [|cbn; auto].
  destruct (authenticate_admin (auth_file s) (in_password inp)) as [[|]|e];
    script_unfold; cbn [fst snd auth_file data_file session_state]; auto 10.
Qed.

(** The panel touches the auth file never, the session only to log
    out, and the data file only to save a workbook just ingested. *)
Lemma admin_panel_effect (inp : inputs) (s : app_state) (page : list ui) :
  let s' := snd (fst (admin_panel inp s page)) in
  auth_file s' = auth_file s /\
  (session_state s' = session_state s \/
   (in_logout inp = true /\
    session_state s' =
    dict_set (session_state s) (lit "admin_authenticated") (PyBool false))) /\
  (data_file s' = data_file s \/
   (in_logout inp = false /\
    exists file wb,
      in_file inp = Some file /\ in_replace inp = true /\
      process_excel_file (in_uploaded inp) file = Some wb /\
      data_file s' =
      snd (fst (save_workbook_data (in_data_io inp) (data_file s) (to_py wb))))).
Proof.
  unfold admin_panel, replace_workbook. script_unfold.
  destruct (in_logout inp); [cbn; auto 10|].
  cbn [fst snd auth_file data_file session_state].
  destruct (truthy (load_workbook_data (data_file s))).
  - destruct (subscript _ (lit "filename")) as [f|e]; script_unfold; [|cbn; auto].
    destruct (subscript _ (lit "upload_time")) as [u|e]; script_unfold; [|cbn; auto].
    destruct (format_comma _) as [z|e]; script_unfold; [|cbn; auto].
    destruct (in_file inp) as [file|]; [|cbn; auto].
    destruct (in_replace inp); [|cbn; auto].
    destruct (process_excel_file (in_uploaded inp) file) as [wb|] eqn:Ep; [|cbn; auto].
    destruct (save_workbook_data _ _ _) as [[outcome d'] shown] eqn:Es.
    destruct outcome as [u'|e]; script_unfold;
      cbn [fst snd auth_file data_file session_state];
      (split; [reflexivity | split; [auto|]]);
      right; (split; [reflexivity|]); exists file, wb; rewrite ?Es; auto.
  - destruct (in_file inp) as [file|]; [|cbn; auto].
    destruct (in_replace inp); [|cbn; auto].
    destruct (process_excel_file (in_uploaded inp) file) as [wb|] eqn:Ep; [|cbn; auto].
    destruct (save_workbook_data _ _ _) as [[outcome d'] shown] eqn:Es.
    destruct outcome as [u'|e]; script_unfold;
      cbn [fst snd auth_file data_file session_state];
      (split; [reflexivity | split; [auto|]]);
      right; (split; [reflexivity|]); exists file, wb; rewrite ?Es; auto.
Qed.

Lemma admin_tab_eq (inp : inputs) (s : app_state) (page : list ui) :
  admin_tab inp s page =
  if authenticated s then admin_panel inp s page else admin_login_form inp s page.
Proof.
  unfold admin_tab, authenticated. script_unfold.
  destruct (truthy (check_admin_auth (session_state s))); reflexivity.
Qed.

(** A run either stops before the admin tab, with the state the first
    lines of [main] left, or goes through the admin tab from that
    state. *)
Lemma run_cases (inp : inputs) (s : app_state) :
  run lower isspace untyped_search inp s = after_init inp s \/
  (load_workbook_data (data_file s) <> PyNone /\
   (exists line, banner (load_workbook_data (data_file s)) = Ok line) /\
   exists page,
     run lower isspace untyped_search inp s =
     snd (fst (admin_tab inp (after_init inp s) page))).
Proof.
  unfold run. rewrite main_eq.
  destruct (fst (init_admin_auth _ _ _)) as [u|e]; [|left; reflexivity].
  pose proof (user_tab_state inp (load_workbook_data (data_file s))
                             (after_init inp s) ([] ++ [UiTitle])) as Hs.
  destruct (user_tab _ _ _ _ _ _ _) as [[[u'|h] s2] page2] eqn:Eu;
    cbn [fst snd] in *; subst s2; [|left; reflexivity].
  right.
  assert (Hn : load_workbook_data (data_file s) <> PyNone).
  { intros Hn. rewrite Hn, user_tab_none in Eu. discriminate. }
  split; [exact Hn | split].
  - destruct (banner (load_workbook_data (data_file s))) as [line|e] eqn:Eb; [eauto|].
    rewrite (user_tab_crash inp _ e _ _ Hn Eb) in Eu. discriminate.
  - exists page2. reflexivity.
Qed.

Lemma after_init_data (inp : inputs) (s : app_state) :
  data_file (after_init inp s) = data_file s.
Proof. reflexivity. Qed.

Lemma after_init_session (inp : inputs) (s : app_state) :
  session_state (after_init inp s) = session_state s.
Proof. reflexivity. Qed.

Lemma after_init_authenticated (inp : inputs) (s : app_state) :
  authenticated (after_init inp s) = authenticated s.
Proof. reflexivity. Qed.

(** No run changes the auth file after the first lines of [main]. *)
Lemma run_auth_file (inp : inputs) (s : app_state) :
  auth_file (run lower isspace untyped_search inp s) = auth_file (after_init inp s).
Proof.
  destruct (run_cases inp s) as [-> | (_ & _ & page & ->)]; [reflexivity|].
  rewrite admin_tab_eq. destruct (authenticated (after_init inp s)).
  - apply (admin_panel_effect inp (after_init inp s) page).
  - apply (admin_login_form_effect inp (after_init inp s) page).
Qed.

(** X4. When loading gives None (no data file, or one that cannot be
    read), or gives a value that lacks what the line about the current
    workbook reads, every run stops in the user tab: through any
    sequence of runs, whatever the inputs, the data file and the session
    stay as they are.  In particular no first workbook can be uploaded,
    and nobody can log in. *)
Theorem no_workbook_no_admin_tab (s : app_state) (inps : list inputs) :
  load_workbook_data (data_file s) = PyNone \/
  (exists e, banner (load_workbook_data (data_file s)) = Raise e) ->
  data_file (run_all lower isspace untyped_search inps s) = data_file s /\
  session_state (run_all lower isspace untyped_search inps s) = session_state s.
Proof.
  intros H. revert s H. induction inps as [|inp inps IH]; intros s H; [auto|].
  cbn [run_all].
  assert (Hrun : run lower isspace untyped_search inp s = after_init inp s).
  { destruct (run_cases inp s) as [E | (Hn & (line & Hb) & _)]; [exact E|].
    destruct H as [H | [e H]]; congruence. }
  rewrite Hrun. destruct (IH (after_init inp s)) as [Hd Hs]; [exact H|].
  rewrite Hd, Hs. auto.
Qed.

(** X5. A run changes the data file only in an authenticated session,
    when the stored workbook has let the user tab through (loading did
    not give None and the line about the current workbook was written
    without an exception), the logout button is not pressed, a file is selected, the replace button is
    pressed and ingestion has returned a workbook; the data file is then
    what [save_workbook_data] of that workbook leaves. *)
Theorem data_file_changes_only_by_replace (inp : inputs) (s : app_state) :
  data_file (run lower isspace untyped_search inp s) <> data_file s ->
  authenticated s = true /\
  load_workbook_data (data_file s) <> PyNone /\
  (exists line, banner (load_workbook_data (data_file s)) = Ok line) /\
  in_logout inp = false /\
  exists file wb,
    in_file inp = Some file /\
    in_replace inp = true /\
    process_excel_file (in_uploaded inp) file = Some wb /\
    data_file (run lower isspace untyped_search inp s) =
    snd (fst (save_workbook_data (in_data_io inp) (data_file s) (to_py wb))).
Proof.
  intros Hchg.
  destruct (run_cases inp s) as [E | (Hn & Hb & page & E)].
  - rewrite E in Hchg. contradiction.
  - rewrite E in *. rewrite admin_tab_eq in *.
    rewrite after_init_authenticated in *.
    destruct (authenticated s).
    + destruct (admin_panel_effect inp (after_init inp s) page)
        as (_ & _ & [Hd | (Hlo & file & wb & Hf & Hr & Hp & Hd)]).
      * rewrite Hd in Hchg. contradiction.
      * repeat split; auto. exists file, wb. auto.
    + destruct (admin_login_form_effect inp (after_init inp s) page) as (_ & Hd & _).
      rewrite Hd in Hchg. contradiction.
Qed.

(** In an unauthenticated session the flag of the session turns true
    only in a run that grants access. *)
Lemma authenticated_only_by_login (inp : inputs) (s : app_state) :
  authenticated s = false ->
  authenticated (run lower isspace untyped_search inp s) = true ->
  grants lower isspace untyped_search inp s.
Proof.
  intros Hno Hyes. unfold grants. rewrite run_auth_file.
  destruct (run_cases inp s) as [E | (_ & _ & page & E)].
  - rewrite E, after_init_authenticated in Hyes. congruence.
  - rewrite E in Hyes. rewrite admin_tab_eq in Hyes.
    rewrite after_init_authenticated, Hno in Hyes.
    destruct (admin_login_form_effect inp (after_init inp s) page)
      as (_ & _ & [Hs | (Hl & Ha & _)]).
    + unfold authenticated in Hyes, Hno. rewrite Hs in Hyes.
      rewrite after_init_session in Hyes. congruence.
    + auto.
Qed.

(** X6. Starting from an unauthenticated session, if a sequence of
    runs has changed the data file, then one of these runs granted
    access: its login button was pressed with a password that
    [authenticate_admin] accepts on the auth file of that run. *)
Theorem data_file_change_requires_login (inps : list inputs) (s : app_state) :
  authenticated s = false ->
  data_file (run_all lower isspace untyped_search inps s) <> data_file s ->
  exists pre inp post,
    inps = pre ++ inp :: post /\
    grants lower isspace untyped_search inp
           (run_all lower isspace untyped_search pre s).
Proof.
  revert s. induction inps as [|inp inps IH]; intros s Hno Hchg.
  - cbn [run_all] in Hchg. contradiction.
  - cbn [run_all] in Hchg.
    assert (Hd : data_file (run lower isspace untyped_search inp s) = data_file s).
    { destruct (run_cases inp s) as [E | (_ & _ & page & E)]; [rewrite E; reflexivity|].
      rewrite E, admin_tab_eq, after_init_authenticated, Hno.
      apply (admin_login_form_effect inp (after_init inp s) page). }
    destruct (authenticated (run lower isspace untyped_search inp s)) eqn:Ha.
    + exists [], inp, inps. split; [reflexivity|].
      apply authenticated_only_by_login; assumption.
    + destruct (IH (run lower isspace untyped_search inp s) Ha) as (pre & i & post & -> & Hg).
      * rewrite Hd. exact Hchg.
      * exists (inp :: pre), i, post. split; [reflexivity | exact Hg].
Qed.

(** X7. Once the auth file exists, no sequence of runs changes it:
    nothing in the script replaces the password, and
    [authenticate_admin] keeps giving each password the same answer. *)
Theorem auth_file_never_changes (inps : list inputs) (s : app_state) (p : str) :
  exists_ (auth_file s) = true ->
  auth_file (run_all lower isspace untyped_search inps s) = auth_file s /\
  authenticate_admin (auth_file (run_all lower isspace untyped_search inps s)) p =
  authenticate_admin (auth_file s) p.
Proof.
  intros Hex.
  assert (H : auth_file (run_all lower isspace untyped_search inps s) = auth_file s).
  { revert s Hex. induction inps as [|inp inps IH]; intros s Hex; [reflexivity|].
    cbn [run_all].
    assert (Hr : auth_file (run lower isspace untyped_search inp s) = auth_file s).
    { rewrite run_auth_file. unfold after_init. cbn [auth_file].
      rewrite init_existing by exact Hex. reflexivity. }
    rewrite IH by (rewrite Hr; exact Hex). exact Hr. }
  rewrite H. auto.
Qed.

(** The page only grows. *)
Lemma admin_login_form_page (inp : inputs) (s : app_state) (page : list ui) :
  exists extra, snd (admin_login_form inp s page) = page ++ extra.
Proof.
  unfold admin_login_form. script_unfold.
  destruct (in_login inp).
  - destruct (authenticate_admin (auth_file s) (in_password inp)) as [[|]|e];
      script_unfold; cbn [fst snd]; rewrite <- ?app_assoc; eexists; reflexivity.
  - cbn [fst snd]. rewrite <- ?app_assoc. eexists. reflexivity.
Qed.

Lemma admin_panel_page (inp : inputs) (s : app_state) (page : list ui) :
  exists extra, snd (admin_panel inp s page) = page ++ extra.
Proof.
  unfold admin_panel, replace_workbook. script_unfold.
  destruct (in_logout inp); [cbn; eexists; reflexivity|].
  cbn [fst snd auth_file data_file session_state].
  destruct (truthy (load_workbook_data (data_file s))).
  - destruct (subscript _ (lit "filename")) as [f|e]; script_unfold;
      [|cbn; eexists; reflexivity].
    destruct (subscript _ (lit "upload_time")) as [u|e]; script_unfold;
      [|cbn; eexists; reflexivity].
    destruct (format_comma _) as [z|e]; script_unfold; [|cbn; eexists; reflexivity].
    destruct (in_file inp) as [file|]; [|cbn; rewrite <- ?app_assoc; eexists; reflexivity].
    destruct (in_replace inp); [|cbn; rewrite <- ?app_assoc; eexists; reflexivity].
    destruct (process_excel_file (in_uploaded inp) file) as [wb|];
      [|cbn; rewrite <- ?app_assoc; eexists; reflexivity].
    destruct (save_workbook_data _ _ _) as [[outcome d'] shown].
    destruct outcome as [u'|e]; script_unfold; cbn [fst snd];
      rewrite <- ?app_assoc; eexists; reflexivity.
  - destruct (in_file inp) as [file|]; [|cbn; rewrite <- ?app_assoc; eexists; reflexivity].
    destruct (in_replace inp); [|cbn; rewrite <- ?app_assoc; eexists; reflexivity].
    destruct (process_excel_file (in_uploaded inp) file) as [wb|];
      [|cbn; rewrite <- ?app_assoc; eexists; reflexivity].
    destruct (save_workbook_data _ _ _) as [[outcome d'] shown].
    destruct outcome as [u'|e]; script_unfold; cbn [fst snd];
      rewrite <- ?app_assoc; eexists; reflexivity.
Qed.

Lemma admin_tab_page (inp : inputs) (s : app_state) (page : list ui) :
  exists extra, snd (admin_tab inp s page) = page ++ extra.
Proof.
  rewrite admin_tab_eq. destruct (authenticated s);
    [apply admin_panel_page | apply admin_login_form_page].
Qed.

(** The user tab on a stored workbook. *)
Lemma banner_to_py (wb : workbook_data) : banner (to_py wb) = Ok (current_line wb).
Proof.
  unfold banner, to_py, current_line.
  change (subscript _ (lit "filename")) with (Ok (A := pyval) (PyStr (filename wb))).
  change (subscript _ (lit "upload_time")) with (Ok (A := pyval) (PyStr (upload_time wb))).
  change (subscript _ (lit "sheets"))
    with (Ok (A := pyval)
             (PyDict (map (fun kv => (fst kv, sheet_to_py (snd kv))) (sheets wb)))).
  change (subscript _ (lit "total_rows")) with (Ok (A := pyval) (PyInt (total_rows wb))).
  cbn [bind py_len format_comma]. rewrite length_map. reflexivity.
Qed.

Lemma user_tab_typed (inp : inputs) (wb : workbook_data) (s : app_state) (page : list ui) :
  user_tab lower isspace untyped_search inp (to_py wb) s page =
  (Go tt, s, page ++ user_part lower isspace wb (in_search_term inp)).
Proof.
  unfold user_tab, user_part. rewrite banner_to_py.
  change (to_py wb) with (PyDict (match to_py wb with PyDict d => d | _ => [] end)).
  cbv beta iota. script_unfold.
  destruct (in_search_term inp) as [|c q].
  - rewrite <- ?app_assoc. reflexivity.
  - unfold search_block, search_event.
    change (PyDict _) with (to_py wb). rewrite as_workbook_to_py.
    destruct (search_link_in_workbook lower isspace wb (c :: q)); script_unfold;
      rewrite <- ?app_assoc; reflexivity.
Qed.

(** X8. When a workbook is stored, the page of a run starts with the
    title and the line about that workbook, followed, when a search
    term was typed, by the outcome of [search_link_in_workbook] on the
    stored workbook for that term: the matches, or the list of the
    sheets when there is none.  The admin tab comes after. *)
Theorem page_shows_search_of_stored_workbook (inp : inputs) (s : app_state)
        (wb : workbook_data) :
  exists_ (auth_file s) = true ->
  load_workbook_data (data_file s) = to_py wb ->
  exists admin_part,
    page_of lower isspace untyped_search inp s =
    UiTitle :: user_part lower isspace wb (in_search_term inp) ++ admin_part.
Proof.
  intros Hauth Hload. unfold page_of. rewrite main_eq.
  rewrite (init_existing _ _ _ Hauth). cbn [fst].
  rewrite Hload, user_tab_typed.
  destruct (admin_tab_page inp (after_init inp s)
              (([] ++ [UiTitle]) ++ user_part lower isspace wb (in_search_term inp)))
    as [extra E].
  exists extra. rewrite E. reflexivity.
Qed.

(** A save over a stored workbook that completes. *)
Lemma save_over_stored (env : io) (d : disk) (old wb : workbook_data) :
  load_workbook_data d = to_py old ->
  can_store env (to_py wb) ->
  save_workbook_data env d (to_py wb) =
  (Ok tt, Some (Text (dumps (to_py wb))), [PyStr (filename old)]).
Proof.
  intros Hload Hstore. unfold save_workbook_data.
  rewrite (write_json_ok env d (to_py wb) Hstore).
  assert (Hex : exists_ d = true).
  { destruct d; [reflexivity|]. discriminate Hload. }
  rewrite Hex, Hload. reflexivity.
Qed.

(** The panel when the replace button is pressed on a file that is
    ingested and stored. *)
Lemma admin_panel_replace (inp : inputs) (s : app_state) (page : list ui)
      (old : workbook_data) (file : UploadedFile) (wb : workbook_data) :
  load_workbook_data (data_file s) = to_py old ->
  in_logout inp = false -> in_file inp = Some file -> in_replace inp = true ->
  process_excel_file (in_uploaded inp) file = Some wb ->
  can_store (in_data_io inp) (to_py wb) ->
  admin_panel inp s page =
  (Go tt,
   {| auth_file := auth_file s;
      data_file := Some (Text (dumps (to_py wb)));
      session_state := session_state s |},
   page ++ replace_part old file wb).
Proof.
  intros Hload Hlo Hf Hr Hp Hstore.
  unfold admin_panel, replace_workbook. rewrite Hlo, Hf, Hr, Hp.
  script_unfold. rewrite Hload.
  change (truthy (to_py old)) with true.
  change (subscript (to_py old) (lit "filename")) with (Ok (A := pyval) (PyStr (filename old))).
  change (subscript (to_py old) (lit "upload_time"))
    with (Ok (A := pyval) (PyStr (upload_time old))).
  change (get_file_size (to_py old)) with (PyInt (file_size old)).
  cbn [format_comma]. script_unfold. cbv beta iota.
  rewrite (save_over_stored _ _ old wb Hload Hstore).
  cbn [map List.app auth_file data_file session_state].
  unfold replace_part. rewrite <- ?app_assoc. reflexivity.
Qed.

(** X9. Replacing the workbook, end to end.  In an authenticated
    session with a stored workbook, when a file that pandas reads as
    text is selected, the replace button pressed, and the device takes
    the write, the run ends with the ingested workbook stored: loading
    gives back exactly what [process_excel_file] returned.  The page
    names the workbook that was replaced, the session stays
    authenticated, and a search in a later run is answered from the new
    workbook. *)
Theorem replace_installs_ingested_workbook (inp : inputs) (s : app_state)
        (old : workbook_data) (file : UploadedFile)
        (excel_data : list (str * DataFrame)) :
  authenticated s = true ->
  exists_ (auth_file s) = true ->
  load_workbook_data (data_file s) = to_py old ->
  in_logout inp = false -> in_file inp = Some file -> in_replace inp = true ->
  read_excel file = Ok excel_data ->
  wf_excel_data excel_data -> text_excel_data excel_data ->
  wf_str (in_uploaded inp) -> wf_str (name file) ->
  (forall wb, process_excel_file (in_uploaded inp) file = Some wb ->
              can_store (in_data_io inp) (to_py wb)) ->
  exists wb,
    process_excel_file (in_uploaded inp) file = Some wb /\
    load_workbook_data (data_file (run lower isspace untyped_search inp s)) = to_py wb /\
    authenticated (run lower isspace untyped_search inp s) = true /\
    page_of lower isspace untyped_search inp s =
    UiTitle :: user_part lower isspace old (in_search_term inp) ++ replace_part old file wb /\
    forall inp', exists admin_part,
      page_of lower isspace untyped_search inp' (run lower isspace untyped_search inp s) =
      UiTitle :: user_part lower isspace wb (in_search_term inp') ++ admin_part.
Proof.
  intros Hadm Hauth Hload Hlo Hf Hr Hread Hwf Htext Hnow Hname Hstore.
  pose proof (process_excel_file_spec (in_uploaded inp) file excel_data Hread Hwf) as Hp.
  remember {| sheets := map (fun kv => (fst kv, ingested_sheet (snd kv))) excel_data;
              upload_time := in_uploaded inp;
              filename := name file;
              file_size := size file;
              total_rows := count_rows excel_data |} as wb eqn:Ewb.
  assert (Hwb : wf_workbook wb)
    by exact (wf_ingested _ _ _ _ Hread Hwf Htext Hnow Hname Hp).
  assert (Hmain : main lower isspace untyped_search inp s [] =
                  (Go tt,
                   {| auth_file := auth_file s;
                      data_file := Some (Text (dumps (to_py wb)));
                      session_state := session_state s |},
                   UiTitle :: user_part lower isspace old (in_search_term inp)
                     ++ replace_part old file wb)).
  { rewrite main_eq, (init_existing _ _ _ Hauth). cbn [fst].
    rewrite Hload, user_tab_typed, admin_tab_eq, after_init_authenticated, Hadm.
    rewrite (admin_panel_replace inp (after_init inp s) _ old file wb
                                 Hload Hlo Hf Hr Hp (Hstore wb Hp)).
    unfold after_init. rewrite (init_existing _ _ _ Hauth). reflexivity. }
  exists wb. unfold run, page_of at 1. rewrite Hmain. cbn [fst snd data_file].
  split; [exact Hp | split; [apply load_saved; exact Hwb | split; [exact Hadm | split]]];
    [reflexivity|].
  intros inp'. unfold page_of. rewrite main_eq. cbn [auth_file data_file].
  rewrite (init_existing _ _ _ Hauth). cbn [fst].
  rewrite (load_saved wb Hwb), user_tab_typed.
  destruct (admin_tab_page inp'
              (after_init inp'
                 {| auth_file := auth_file s;
                    data_file := Some (Text (dumps (to_py wb)));
                    session_state := session_state s |})
              (([] ++ [UiTitle]) ++ user_part lower isspace wb (in_search_term inp')))
    as [extra E].
  exists extra. rewrite E. reflexivity.
Qed.

(** ** Runs that reach the admin tab *)

Lemma after_init_existing (inp : inputs) (s : app_state) :
  exists_ (auth_file s) = true -> after_init inp s = s.
Proof.
  intros H. destruct s as [a d ss]. unfold after_init.
  cbn [auth_file data_file session_state] in *.
  rewrite (init_existing _ _ _ H). reflexivity.
Qed.

(** With an auth file and a stored workbook, a run is the user tab's
    part of the page followed by the admin tab. *)
Lemma main_typed (inp : inputs) (s : app_state) (wb : workbook_data) :
  exists_ (auth_file s) = true ->
  load_workbook_data (data_file s) = to_py wb ->
  main lower isspace untyped_search inp s [] =
  admin_tab inp s (UiTitle :: user_part lower isspace wb (in_search_term inp)).
Proof.
  intros Hauth Hload. rewrite main_eq, (init_existing _ _ _ Hauth). cbn [fst].
  rewrite Hload, user_tab_typed, (after_init_existing inp s Hauth). reflexivity.
Qed.

Lemma dict_get_set {V : Type} (d : list (str * V)) (key : str) (value : V) :
  dict_get (dict_set d key value) key = Some value.
Proof.
  induction d as [|[k v] d IH]; cbn [dict_set dict_get].
  - rewrite str_eqb_refl. reflexivity.
  - destruct (str_eqb k key) eqn:E; cbn [dict_get]; rewrite E; [reflexivity | exact IH].
Qed.

(** The panel when the replace button is pressed on a file that is
    ingested, whatever the write then does. *)
Lemma admin_panel_save (inp : inputs) (s : app_state) (page : list ui)
      (old : workbook_data) (file : UploadedFile) (wb : workbook_data) :
  load_workbook_data (data_file s) = to_py old ->
  in_logout inp = false -> in_file inp = Some file -> in_replace inp = true ->
  process_excel_file (in_uploaded inp) file = Some wb ->
  admin_panel inp s page =
  (match fst (write_json (in_data_io inp) (data_file s) (to_py wb)) with
   | Ok _ => Go tt
   | Raise e => Halt (Crashed e)
   end,
   {| auth_file := auth_file s;
      data_file := snd (write_json (in_data_io inp) (data_file s) (to_py wb));
      session_state := session_state s |},
   match fst (write_json (in_data_io inp) (data_file s) (to_py wb)) with
   | Ok _ => page ++ replace_part old file wb
   | Raise e => page ++ replace_intro old file
   end).
Proof.
  intros Hload Hlo Hf Hr Hp.
  unfold admin_panel, replace_workbook. rewrite Hlo, Hf, Hr, Hp.
  script_unfold. rewrite Hload.
  change (truthy (to_py old)) with true.
  change (subscript (to_py old) (lit "filename")) with (Ok (A := pyval) (PyStr (filename old))).
  change (subscript (to_py old) (lit "upload_time"))
    with (Ok (A := pyval) (PyStr (upload_time old))).
  change (get_file_size (to_py old)) with (PyInt (file_size old)).
  cbn [format_comma]. script_unfold. cbv beta iota.
  unfold save_workbook_data.
  assert (Hex : exists_ (data_file s) = true).
  { destruct (data_file s); [reflexivity|]. discriminate Hload. }
  rewrite Hex, Hload.
  change (announce_old (to_py old)) with (Ok (Some (PyStr (filename old)))).
  cbv iota.
  destruct (write_json (in_data_io inp) (data_file s) (to_py wb)) as [[u|e] d'];
    cbn [fst snd map List.app auth_file data_file session_state];
    unfold replace_part, replace_intro; rewrite <- ?app_assoc; reflexivity.
Qed.

(** X13. With a stored workbook and an unauthenticated session, when
    the login button is pressed the session is authenticated after the
    run exactly when [authenticate_admin] accepted the password; the
    data file is untouched either way, and the page tells the answer.
    An accepted password ends the run with a rerun. *)
Theorem login_sets_session_to_the_answer (inp : inputs) (s : app_state)
        (wb : workbook_data) (granted : bool) :
  exists_ (auth_file s) = true ->
  load_workbook_data (data_file s) = to_py wb ->
  authenticated s = false ->
  in_login inp = true ->
  authenticate_admin (auth_file s) (in_password inp) = Ok granted ->
  authenticated (run lower isspace untyped_search inp s) = granted /\
  data_file (run lower isspace untyped_search inp s) = data_file s /\
  ending lower isspace untyped_search inp s
  = (if granted then Halt Rerun else Go tt) /\
  In (if granted then UiLoginOk else UiLoginDenied)
     (page_of lower isspace untyped_search inp s).
Proof.
  intros Hauth Hload Hno Hlogin Hans.
  unfold run, ending, page_of. rewrite (main_typed inp s wb Hauth Hload).
  rewrite admin_tab_eq, Hno. unfold admin_login_form. script_unfold.
  rewrite Hlogin, Hans. destruct granted; script_unfold;
    cbn [fst snd data_file session_state].
  - unfold authenticated, check_admin_auth. cbn [session_state].
    rewrite dict_get_set. repeat split; auto.
    rewrite !in_app_iff. cbn [In]. auto.
  - repeat split; auto. rewrite !in_app_iff. cbn [In]. auto.
Qed.

(** X14. In an authenticated session with a stored workbook, the
    logout button ends the session before anything else of the panel
    runs: a file selected with the replace button pressed in the same
    run is not ingested, and both files stay as they are. *)
Theorem logout_ends_session_before_upload (inp : inputs) (s : app_state)
        (wb : workbook_data) :
  exists_ (auth_file s) = true ->
  load_workbook_data (data_file s) = to_py wb ->
  authenticated s = true ->
  in_logout inp = true ->
  authenticated (run lower isspace untyped_search inp s) = false /\
  data_file (run lower isspace untyped_search inp s) = data_file s /\
  auth_file (run lower isspace untyped_search inp s) = auth_file s /\
  ending lower isspace untyped_search inp s = Halt Rerun /\
  page_of lower isspace untyped_search inp s =
  UiTitle :: user_part lower isspace wb (in_search_term inp) ++ [UiPanel].
Proof.
  intros Hauth Hload Hyes Hlogout.
  unfold run, ending, page_of. rewrite (main_typed inp s wb Hauth Hload).
  rewrite admin_tab_eq, Hyes. unfold admin_panel. script_unfold.
  rewrite Hlogout. cbn [fst snd auth_file data_file session_state].
  unfold authenticated, check_admin_auth. cbn [session_state].
  rewrite dict_get_set. repeat split; reflexivity.
Qed.

(** X15. A replacement whose write is refused at opening: the page has
    already announced that the old workbook is being removed, the run
    then stops on the OSError, and the old workbook is still the one
    stored. *)
Theorem refused_write_keeps_old_workbook (inp : inputs) (s : app_state)
        (old : workbook_data) (file : UploadedFile) (wb : workbook_data) :
  exists_ (auth_file s) = true ->
  load_workbook_data (data_file s) = to_py old ->
  authenticated s = true ->
  in_logout inp = false -> in_file inp = Some file -> in_replace inp = true ->
  process_excel_file (in_uploaded inp) file = Some wb ->
  may_write (in_data_io inp) = false ->
  ending lower isspace untyped_search inp s = Halt (Crashed OSError) /\
  run lower isspace untyped_search inp s = s /\
  page_of lower isspace untyped_search inp s =
  UiTitle :: user_part lower isspace old (in_search_term inp) ++ replace_intro old file.
Proof.
  intros Hauth Hload Hyes Hlo Hf Hr Hp Hw.
  unfold run, ending, page_of. rewrite (main_typed inp s old Hauth Hload).
  rewrite admin_tab_eq, Hyes.
  rewrite (admin_panel_save inp s _ old file wb Hload Hlo Hf Hr Hp).
  unfold write_json. rewrite Hw. cbn [fst snd].
  destruct s as [a d ss]. repeat split; reflexivity.
Qed.

(** A run stops in the user tab when loading gives None. *)
Lemma run_without_workbook (inp : inputs) (s : app_state) :
  load_workbook_data (data_file s) = PyNone ->
  run lower isspace untyped_search inp s = after_init inp s.
Proof.
  intros H. destruct (run_cases inp s) as [E | (Hn & _)]; [exact E | contradiction].
Qed.

(** X16. A replacement whose write stops part-way (the device takes
    only the first [n] characters) loses the workbook for good: the run
    stops on the OSError with a prefix of the new text in the data file,
    loading gives None from then on, and no later run, whatever its
    inputs, changes the data file again. *)
Theorem truncated_write_locks_the_workbook_out (inp : inputs) (s : app_state)
        (old : workbook_data) (file : UploadedFile) (wb : workbook_data) (n : nat)
        (inps : list inputs) :
  exists_ (auth_file s) = true ->
  load_workbook_data (data_file s) = to_py old ->
  authenticated s = true ->
  in_logout inp = false -> in_file inp = Some file -> in_replace inp = true ->
  process_excel_file (in_uploaded inp) file = Some wb ->
  wf_workbook wb ->
  may_write (in_data_io inp) = true ->
  room (in_data_io inp) = Some n ->
  (n < List.length (dumps (to_py wb)))%nat ->
  ending lower isspace untyped_search inp s = Halt (Crashed OSError) /\
  data_file (run lower isspace untyped_search inp s)
  = Some (Text (firstn n (dumps (to_py wb)))) /\
  data_file (run_all lower isspace untyped_search inps
                     (run lower isspace untyped_search inp s))
  = Some (Text (firstn n (dumps (to_py wb)))) /\
  load_workbook_data
    (data_file (run_all lower isspace untyped_search inps
                        (run lower isspace untyped_search inp s)))
  = PyNone.
Proof.
  intros Hauth Hload Hyes Hlo Hf Hr Hp Hwf Hw Hroom Hn.
  assert (Hnone : load_workbook_data (Some (Text (firstn n (dumps (to_py wb))))) = PyNone).
  { apply load_corrupt. apply loads_strict_prefix; [|exact Hn].
    apply (plain_to_py wb Hwf). }
  assert (Hmain : main lower isspace untyped_search inp s [] =
                  (Halt (Crashed OSError),
                   {| auth_file := auth_file s;
                      data_file := Some (Text (firstn n (dumps (to_py wb))));
                      session_state := session_state s |},
                   UiTitle :: user_part lower isspace old (in_search_term inp)
                     ++ replace_intro old file)).
  { rewrite (main_typed inp s old Hauth Hload), admin_tab_eq, Hyes.
    rewrite (admin_panel_save inp s _ old file wb Hload Hlo Hf Hr Hp).
    unfold write_json. rewrite Hw, Hroom.
    apply Nat.leb_gt in Hn. rewrite Hn. reflexivity. }
  unfold ending, run. rewrite Hmain. cbn [fst snd data_file].
  split; [reflexivity | split; [reflexivity|]].
  set (s1 := {| auth_file := auth_file s;
                data_file := Some (Text (firstn n (dumps (to_py wb))));
                session_state := session_state s |}).
  assert (Hdata : data_file s1 = Some (Text (firstn n (dumps (to_py wb)))))
    by reflexivity.
  clearbody s1. clear Hmain.
  assert (Hall : data_file (run_all lower isspace untyped_search inps s1)
                 = Some (Text (firstn n (dumps (to_py wb))))).
  { revert s1 Hdata. induction inps as [|i inps IH]; intros s1 Hdata; [exact Hdata|].
    cbn [run_all]. apply IH.
    rewrite run_without_workbook by (rewrite Hdata; exact Hnone).
    rewrite after_init_data. exact Hdata. }
  rewrite Hall. split; [reflexivity | exact Hnone].
Qed.

(** X18. On an installation without auth file where the file cannot
    be created, no run gets past the first line of [main]: each one
    stops on the OSError of [init_admin_auth] with an empty page, and the
    state stays as it was, run after run. *)
Theorem unwritable_auth_file_stops_every_run (inps : list inputs) (s : app_state) :
  auth_file s = None ->
  Forall (fun inp => may_write (in_auth_io inp) = false) inps ->
  run_all lower isspace untyped_search inps s = s /\
  Forall (fun inp =>
            ending lower isspace untyped_search inp s = Halt (Crashed OSError) /\
            page_of lower isspace untyped_search inp s = [])
         inps.
Proof.
  intros Hnone Hall.
  assert (Hone : forall inp, may_write (in_auth_io inp) = false ->
                             main lower isspace untyped_search inp s [] =
                             (Halt (Crashed OSError), s, [])).
  { intros inp Hw. rewrite main_eq. unfold after_init. rewrite Hnone.
    rewrite (init_refused _ _ Hw). cbn [fst snd].
    destruct s as [a d ss]. cbn [auth_file data_file session_state] in *.
    rewrite Hnone. reflexivity. }
  induction Hall as [|inp inps Hw _ IH]; [split; [reflexivity | constructor]|].
  destruct IH as [IH1 IH2]. cbn [run_all]. unfold run.
  rewrite (Hone inp Hw). cbn [fst snd]. split; [exact IH1|].
  constructor; [|exact IH2].
  unfold ending, page_of. rewrite (Hone inp Hw). split; reflexivity.
Qed.
End ScriptFacts.

(* ===================================================================== *)
(** * The script on concrete runs *)
(* ===================================================================== *)

Lemma sample_upload_text :
  text_excel_data [ (lit "Links",
                     {| df_columns := [lit "ID"; lit "URL"];
                        df_rows := [ [CInt 1; CStr (lit "https://a.com")];
                                     [CNull; COther (lit "2.5")] ] |}) ].
Proof.
  constructor; [|constructor]. split; [reflexivity|]. split; cbn [df_columns df_rows].
  - repeat constructor.
  - repeat constructor.
Defined.

Lemma healthy_can_store (data : pyval) : can_store healthy data.
Proof. split; [reflexivity | exact I]. Defined.

Lemma no_workbook_no_admin_tab_witness :
  data_file (run_all_ascii [login_with DEFAULT_PASSWORD; replace_with sample_upload] fresh)
  = data_file fresh /\
  session_state (run_all_ascii [login_with DEFAULT_PASSWORD; replace_with sample_upload] fresh)
  = session_state fresh.
Proof.
  exact (no_workbook_no_admin_tab ascii_lower ascii_isspace refuse_untyped fresh
           [login_with DEFAULT_PASSWORD; replace_with sample_upload]
           (or_introl eq_refl)).
Defined.

Lemma data_file_changes_only_by_replace_witness :
  authenticated serving_admin = true /\
  load_workbook_data (data_file serving_admin) <> PyNone /\
  (exists line, banner (load_workbook_data (data_file serving_admin)) = Ok line) /\
  in_logout (replace_with sample_upload) = false /\
  exists file wb,
    in_file (replace_with sample_upload) = Some file /\
    in_replace (replace_with sample_upload) = true /\
    process_excel_file (in_uploaded (replace_with sample_upload)) file = Some wb /\
    data_file (run_ascii (replace_with sample_upload) serving_admin) =
    snd (fst (save_workbook_data (in_data_io (replace_with sample_upload))
                                 (data_file serving_admin) (to_py wb))).
Proof.
  apply (data_file_changes_only_by_replace ascii_lower ascii_isspace refuse_untyped
           (replace_with sample_upload) serving_admin).
  intros H.
  apply (f_equal (fun d => match d with
                           | Some (Text t) => List.length t
                           | _ => 0%nat
                           end)) in H.
  vm_compute in H. discriminate H.
Defined.

Lemma data_file_change_requires_login_witness :
  exists pre inp post,
    [login_with DEFAULT_PASSWORD; replace_with sample_upload] = pre ++ inp :: post /\
    grants ascii_lower ascii_isspace refuse_untyped inp (run_all_ascii pre serving).
Proof.
  apply (data_file_change_requires_login ascii_lower ascii_isspace refuse_untyped
           [login_with DEFAULT_PASSWORD; replace_with sample_upload] serving).
  - reflexivity.
  - intros H.
    apply (f_equal (fun d => match d with
                             | Some (Text t) => List.length t
                             | _ => 0%nat
                             end)) in H.
    vm_compute in H. discriminate H.
Defined.

Lemma auth_file_never_changes_witness :
  auth_file (run_all_ascii [login_with (lit "guess"); login_with DEFAULT_PASSWORD;
                            replace_with sample_upload] serving)
  = auth_file serving /\
  authenticate_admin
    (auth_file (run_all_ascii [login_with (lit "guess"); login_with DEFAULT_PASSWORD;
                               replace_with sample_upload] serving))
    (lit "guess")
  = authenticate_admin (auth_file serving) (lit "guess").
Proof.
  exact (auth_file_never_changes ascii_lower ascii_isspace refuse_untyped
           [login_with (lit "guess"); login_with DEFAULT_PASSWORD;
            replace_with sample_upload]
           serving (lit "guess") eq_refl).
Defined.

Lemma page_shows_search_of_stored_workbook_witness :
  exists admin_part,
    page_of ascii_lower ascii_isspace refuse_untyped (search_for (lit "A.COM")) serving =
    UiTitle :: user_part ascii_lower ascii_isspace links_workbook (lit "A.COM") ++ admin_part.
Proof.
  apply (page_shows_search_of_stored_workbook ascii_lower ascii_isspace refuse_untyped
           (search_for (lit "A.COM")) serving links_workbook).
  - reflexivity.
  - apply load_saved. exact links_workbook_wf.
Defined.

Lemma replace_installs_ingested_workbook_witness :
  exists wb,
    process_excel_file (lit "2024-01-02 00:00:00") sample_upload = Some wb /\
    load_workbook_data (data_file (run_ascii (replace_with sample_upload) serving_admin))
    = to_py wb /\
    authenticated (run_ascii (replace_with sample_upload) serving_admin) = true /\
    page_of ascii_lower ascii_isspace refuse_untyped (replace_with sample_upload) serving_admin =
    UiTitle :: user_part ascii_lower ascii_isspace links_workbook []
            ++ replace_part links_workbook sample_upload wb /\
    forall inp', exists admin_part,
      page_of ascii_lower ascii_isspace refuse_untyped inp'
              (run_ascii (replace_with sample_upload) serving_admin) =
      UiTitle :: user_part ascii_lower ascii_isspace wb (in_search_term inp') ++ admin_part.
Proof.
  apply (replace_installs_ingested_workbook ascii_lower ascii_isspace refuse_untyped
           (replace_with sample_upload) serving_admin links_workbook sample_upload
           _ eq_refl eq_refl
           (load_saved links_workbook links_workbook_wf)
           eq_refl eq_refl eq_refl eq_refl
           sample_upload_wf sample_upload_text eq_refl eq_refl).
  intros wb _. apply healthy_can_store.
Defined.

Lemma sample_workbook_ingested :
  process_excel_file (lit "2024-01-02 00:00:00") sample_upload = Some sample_workbook.
Proof. reflexivity. Defined.

Lemma sample_workbook_wf : wf_workbook sample_workbook.
Proof.
  exact (wf_ingested (lit "2024-01-02 00:00:00") sample_upload _ sample_workbook
           eq_refl sample_upload_wf sample_upload_text eq_refl eq_refl
           sample_workbook_ingested).
Defined.

Lemma login_sets_session_to_the_answer_witness :
  authenticated (run_ascii (login_with DEFAULT_PASSWORD) serving) = true /\
  data_file (run_ascii (login_with DEFAULT_PASSWORD) serving) = data_file serving /\
  ending ascii_lower ascii_isspace refuse_untyped (login_with DEFAULT_PASSWORD) serving
  = Halt Rerun /\
  In UiLoginOk
     (page_of ascii_lower ascii_isspace refuse_untyped (login_with DEFAULT_PASSWORD) serving).
Proof.
  apply (login_sets_session_to_the_answer ascii_lower ascii_isspace refuse_untyped
           (login_with DEFAULT_PASSWORD) serving links_workbook true
           eq_refl (load_saved links_workbook links_workbook_wf) eq_refl eq_refl).
  vm_compute. reflexivity.
Defined.

Lemma logout_ends_session_before_upload_witness :
  authenticated (run_ascii (logout_with sample_upload) serving_admin) = false /\
  data_file (run_ascii (logout_with sample_upload) serving_admin) = data_file serving_admin /\
  auth_file (run_ascii (logout_with sample_upload) serving_admin) = auth_file serving_admin /\
  ending ascii_lower ascii_isspace refuse_untyped (logout_with sample_upload) serving_admin
  = Halt Rerun /\
  page_of ascii_lower ascii_isspace refuse_untyped (logout_with sample_upload) serving_admin =
  UiTitle :: user_part ascii_lower ascii_isspace links_workbook [] ++ [UiPanel].
Proof.
  exact (logout_ends_session_before_upload ascii_lower ascii_isspace refuse_untyped
           (logout_with sample_upload) serving_admin links_workbook
           eq_refl (load_saved links_workbook links_workbook_wf) eq_refl eq_refl).
Defined.

Lemma refused_write_keeps_old_workbook_witness :
  ending ascii_lower ascii_isspace refuse_untyped
         (replace_on read_only sample_upload) serving_admin
  = Halt (Crashed OSError) /\
  run_ascii (replace_on read_only sample_upload) serving_admin = serving_admin /\
  page_of ascii_lower ascii_isspace refuse_untyped
          (replace_on read_only sample_upload) serving_admin =
  UiTitle :: user_part ascii_lower ascii_isspace links_workbook []
          ++ replace_intro links_workbook sample_upload.
Proof.
  exact (refused_write_keeps_old_workbook ascii_lower ascii_isspace refuse_untyped
           (replace_on read_only sample_upload) serving_admin links_workbook
           sample_upload sample_workbook
           eq_refl (load_saved links_workbook links_workbook_wf) eq_refl
           eq_refl eq_refl eq_refl sample_workbook_ingested eq_refl).
Defined.

Lemma truncated_write_locks_the_workbook_out_witness :
  ending ascii_lower ascii_isspace refuse_untyped
         (replace_on (short_of_room 10) sample_upload) serving_admin
  = Halt (Crashed OSError) /\
  data_file (run_ascii (replace_on (short_of_room 10) sample_upload) serving_admin)
  = Some (Text (firstn 10 (dumps (to_py sample_workbook)))) /\
  data_file (run_all_ascii [login_with DEFAULT_PASSWORD; replace_with sample_upload]
               (run_ascii (replace_on (short_of_room 10) sample_upload) serving_admin))
  = Some (Text (firstn 10 (dumps (to_py sample_workbook)))) /\
  load_workbook_data
    (data_file (run_all_ascii [login_with DEFAULT_PASSWORD; replace_with sample_upload]
                  (run_ascii (replace_on (short_of_room 10) sample_upload) serving_admin)))
  = PyNone.
Proof.
  apply (truncated_write_locks_the_workbook_out ascii_lower ascii_isspace refuse_untyped
           (replace_on (short_of_room 10) sample_upload) serving_admin links_workbook
           sample_upload sample_workbook 10
           [login_with DEFAULT_PASSWORD; replace_with sample_upload]
           eq_refl (load_saved links_workbook links_workbook_wf) eq_refl
           eq_refl eq_refl eq_refl sample_workbook_ingested sample_workbook_wf
           eq_refl eq_refl).
  vm_compute. lia.
Defined.

Lemma unwritable_auth_file_stops_every_run_witness :
  run_all_ascii [ {| in_search_term := lit "a.com";
                     in_password := DEFAULT_PASSWORD;
                     in_login := true;
                     in_logout := false;
                     in_file := None;
                     in_replace := false;
                     in_created := lit "2024-01-01 00:00:00";
                     in_uploaded := lit "2024-01-02 00:00:00";
                     in_auth_io := read_only;
                     in_data_io := healthy |} ] fresh = fresh /\
  Forall (fun inp =>
            ending ascii_lower ascii_isspace refuse_untyped inp fresh
            = Halt (Crashed OSError) /\
            page_of ascii_lower ascii_isspace refuse_untyped inp fresh = [])
         [ {| in_search_term := lit "a.com";
              in_password := DEFAULT_PASSWORD;
              in_login := true;
              in_logout := false;
              in_file := None;
              in_replace := false;
              in_created := lit "2024-01-01 00:00:00";
              in_uploaded := lit "2024-01-02 00:00:00";
              in_auth_io := read_only;
              in_data_io := healthy |} ].
Proof.
  apply (unwritable_auth_file_stops_every_run ascii_lower ascii_isspace refuse_untyped
           _ fresh eq_refl).
  constructor; [reflexivity | constructor].
Defined.

Lemma authenticate_grants_iff_witness :
  exists t d h,
    installed_auth = Some (Text t) /\
    loads t = Some (PyDict d) /\
    dict_get d (lit "password_hash") = Some (PyStr h) /\
    hash_password DEFAULT_PASSWORD = Ok h.
Proof.
  apply (proj1 (authenticate_grants_iff installed_auth DEFAULT_PASSWORD)).
  vm_compute. reflexivity.
Defined.

(* ===================================================================== *)
(** * The search: order of the results, ingested workbooks, narrowing *)
(* ===================================================================== *)

Lemma sorted_app {A : Type} (R : A -> A -> Prop) (l1 l2 : list A) :
  StronglySorted R l1 -> StronglySorted R l2 ->
  (forall a b, In a l1 -> In b l2 -> R a b) ->
  StronglySorted R (l1 ++ l2).
Proof.
  intros H1 H2 H. induction H1 as [|a l1 Hs IH Hall]; cbn [List.app]; [exact H2|].
  constructor.
  - apply IH. intros x y Hx Hy. apply H; [right; exact Hx | exact Hy].
  - apply Forall_app. split; [exact Hall|].
    apply Forall_forall. intros y Hy. apply H; [left; reflexivity | exact Hy].
Qed.

Lemma sorted_map_filter {A B : Type} (R : B -> B -> Prop) (f : A -> B) (g : A -> bool)
      (l : list A) :
  StronglySorted R (map f l) -> StronglySorted R (map f (filter g l)).
Proof.
  induction l as [|a l IH]; cbn [map filter]; [auto|].
  intros H. inversion H as [|? ? Hs Hall]; subst.
  destruct (g a); cbn [map]; [|auto].
  constructor; [auto|].
  rewrite Forall_forall in *. intros b Hb. apply Hall.
  rewrite in_map_iff in *. destruct Hb as [x [E Hx]]. exists x. split; [exact E|].
  apply filter_In in Hx. tauto.
Qed.

Lemma sorted_cells_row si name info ri k r :
  StronglySorted pos_lt (map fst (cells_row si name info ri k r)).
Proof.
  revert k; induction r as [|v r IH]; intros k; cbn [cells_row map fst]; constructor.
  - apply IH.
  - apply Forall_forall. intros p Hp. apply in_map_fst in Hp. destruct Hp as [x Hp].
    apply In_cells_row in Hp. destruct Hp as (ci & v' & -> & _ & Hk & _).
    unfold pos_lt. right. split; [reflexivity|]. right. split; [reflexivity | lia].
Qed.

Lemma sorted_cells_sheet si name info k rs :
  StronglySorted pos_lt (map fst (cells_sheet si name info k rs)).
Proof.
  revert k; induction rs as [|r rs IH]; intros k; cbn [cells_sheet map]; [constructor|].
  rewrite map_app. apply sorted_app; [apply sorted_cells_row | apply IH |].
  intros p1 p2 H1 H2. apply in_map_fst in H1, H2.
  destruct H1 as [x1 H1], H2 as [x2 H2].
  apply In_cells_row in H1. apply In_cells_sheet in H2.
  destruct H1 as (ci & v & -> & _).
  destruct H2 as (ri' & ci' & r' & v' & -> & _ & Hk & _).
  unfold pos_lt. right. split; [reflexivity|]. left. lia.
Qed.

Lemma sorted_cells_sheets k items :
  StronglySorted pos_lt (map fst (cells_sheets k items)).
Proof.
  revert k; induction items as [|[name info] items IH]; intros k;
    cbn [cells_sheets map]; [constructor|].
  rewrite map_app. apply sorted_app; [apply sorted_cells_sheet | apply IH |].
  intros p1 p2 H1 H2. apply in_map_fst in H1, H2.
  destruct H1 as [x1 H1], H2 as [x2 H2].
  apply In_cells_sheet in H1. apply In_cells_sheets in H2.
  destruct H1 as (ri & ci & r & v & -> & _).
  destruct H2 as (si' & ri' & ci' & n' & i' & r' & v' & -> & _ & Hk & _).
  unfold pos_lt. left. lia.
Qed.

(** A cell that matches the preprocessed query has its record in the
    result. *)
Lemma search_finds (lower : str -> str) (isspace : char -> bool)
      (wb : workbook_data) (q : str) si ri ci name info v :
  strip isspace (lower q) <> [] ->
  cell_at wb (si, ri, ci) = Some (name, info, v) ->
  contains (strip isspace (lower q)) (lower v) = true ->
  In (make_match lower (strip isspace (lower q)) name (columns info) ri ci v)
     (search_link_in_workbook lower isspace wb q).
Proof.
  intros Hq Hc Hh. rewrite (search_spec lower isspace wb q Hq).
  apply in_map_iff. exists ((si, ri, ci), (name, info, v)). split; [reflexivity|].
  apply filter_In. split; [apply In_all_cells; exact Hc | exact Hh].
Qed.

Lemma Substring_trans (a b c : str) : Substring a b -> Substring b c -> Substring a c.
Proof.
  intros (p1 & s1 & ->) (p2 & s2 & ->). exists (p2 ++ p1), (s1 ++ s2).
  rewrite <- !app_assoc. reflexivity.
Qed.

(** In an aligned workbook the column of a record is the label at the
    column position of its cell. *)
Lemma aligned_column (lower : str -> str) (isspace : char -> bool)
      (wb : workbook_data) (q : str) (m : Match) :
  aligned wb ->
  In m (search_link_in_workbook lower isspace wb q) ->
  exists si ri ci name info v,
    cell_at wb (si, ri, ci) = Some (name, info, v) /\
    sheet m = name /\ row m = (ri + 2)%nat /\ cell_value m = v /\
    nth_error (columns info) ci = Some (column m).
Proof.
  intros Hal Hm. apply search_In in Hm.
  destruct Hm as (_ & si & ri & ci & name & info & v & Hc & _ & ->).
  exists si, ri, ci, name, info, v. cbn [sheet row cell_value column make_match].
  repeat split; auto.
  unfold cell_at in Hc.
  destruct (nth_error (sheets wb) si) as [[name' info']|] eqn:Hs; [|discriminate].
  destruct (nth_error (data info') ri) as [r|] eqn:Hr; [|discriminate].
  destruct (nth_error r ci) as [v'|] eqn:Hn; [|discriminate].
  injection Hc as -> -> ->.
  unfold aligned in Hal. rewrite Forall_forall in Hal.
  specialize (Hal _ (nth_error_In _ _ Hs)). cbn [snd] in Hal.
  rewrite Forall_forall in Hal. specialize (Hal _ (nth_error_In _ _ Hr)).
  assert (Hlt : (ci < List.length (columns info))%nat).
  { rewrite <- Hal. apply nth_error_Some. congruence. }
  unfold col_name.
  destruct (nth_error (columns info) ci) as [c|] eqn:Ec; [reflexivity|].
  apply nth_error_None in Ec. lia.
Qed.

(** X10. The records of a search come in scan order: by sheet in the
    order of the workbook, then by row, then by column position.  The
    result is matched one to one by a list of positions that increases
    strictly in that order, each record built from the cell at its
    position. *)
Theorem results_in_scan_order (lower : str -> str) (isspace : char -> bool)
        (wb : workbook_data) (q : str) :
  exists ps : list (nat * nat * nat),
    StronglySorted pos_lt ps /\
    Forall2
      (fun p m =>
         exists name info v,
           cell_at wb p = Some (name, info, v) /\
           m = make_match lower (strip isspace (lower q)) name (columns info)
                          (snd (fst p)) (snd p) v)
      ps (search_link_in_workbook lower isspace wb q).
Proof.
  destruct (strip isspace (lower q)) as [|c q'] eqn:E.
  - exists []. rewrite (search_empty lower isspace wb q E). split; constructor.
  - assert (Hq : strip isspace (lower q) <> []) by (rewrite E; discriminate).
    rewrite (search_spec lower isspace wb q Hq), E.
    exists (map fst (filter (hit lower (c :: q')) (all_cells wb))). split.
    + apply sorted_map_filter. apply sorted_cells_sheets.
    + apply Forall2_map_In.
      intros [[[si ri] ci] [[name info] v]] Hin.
      apply filter_In in Hin. destruct Hin as [Hin _]. apply In_all_cells in Hin.
      exists name, info, v. split; [exact Hin | reflexivity].
Qed.

(** X11. In a workbook that [process_excel_file] returned, the search
    never falls back on a made-up column name: the column of every
    record is the label that the sheet's column list has at the column
    position of the matching cell. *)
Theorem ingested_match_names_its_column
        (lower : str -> str) (isspace : char -> bool)
        (now : str) (file : UploadedFile) (excel_data : list (str * DataFrame))
        (wb : workbook_data) (q : str) (m : Match) :
  read_excel file = Ok excel_data ->
  wf_excel_data excel_data ->
  process_excel_file now file = Some wb ->
  In m (search_link_in_workbook lower isspace wb q) ->
  exists si ri ci name info v,
    cell_at wb (si, ri, ci) = Some (name, info, v) /\
    sheet m = name /\ row m = (ri + 2)%nat /\ cell_value m = v /\
    nth_error (columns info) ci = Some (column m).
Proof.
  intros Hread Hwf Hp Hm.
  apply (aligned_column lower isspace wb q m); [|exact Hm].
  exact (aligned_ingested now file excel_data wb Hread Hwf Hp).
Qed.

Lemma ingested_match_names_its_column_witness :
  exists si ri ci name info v,
    cell_at {| sheets := [ (lit "Links",
                            {| data := [ [lit "1"; lit "https://a.com"]; [lit ""; lit "2.5"] ];
                               columns := [lit "ID"; lit "URL"];
                               rows := 2 |}) ];
               upload_time := lit "2024-01-01 00:00:00";
               filename := lit "links.xlsx";
               file_size := 2048;
               total_rows := 2 |} (si, ri, ci) = Some (name, info, v) /\
    lit "Links" = name /\ 2%nat = (ri + 2)%nat /\ lit "https://a.com" = v /\
    nth_error (columns info) ci = Some (lit "URL").
Proof.
  apply (ingested_match_names_its_column ascii_lower ascii_isspace
           (lit "2024-01-01 00:00:00") sample_upload _ _ (lit "a.com")
           {| sheet := lit "Links"; row := 2; column := lit "URL";
              cell_value := lit "https://a.com"; match_type := Partial |}
           eq_refl sample_upload_wf ingest_sample).
  vm_compute. left. reflexivity.
Defined.

(** X12. Narrowing.  When the preprocessed form of one query is a
    substring of the preprocessed form of another, every cell the longer
    query finds is found by the shorter one too, at the same sheet, row
    and column and with the same value. *)
Theorem longer_query_finds_fewer_cells
        (lower : str -> str) (isspace : char -> bool)
        (wb : workbook_data) (short long : str) (m : Match) :
  strip isspace (lower short) <> [] ->
  Substring (strip isspace (lower short)) (strip isspace (lower long)) ->
  In m (search_link_in_workbook lower isspace wb long) ->
  exists m',
    In m' (search_link_in_workbook lower isspace wb short) /\
    sheet m' = sheet m /\ row m' = row m /\ column m' = column m /\
    cell_value m' = cell_value m.
Proof.
  intros Hshort Hsub Hm. apply search_In in Hm.
  destruct Hm as (_ & si & ri & ci & name & info & v & Hc & Hh & ->).
  exists (make_match lower (strip isspace (lower short)) name (columns info) ri ci v).
  split; [|cbn [sheet row column cell_value make_match]; auto].
  apply (search_finds lower isspace wb short si ri ci name info v Hshort Hc).
  apply contains_spec. apply contains_spec in Hh.
  exact (Substring_trans _ _ _ Hsub Hh).
Qed.

Lemma longer_query_finds_fewer_cells_witness :
  exists m',
    In m' (search_link_in_workbook ascii_lower ascii_isspace links_workbook (lit "A.com")) /\
    sheet m' = lit "Links" /\ row m' = 3%nat /\ column m' = lit "URL" /\
    cell_value m' = lit "HTTPS://A.com/page".
Proof.
  apply (longer_query_finds_fewer_cells ascii_lower ascii_isspace links_workbook
           (lit "A.com") (lit " a.com/PAGE ")
           {| sheet := lit "Links"; row := 3; column := lit "URL";
              cell_value := lit "HTTPS://A.com/page"; match_type := Partial |}).
  - vm_compute. discriminate.
  - exists [], (lit "/page"). vm_compute. reflexivity.
  - vm_compute. left. reflexivity.
Defined.
